(** * confused: dependency-confusion scanner, a shallow embedding

    The development follows the layout of the Go sources.

    The program:
    - [GoStrings]   the functions of Go's [strings] package that the
                    resolvers call, on byte strings;
    - [Runtime], [Sys]   the outside world the program talks to (HTTP,
                    clock, standard output, logger, temporary files, the
                    GitHub blob API) as an explicit state, with a small
                    state monad;
    - [Types]       internal/types: [ScanResult] and the
                    [PackageResolver] interface;
    - [Pip], [Composer], [Mvn]   internal/resolvers;
    - [SafeSpaces]  [removeSafe], of cmd and of pkg/github;
    - [Details]     [GetPackageDetails] and [buildPackageDetails] of the
                    three resolvers;
    - [GitHubRepo]  pkg/github: repositories, branches and trees;
    - [Config], [CmdConfig]   pkg/config and the [config validate]
                    command;
    - [Cmd], [GitHub], [Web]     the three scan flows.

    What the program is compared with:
    - [PipSpec]     the pip parser as it is described, written without
                    the functions of the resolver, and [PipWords], the
                    parser as the specification words it;
    - [Factory]     the resolver factory, [Filepath] and [Base64]: parts
                    that are not among the sources or belong to Go's
                    library;
    - [Examples]... worlds and inputs for the examples.

    Then the facts, and for each claim of the specification its theorem.
    The sections after these give further properties of the code,
    numbered X1, X2, ...: what the resolvers ask and report, what the
    parsers read, and how the GitHub client, the web scanner and the
    configuration behave.

    Go strings are byte sequences; they are modelled by [string], a list
    of bytes.  The functions of Go's library that look at code points
    decode UTF-8 as the library does: [TrimSpace] removes the white space
    of [unicode.IsSpace], and [ToLower] maps the runes of the string; the
    case tables above ASCII belong to the library and are a parameter.
    [FieldsFunc] is called with a predicate that holds of ASCII
    characters only, so that cutting at bytes and cutting at runes is
    the same. *)

From Stdlib Require Import String Ascii List ZArith Lia Bool Arith.
From Equations Require Import Equations.
Import ListNotations.

Open Scope string_scope.
Open Scope list_scope.
Open Scope Z_scope.

Set Implicit Arguments.

(* ===================================================================== *)
(** * Go's [strings] package                                             *)
(* ===================================================================== *)
Module GoStrings.

Definition nl : string := String (ascii_of_nat 10) "".
Definition backslash : ascii := ascii_of_nat 92.

(** [len(s)] *)
Definition len (s : string) : Z := Z.of_nat (String.length s).

(** [strings.HasPrefix(s, prefix)] *)
Definition HasPrefix (s prefix : string) : bool := String.prefix prefix s.

(** The string read backwards; used for the functions that look at the
    end of a string. *)
Fixpoint rev (s : string) : string :=
  match s with
  | "" => ""
  | String c s' => rev s' ++ String c ""
  end.

(** [strings.HasSuffix(s, suffix)] *)
Definition HasSuffix (s suffix : string) : bool :=
  String.prefix (rev suffix) (rev s).

(** [s[:len(s)-1]], for a non-empty [s]. *)
Fixpoint dropLast (s : string) : string :=
  match s with
  | "" => ""
  | String c "" => ""
  | String c s' => String c (dropLast s')
  end.

(** ** unicode/utf8 and unicode *)

(** A byte of a string as a number, and back. *)
Definition byte (c : ascii) : Z := Z.of_nat (nat_of_ascii c).
Definition char (b : Z) : ascii := ascii_of_nat (Z.to_nat b).

(** [utf8.RuneError], U+FFFD. *)
Definition RuneError : Z := 0xFFFD.

(** A continuation byte: [locb <= b <= hicb]. *)
Definition continuation (b : Z) : bool := (0x80 <=? b) && (b <=? 0xBF).

(** [utf8.DecodeRuneInString(s)]: the first rune of [s] and its width in
    bytes; an ill-formed or incomplete encoding gives [RuneError] and
    width 1.  The first byte fixes the width and the range accepted for
    the second byte (the tables [first] and [acceptRanges]). *)
Definition DecodeRuneInString (s : string) : Z * nat :=
  match s with
  | "" => (RuneError, 0%nat)
  | String c0 s1 =>
      let s0 := byte c0 in
      if s0 <? 0x80 then (s0, 1%nat)
      else if (s0 <? 0xC2) || (0xF4 <? s0) then (RuneError, 1%nat)
      else
        let lo := if s0 =? 0xE0 then 0xA0 else if s0 =? 0xF0 then 0x90 else 0x80 in
        let hi := if s0 =? 0xED then 0x9F else if s0 =? 0xF4 then 0x8F else 0xBF in
        match s1 with
        | "" => (RuneError, 1%nat)
        | String c1 s2 =>
            let b1 := byte c1 in
            if (b1 <? lo) || (hi <? b1) then (RuneError, 1%nat)
            else if s0 <? 0xE0 then
              (Z.lor (Z.shiftl (Z.land s0 0x1F) 6) (Z.land b1 0x3F), 2%nat)
            else
              match s2 with
              | "" => (RuneError, 1%nat)
              | String c2 s3 =>
                  let b2 := byte c2 in
                  if negb (continuation b2) then (RuneError, 1%nat)
                  else if s0 <? 0xF0 then
                    (Z.lor (Z.shiftl (Z.land s0 0x0F) 12)
                           (Z.lor (Z.shiftl (Z.land b1 0x3F) 6) (Z.land b2 0x3F)),
                     3%nat)
                  else
                    match s3 with
                    | "" => (RuneError, 1%nat)
                    | String c3 _ =>
                        let b3 := byte c3 in
                        if negb (continuation b3) then (RuneError, 1%nat)
                        else
                          (Z.lor (Z.shiftl (Z.land s0 0x07) 18)
                                 (Z.lor (Z.shiftl (Z.land b1 0x3F) 12)
                                        (Z.lor (Z.shiftl (Z.land b2 0x3F) 6)
                                               (Z.land b3 0x3F))),
                           4%nat)
                    end
              end
        end
  end.

(** [utf8.AppendRune(nil, r)]: the encoding of [r]; a rune out of range
    or a surrogate is encoded as [RuneError]. *)
Definition EncodeRune (r : Z) : string :=
  let three (r : Z) :=
    String (char (Z.lor 0xE0 (Z.shiftr r 12)))
      (String (char (Z.lor 0x80 (Z.land (Z.shiftr r 6) 0x3F)))
         (String (char (Z.lor 0x80 (Z.land r 0x3F))) "")) in
  if (0 <=? r) && (r <=? 0x7F) then String (char r) ""
  else if (0 <=? r) && (r <=? 0x7FF) then
    String (char (Z.lor 0xC0 (Z.shiftr r 6)))
      (String (char (Z.lor 0x80 (Z.land r 0x3F))) "")
  else if (r <? 0) || (0x10FFFF <? r) || ((0xD800 <=? r) && (r <=? 0xDFFF))
  then three RuneError
  else if r <=? 0xFFFF then three r
  else
    String (char (Z.lor 0xF0 (Z.shiftr r 18)))
      (String (char (Z.lor 0x80 (Z.land (Z.shiftr r 12) 0x3F)))
         (String (char (Z.lor 0x80 (Z.land (Z.shiftr r 6) 0x3F)))
            (String (char (Z.lor 0x80 (Z.land r 0x3F))) ""))).

(** [utf8.DecodeLastRuneInString(s)], on the bytes of [s] read backwards:
    the last rune of [s] and its width.  The start of the rune is looked
    for among the three bytes before the last one; what starts there
    must decode to a rune that ends with the string.  When none of the
    three starts a rune, Go decodes from one byte further back, or from
    the start of a string of four bytes: no rune of at most four bytes
    that starts there, or at the fourth byte from the end, which is a
    continuation byte, ends with the string, and the result is
    [RuneError] with width 1 in both cases. *)
Definition DecodeLastRune (backwards : string) : Z * nat :=
  match backwards with
  | "" => (RuneError, 0%nat)
  | String e1 r1 =>
      if byte e1 <? 0x80 then (byte e1, 1%nat)
      else
        let RuneStart (c : ascii) := negb (Z.land (byte c) 0xC0 =? 0x80) in
        let tail :=
          match r1 with
          | "" => String e1 ""
          | String e2 r2 =>
              if RuneStart e2 then String e2 (String e1 "")
              else match r2 with
                   | "" => String e2 (String e1 "")
                   | String e3 r3 =>
                       if RuneStart e3 then String e3 (String e2 (String e1 ""))
                       else match r3 with
                            | "" => String e3 (String e2 (String e1 ""))
                            | String e4 _ =>
                                String e4 (String e3 (String e2 (String e1 "")))
                            end
                   end
          end in
        let (r, size) := DecodeRuneInString tail in
        if (size =? String.length tail)%nat then (r, size) else (RuneError, 1%nat)
  end.

(** [unicode.IsSpace(r)]: in Latin-1 the six ASCII characters, U+0085 and
    U+00A0; above it the table [White_Space]. *)
Definition IsSpace (r : Z) : bool :=
  if r <=? 0xFF then
    ((0x09 <=? r) && (r <=? 0x0D)) || (r =? 0x20) || (r =? 0x85) || (r =? 0xA0)
  else
    (r =? 0x1680) || ((0x2000 <=? r) && (r <=? 0x200A))
    || (r =? 0x2028) || (r =? 0x2029) || (r =? 0x202F) || (r =? 0x205F)
    || (r =? 0x3000).

(** The white space of Unicode (the property [White_Space]), each
    character in its UTF-8 encoding: U+0009 to U+000D, U+0020, U+0085,
    U+00A0, U+1680, U+2000 to U+200A, U+2028, U+2029, U+202F, U+205F and
    U+3000. *)
Definition whiteSpace : list string :=
  let one (a : Z) := String (char a) "" in
  let two (a b : Z) := String (char a) (String (char b) "") in
  let three (a b c : Z) :=
    String (char a) (String (char b) (String (char c) "")) in
  [one 9; one 10; one 11; one 12; one 13; one 32; two 194 133; two 194 160;
   three 225 154 128;
   three 226 128 128; three 226 128 129; three 226 128 130; three 226 128 131;
   three 226 128 132; three 226 128 133; three 226 128 134; three 226 128 135;
   three 226 128 136; three 226 128 137; three 226 128 138;
   three 226 128 168; three 226 128 169; three 226 128 175; three 226 129 159;
   three 227 128 128].

(** [strings.TrimLeftFunc(s, unicode.IsSpace)]: the runes at the start of
    [s] are dropped as long as they are white space. *)
Fixpoint TrimLeft (s : string) : string :=
  match s with
  | "" => ""
  | String _ s1 =>
      let (r, width) := DecodeRuneInString s in
      if IsSpace r then
        match width, s1 with
        | 1%nat, _ => TrimLeft s1
        | 2%nat, String _ s2 => TrimLeft s2
        | 3%nat, String _ (String _ s3) => TrimLeft s3
        | 4%nat, String _ (String _ (String _ s4)) => TrimLeft s4
        | _, _ => s
        end
      else s
  end.

(** The same from the end, on the bytes read backwards. *)
Fixpoint trimBackwards (b : string) : string :=
  match b with
  | "" => ""
  | String _ b1 =>
      let (r, width) := DecodeLastRune b in
      if IsSpace r then
        match width, b1 with
        | 1%nat, _ => trimBackwards b1
        | 2%nat, String _ b2 => trimBackwards b2
        | 3%nat, String _ (String _ b3) => trimBackwards b3
        | 4%nat, String _ (String _ (String _ b4)) => trimBackwards b4
        | _, _ => b
        end
      else b
  end.

(** [strings.TrimRightFunc(s, unicode.IsSpace)] *)
Definition TrimRight (s : string) : string := rev (trimBackwards (rev s)).

(** [strings.TrimSpace(s)] *)
Definition TrimSpace (s : string) : string := TrimRight (TrimLeft s).

(** [strings.Split(s, sep)] for a separator of one byte: the pieces
    between the separators, always at least one piece. *)
Fixpoint Split1 (s : string) (sep : ascii) : list string :=
  match s with
  | "" => [""]
  | String c s' =>
      if Ascii.eqb c sep then "" :: Split1 s' sep
      else match Split1 s' sep with
           | [] => [String c ""]
           | p :: ps => String c p :: ps
           end
  end.

(** [unicode.ToLower] on the ASCII range, on a byte. *)
Definition toLower (c : ascii) : ascii :=
  let n := nat_of_ascii c in
  if ((65 <=? n)%nat && (n <=? 90)%nat)%bool then ascii_of_nat (n + 32) else c.

Fixpoint isASCII (s : string) : bool :=
  match s with
  | "" => true
  | String c s' => (byte c <? 0x80) && isASCII s'
  end.

Fixpoint lowerBytes (s : string) : string :=
  match s with
  | "" => ""
  | String c s' => String (toLower c) (lowerBytes s')
  end.

(** [strings.Map(mapping, s)]: the runes of [s] are decoded one after the
    other, and the encodings of their images are put together; a rune
    mapped to a negative value is dropped.  [skip] counts the bytes left
    of the rune that was decoded last. *)
Fixpoint mapFrom (mapping : Z -> Z) (skip : nat) (s : string) : string :=
  match s with
  | "" => ""
  | String _ rest =>
      match skip with
      | S k => mapFrom mapping k rest
      | O =>
          let (c, width) := DecodeRuneInString s in
          let r := mapping c in
          String.append (if 0 <=? r then EncodeRune r else "")
                        (mapFrom mapping (width - 1)%nat rest)
      end
  end.

Definition Map (mapping : Z -> Z) (s : string) : string := mapFrom mapping 0 s.

Section Case.

(** [unicode.To(unicode.LowerCase, r)] for a rune above ASCII: the case
    tables of package unicode, which belong to the version of Go the
    program is built with. *)
Variable lowerCase : Z -> Z.

(** [unicode.ToLower(r)] *)
Definition unicode_ToLower (r : Z) : Z :=
  if r <=? 0x7F then
    if (65 <=? r) && (r <=? 90) then r + 32 else r
  else lowerCase r.

(** [strings.ToLower(s)]: byte by byte for a string of ASCII only,
    otherwise [strings.Map(unicode.ToLower, s)]. *)
Definition ToLower (s : string) : string :=
  if isASCII s then lowerBytes s else Map unicode_ToLower s.

End Case.

(** [strings.Replace(s, old, new, -1)] for [old] and [new] of one byte. *)
Fixpoint ReplaceAll1 (s : string) (old new : ascii) : string :=
  match s with
  | "" => ""
  | String c s' =>
      String (if Ascii.eqb c old then new else c) (ReplaceAll1 s' old new)
  end.

(** [strings.FieldsFunc(s, f)].  Go walks the string once, remembering
    where the field being read started ([start >= 0]) or that no field
    is open ([start < 0]); [cur] is that open field. *)
Fixpoint fieldsLoop (f : ascii -> bool) (s : string) (cur : option string)
  : list string :=
  match s with
  | "" => match cur with Some fld => [fld] | None => [] end
  | String c s' =>
      if f c then
        match cur with
        | Some fld => fld :: fieldsLoop f s' None
        | None => fieldsLoop f s' None
        end
      else
        match cur with
        | Some fld => fieldsLoop f s' (Some (fld ++ String c "")%string)
        | None => fieldsLoop f s' (Some (String c ""))
        end
  end.

Definition FieldsFunc (s : string) (f : ascii -> bool) : list string :=
  fieldsLoop f s None.

End GoStrings.
Import GoStrings.

(* ===================================================================== *)
(** * The world outside the program                                      *)
(* ===================================================================== *)
Module Runtime.

(** Go [error] values.  [fmt.Errorf] keeps its format and arguments;
    an error made by a library call is opaque text. *)
Inductive error : Type :=
| Errorf (format : string) (args : list Arg)
| LibError (msg : string)
with Arg : Type :=
| AStr (s : string)
| AInt (n : Z)
| ABool (b : bool)
| AErr (e : error).

(** What [http.Get] (or [http.Client.Do]) gives back: a transport error,
    or a response with its status code, status line and body. *)
Inductive HttpResult : Type :=
| HttpError (err : error)
| HttpResponse (StatusCode : Z) (Status : string) (Body : string).

Inductive LogLevel : Type := DEBUG | INFO | WARN | ERROR | FATAL.

(** Everything the program does that can be seen from outside. *)
Inductive Event : Type :=
| EvGet (url : string)                       (* an HTTP GET is issued *)
| EvSleep (seconds : Z)                       (* time.Sleep *)
| EvStdout (format : string) (args : list Arg) (* fmt.Print / fmt.Printf *)
| EvLog (level : LogLevel) (format : string) (args : list Arg)
| EvTempWrite (name : string) (content : string)
| EvRemove (name : string).

(** A blob as the GitHub API returns it. *)
Record Blob : Type := mkBlob {
  BlobContent : string;
  BlobEncoding : string
}.

(** The state of the world.  [net n url] is the registry's or web
    server's answer to the [n]-th request the program issues when that
    request is for [url]; [rtt] is how long that exchange takes, in
    seconds.  [tempNames n] is the name [os.CreateTemp] picks for the
    [n]-th temporary file, or the error it fails with. *)
Record World : Type := mkWorld {
  net : nat -> string -> HttpResult;
  rtt : nat -> string -> Z;
  gitBlobs : string -> string -> string -> error + Blob;
  tempNames : nat -> error + string;
  served : nat;
  temps : nat;
  files : list (string * string);
  clock : Z;
  trace : list Event
}.

Definition M (A : Type) : Type := World -> A * World.

Definition ret {A} (a : A) : M A := fun w => (a, w).
Definition bind {A B} (m : M A) (k : A -> M B) : M B :=
  fun w => let (a, w') := m w in k a w'.

Definition emit (e : Event) : M unit := fun w =>
  (tt, mkWorld (net w) (rtt w) (gitBlobs w) (tempNames w) (served w)
               (temps w) (files w) (clock w) (trace w ++ [e])).

Definition when (b : bool) (m : M unit) : M unit :=
  if b then m else ret tt.

End Runtime.
Import Runtime.

Declare Scope go_scope.
Delimit Scope go_scope with go.
Notation "x <- m ;; k" := (bind m (fun x => k))
  (at level 61, m at next level, right associativity) : go_scope.
Notation "m ;; k" := (bind m (fun _ => k))
  (at level 61, right associativity) : go_scope.
Open Scope go_scope.

Module Sys.

(** [http.Get(url)]: the request is recorded, answered by the world,
    and takes the world's round-trip time. *)
Definition http_Get (url : string) : M HttpResult := fun w =>
  (net w (served w) url,
   mkWorld (net w) (rtt w) (gitBlobs w) (tempNames w) (S (served w))
           (temps w) (files w) (clock w + rtt w (served w) url)
           (trace w ++ [EvGet url])).

(** [time.Sleep(d * time.Second)] *)
Definition time_Sleep (seconds : Z) : M unit := fun w =>
  (tt, mkWorld (net w) (rtt w) (gitBlobs w) (tempNames w) (served w)
               (temps w) (files w) (clock w + seconds)
               (trace w ++ [EvSleep seconds])).

(** [time.Now()] *)
Definition time_Now : M Z := fun w => (clock w, w).

(** [fmt.Print(s)] and [fmt.Printf(format, args...)] *)
Definition fmt_Print (s : string) : M unit := emit (EvStdout s []).
Definition fmt_Printf (format : string) (args : list Arg) : M unit :=
  emit (EvStdout format args).

(** The methods of pkg/logger. *)
Definition log (level : LogLevel) (format : string) (args : list Arg)
  : M unit := emit (EvLog level format args).

Fixpoint lookupFile (name : string) (fs : list (string * string))
  : option string :=
  match fs with
  | [] => None
  | (n, c) :: fs' => if String.eqb n name then Some c else lookupFile name fs'
  end.

(** [ioutil.ReadFile(filename)] *)
Definition ReadFile (filename : string) : M (error + string) := fun w =>
  (match lookupFile filename (files w) with
   | Some c => inr c
   | None => inl (LibError ("open " ++ filename ++ ": no such file or directory"))
   end, w).

(** [os.Remove(name)] *)
Definition os_Remove (name : string) : M unit := fun w =>
  (tt, mkWorld (net w) (rtt w) (gitBlobs w) (tempNames w) (served w)
               (temps w)
               (filter (fun p => negb (String.eqb (fst p) name)) (files w))
               (clock w) (trace w ++ [EvRemove name])).

(** [os.CreateTemp] followed by [Write] and [Close], as both
    [createTempFile] functions do it.  Creation fails when the world
    says so; writing and closing the fresh file succeed. *)
Definition createTempFile (content : string) : M (error + string) := fun w =>
  match tempNames w (temps w) with
  | inl e =>
      (inl e, mkWorld (net w) (rtt w) (gitBlobs w) (tempNames w) (served w)
                      (S (temps w)) (files w) (clock w) (trace w))
  | inr name =>
      (inr name,
       mkWorld (net w) (rtt w) (gitBlobs w) (tempNames w) (served w)
               (S (temps w)) ((name, content) :: files w) (clock w)
               (trace w ++ [EvTempWrite name content]))
  end.

(** [client.Git.GetBlob(ctx, owner, repo, sha)] *)
Definition Git_GetBlob (owner repo sha : string) : M (error + Blob) :=
  fun w => (gitBlobs w owner repo sha, w).

End Sys.
Import Sys.

(** The number of further calls a retrying availability check can make:
    the measure of its recursion. *)
Definition retriesLeft (retry : Z) : nat := Z.to_nat (4 - retry).
Arguments retriesLeft : simpl never.

(** Observations on a trace. *)
Definition isGet (e : Event) : bool :=
  match e with EvGet _ => true | _ => false end.
Definition isSleep (e : Event) : bool :=
  match e with EvSleep _ => true | _ => false end.

Definition gets (t : list Event) : list Event := filter isGet t.
Definition sleeps (t : list Event) : list Event := filter isSleep t.

(* ===================================================================== *)
(** * internal/types                                                     *)
(* ===================================================================== *)
Module Types.

(** A value stored in a [map[string]interface{}]. *)
Inductive MetaValue : Type :=
| MStr (s : string)
| MInt (n : Z).

Definition MetaMap : Type := list (string * MetaValue).

(** [m[key] = v] *)
Definition setMeta (m : MetaMap) (key : string) (v : MetaValue) : MetaMap :=
  (key, v) :: filter (fun p => negb (String.eqb (fst p) key)) m.

Record ScanResult : Type := mkScanResult {
  Target : string;
  ScanType : string;
  Language : string;
  Vulnerable : list string;
  Safe : list string;
  Total : Z;
  Timestamp : Z;
  Duration : Z;
  Metadata : MetaMap
}.

(** [NewScanResult(target, scanType, language)] *)
Definition NewScanResult (target scanType language : string) : M ScanResult :=
  now <- time_Now ;;
  ret (mkScanResult target scanType language [] [] 0 now 0 []).

(** [sr.AddVulnerable(pkg)] *)
Definition AddVulnerable (sr : ScanResult) (pkg : string) : ScanResult :=
  mkScanResult (Target sr) (ScanType sr) (Language sr)
               (Vulnerable sr ++ [pkg]) (Safe sr) (Total sr)
               (Timestamp sr) (Duration sr) (Metadata sr).

(** [sr.AddSafe(pkg)] *)
Definition AddSafe (sr : ScanResult) (pkg : string) : ScanResult :=
  mkScanResult (Target sr) (ScanType sr) (Language sr)
               (Vulnerable sr) (Safe sr ++ [pkg]) (Total sr)
               (Timestamp sr) (Duration sr) (Metadata sr).

(** [sr.Metadata[key] = v] *)
Definition SetMetadata (sr : ScanResult) (key : string) (v : MetaValue)
  : ScanResult :=
  mkScanResult (Target sr) (ScanType sr) (Language sr)
               (Vulnerable sr) (Safe sr) (Total sr)
               (Timestamp sr) (Duration sr) (setMeta (Metadata sr) key v).

(** [sr.Finalize()] *)
Definition Finalize (sr : ScanResult) : M ScanResult :=
  now <- time_Now ;;
  ret (mkScanResult (Target sr) (ScanType sr) (Language sr)
                    (Vulnerable sr) (Safe sr)
                    (Z.of_nat (length (Vulnerable sr)) + Z.of_nat (length (Safe sr)))
                    (Timestamp sr) (now - Timestamp sr) (Metadata sr)).

(** [sr.IsVulnerable()] *)
Definition IsVulnerable (sr : ScanResult) : bool :=
  0 <? Z.of_nat (length (Vulnerable sr)).

(** The [PackageResolver] interface.  A resolver is a Go object with
    pointer receivers: [ReadPackagesFromFile] returns the object as it is
    after the call. *)
Class PackageResolver (R : Type) : Type := {
  ReadPackagesFromFile : string -> R -> M (option error * R);
  PackagesNotInPublic : R -> M (list string);
  GetPackageCount : R -> Z;
  GetLanguage : R -> string
}.

(** A value of interface type: some implementation together with its
    object. *)
Record Resolver : Type := mkResolver {
  impl : Type;
  methods : PackageResolver impl;
  self : impl
}.

End Types.
Import Types.

(* ===================================================================== *)
(** * internal/resolvers/pip.go                                          *)
(* ===================================================================== *)
Module Pip.

Record PythonLookup : Type := mkPythonLookup {
  Packages : list string;
  Verbose : bool;
  timeout : Z;
  rateLimit : Z
}.

(** [NewPythonLookup(verbose)] *)
Definition NewPythonLookup (verbose : bool) : PythonLookup :=
  mkPythonLookup [] verbose 30 100.

Definition setPackages (p : PythonLookup) (pkgs : list string) : PythonLookup :=
  mkPythonLookup pkgs (Verbose p) (timeout p) (rateLimit p).

(** [pipSplit(r)]: is [r] one of the delimiters? *)
Definition pipSplit (r : ascii) : bool :=
  existsb (Ascii.eqb r) ["="; "<"; ">"; "!"; " "; "~"; "#"; "["]%char.

(** One turn of the loop over the lines of the file.  The state is the
    local variable [line] and [p.Packages]. *)
Definition lineStep (st : string * list string) (l0 : string)
  : string * list string :=
  let (line, pkgs) := st in
  let l := TrimSpace l0 in
  if HasPrefix l "#" then st
  else if 0 <? len l then
    if HasSuffix l "\" then ((line ++ dropLast l)%string, pkgs)
    else
      let line := (line ++ l)%string in
      let pkgrow := FieldsFunc line pipSplit in
      ("", match pkgrow with
           | fld :: _ => pkgs ++ [TrimSpace fld]
           | [] => pkgs
           end)
  else st.

Definition readLines (rawfile : string) (pkgs : list string) : list string :=
  snd (fold_left lineStep (Split1 rawfile (ascii_of_nat 10)) ("", pkgs)).

(** [p.ReadPackagesFromFile(filename)] *)
Definition ReadPackagesFromFile (filename : string) (p : PythonLookup)
  : M (option error * PythonLookup) :=
  r <- ReadFile filename ;;
  match r with
  | inl err => ret (Some err, p)
  | inr rawfile => ret (None, setPackages p (readLines rawfile (Packages p)))
  end.

Definition url (pkgname : string) : string :=
  "https://pypi.org/project/" ++ pkgname ++ "/".

(** [p.isAvailableInPublic(pkgname)] *)
Definition isAvailableInPublic (p : PythonLookup) (pkgname : string) : M bool :=
  when (Verbose p)
       (fmt_Print ("Checking: https://pypi.org/project/" ++ pkgname ++ "/ : ")) ;;
  r <- http_Get ("https://pypi.org/project/" ++ pkgname ++ "/") ;;
  match r with
  | HttpError err =>
      fmt_Printf (" [W] Error when trying to request https://pypi.org/project/"
                    ++ pkgname ++ "/ : %s" ++ nl) [AErr err] ;;
      ret false
  | HttpResponse code status _ =>
      when (Verbose p) (fmt_Printf ("%s" ++ nl) [AStr status]) ;;
      if code =? 200 then ret true else ret false
  end.

(** The loop of [PackagesNotInPublic]. *)
Fixpoint notInPublic (p : PythonLookup) (pkgs notavail : list string)
  : M (list string) :=
  match pkgs with
  | [] => ret notavail
  | pkg :: rest =>
      ok <- isAvailableInPublic p pkg ;;
      notInPublic p rest (if negb ok then notavail ++ [pkg] else notavail)
  end.

(** [p.PackagesNotInPublic()] *)
Definition PackagesNotInPublic (p : PythonLookup) : M (list string) :=
  notInPublic p (Packages p) [].

Definition GetPackageCount (p : PythonLookup) : Z :=
  Z.of_nat (length (Packages p)).

Definition GetLanguage (p : PythonLookup) : string := "pip".

#[export] Instance resolver : PackageResolver PythonLookup := {
  Types.ReadPackagesFromFile := ReadPackagesFromFile;
  Types.PackagesNotInPublic := PackagesNotInPublic;
  Types.GetPackageCount := GetPackageCount;
  Types.GetLanguage := GetLanguage
}.

End Pip.

(* ===================================================================== *)
(** * internal/resolvers/composer.go                                     *)
(* ===================================================================== *)
Module Composer.

(** [ComposerJSON]: the two Go maps, as the key/value pairs in the order
    a [range] over the map visits them. *)
Record ComposerJSON : Type := mkComposerJSON {
  Require : list (string * string);
  RequireDev : list (string * string)
}.

Record ComposerPackage : Type := mkComposerPackage {
  Name : string;
  Version : string
}.

Record ComposerLookup : Type := mkComposerLookup {
  Packages : list ComposerPackage;
  Verbose : bool;
  timeout : Z;
  rateLimit : Z
}.

(** [NewComposerLookup(verbose)] *)
Definition NewComposerLookup (verbose : bool) : ComposerLookup :=
  mkComposerLookup [] verbose 30 100.

Definition setPackages (c : ComposerLookup) (pkgs : list ComposerPackage)
  : ComposerLookup :=
  mkComposerLookup pkgs (Verbose c) (timeout c) (rateLimit c).

Section References.

(** The case tables of package unicode, which [strings.ToLower] looks
    up for the runes above ASCII. *)
Variable lowerCase : Z -> Z.

(** [c.localReference(pkgversion)] *)
Definition localReference (pkgversion : string) : bool :=
  HasPrefix (ToLower lowerCase pkgversion) "file:".

(** [c.urlReference(pkgversion)] *)
Definition urlReference (pkgversion : string) : bool :=
  let pkgversion := ToLower lowerCase pkgversion in
  HasPrefix pkgversion "http:" || HasPrefix pkgversion "https:".

(** [c.gitReference(pkgversion)] *)
Definition gitReference (pkgversion : string) : bool :=
  let pkgversion := ToLower lowerCase pkgversion in
  let gitResources := ["git+ssh:"; "git+http:"; "git+https:"; "git:"] in
  existsb (fun r => HasPrefix pkgversion r) gitResources.

End References.

Definition url (pkgname : string) : string :=
  "https://packagist.org/packages/" ++ pkgname ++ ".json".

(** [c.isAvailableInPublic(pkgname, retry)].  The recursion ends because
    [retry] grows by one at each call and stops the function above 3. *)
Equations? isAvailableInPublic (c : ComposerLookup) (pkgname : string)
           (retry : Z) : M bool by wf (retriesLeft retry) lt :=
  isAvailableInPublic c pkgname retry with Z_gt_dec retry 3 => {
    | left _ =>
        fmt_Printf (" [W] Maximum number of retries exhausted for package: %s" ++ nl)
                   [AStr pkgname] ;;
        ret false
    | right _ =>
        when (Verbose c)
             (fmt_Print ("Checking: https://packagist.org/packages/"
                           ++ pkgname ++ ".json : ")) ;;
        r <- http_Get ("https://packagist.org/packages/" ++ pkgname ++ ".json") ;;
        match r with
        | HttpError err =>
            fmt_Printf (" [W] Error when trying to request https://packagist.org/packages/"
                          ++ pkgname ++ ".json : %s" ++ nl) [AErr err] ;;
            ret false
        | HttpResponse code status _ =>
            when (Verbose c) (fmt_Printf ("%s" ++ nl) [AStr status]) ;;
            if code =? 200 then ret true
            else if code =? 429 then
              fmt_Printf (" [!] Server responded with 429 (Too many requests), throttling and retrying..." ++ nl) [] ;;
              time_Sleep 10 ;;
              isAvailableInPublic c pkgname (retry + 1)
            else ret false
        end
    }.
Proof. unfold retriesLeft. lia. Qed.

Section Lookup.

Variable lowerCase : Z -> Z.

(** The loop of [PackagesNotInPublic]. *)
Fixpoint notInPublic (c : ComposerLookup) (pkgs : list ComposerPackage)
         (notavail : list string) : M (list string) :=
  match pkgs with
  | [] => ret notavail
  | pkg :: rest =>
      if localReference lowerCase (Version pkg)
         || urlReference lowerCase (Version pkg)
         || gitReference lowerCase (Version pkg)
      then notInPublic c rest notavail
      else
        ok <- isAvailableInPublic c (Name pkg) 0 ;;
        notInPublic c rest (if negb ok then notavail ++ [Name pkg] else notavail)
  end.

(** [c.PackagesNotInPublic()] *)
Definition PackagesNotInPublic (c : ComposerLookup) : M (list string) :=
  notInPublic c (Packages c) [].

End Lookup.

Definition GetPackageCount (c : ComposerLookup) : Z :=
  Z.of_nat (length (Packages c)).

Definition GetLanguage (c : ComposerLookup) : string := "composer".

Section Reading.

Variable lowerCase : Z -> Z.

(** [json.Unmarshal(rawfile, &data)] of encoding/json: the decoded
    value, and the error if the text is not valid. *)
Variable json_Unmarshal : string -> ComposerJSON * option error.

Definition appendAll (pkgs : list ComposerPackage) (m : list (string * string))
  : list ComposerPackage :=
  fold_left (fun acc kv => acc ++ [mkComposerPackage (fst kv) (snd kv)]) m pkgs.

(** [c.ReadPackagesFromFile(filename)] *)
Definition ReadPackagesFromFile (filename : string) (c : ComposerLookup)
  : M (option error * ComposerLookup) :=
  r <- ReadFile filename ;;
  match r with
  | inl err => ret (Some err, c)
  | inr rawfile =>
      let (data, err) := json_Unmarshal rawfile in
      match err with
      | Some e =>
          fmt_Printf (" [W] Non-fatal issue encountered while reading %s : %s" ++ nl)
                     [AStr filename; AErr e]
      | None => ret tt
      end ;;
      ret (None,
           setPackages c (appendAll (appendAll (Packages c) (Require data))
                                    (RequireDev data)))
  end.

#[export] Instance resolver : PackageResolver ComposerLookup := {
  Types.ReadPackagesFromFile := ReadPackagesFromFile;
  Types.PackagesNotInPublic := PackagesNotInPublic lowerCase;
  Types.GetPackageCount := GetPackageCount;
  Types.GetLanguage := GetLanguage
}.

End Reading.

End Composer.

(* ===================================================================== *)
(** * internal/resolvers/mvn.go                                          *)
(* ===================================================================== *)
Module Mvn.

(** Modelled from the spec: [MavenProject] is declared in mvnparser.go,
    which is not among the sources.  The spec's maven parser collects
    [dependencies], [build.plugins] and each [profile.build.plugins]
    entry as (group, artifact, version) triples; these are the fields
    [ReadPackagesFromFile] reads. *)
Record MavenDependency : Type := mkMavenDependency {
  GroupId : string;
  ArtifactId : string;
  DepVersion : string
}.

Record MavenBuild : Type := mkMavenBuild {
  Plugins : list MavenDependency
}.

Record MavenProfile : Type := mkMavenProfile {
  ProfileBuild : MavenBuild
}.

Record MavenProject : Type := mkMavenProject {
  Dependencies : list MavenDependency;
  Build : MavenBuild;
  Profiles : list MavenProfile
}.

Record MVNPackage : Type := mkMVNPackage {
  Group : string;
  Artifact : string;
  Version : string
}.

Record MVNLookup : Type := mkMVNLookup {
  Packages : list MVNPackage;
  Verbose : bool;
  timeout : Z;
  rateLimit : Z
}.

(** [NewMVNLookup(verbose)] *)
Definition NewMVNLookup (verbose : bool) : MVNLookup :=
  mkMVNLookup [] verbose 30 100.

Definition setPackages (n : MVNLookup) (pkgs : list MVNPackage) : MVNLookup :=
  mkMVNLookup pkgs (Verbose n) (timeout n) (rateLimit n).

Definition url (group : string) : string :=
  "https://repo1.maven.org/maven2/" ++ ReplaceAll1 group "." "/" ++ "/".

(** The identifier [PackagesNotInPublic] reports for a package. *)
Definition ident (pkg : MVNPackage) : string :=
  Group pkg ++ "/" ++ Artifact pkg.

Section Resolver.

(** [NpmResponse] and its method [NotAvailable] are declared in npm.go,
    which is not among the sources.  [NotAvailable body] stands for
    decoding [body] into an [NpmResponse] with [json.Unmarshal] (errors
    ignored) and asking it [NotAvailable()]. *)
Variable NotAvailable : string -> bool.

(** [xml.Unmarshal(rawfile, &project)] of encoding/xml. *)
Variable xml_Unmarshal : string -> error + MavenProject.

(** [n.isAvailableInPublic(pkg, retry)] *)
Equations? isAvailableInPublic (n : MVNLookup) (pkg : MVNPackage)
           (retry : Z) : M bool by wf (retriesLeft retry) lt :=
  isAvailableInPublic n pkg retry with Z_gt_dec retry 3 => {
    | left _ =>
        fmt_Printf (" [W] Maximum number of retries exhausted for package: %s" ++ nl)
                   [AStr (Group pkg)] ;;
        ret false
    | right _ =>
        if String.eqb (Group pkg) "" then ret true
        else
          let group := ReplaceAll1 (Group pkg) "." "/" in
          when (Verbose n)
               (fmt_Print ("Checking: https://repo1.maven.org/maven2/"
                             ++ group ++ "/ ")) ;;
          r <- http_Get ("https://repo1.maven.org/maven2/" ++ group ++ "/") ;;
          match r with
          | HttpError err =>
              fmt_Printf (" [W] Error when trying to request https://repo1.maven.org/maven2/"
                            ++ group ++ "/ : %s" ++ nl) [AErr err] ;;
              ret false
          | HttpResponse code status body =>
              when (Verbose n) (fmt_Printf ("%s" ++ nl) [AStr status]) ;;
              if code =? 200 then
                if NotAvailable body then
                  when (Verbose n)
                       (fmt_Printf ("[W] Package %s was found, but all its versions are unpublished, making anyone able to takeover the namespace." ++ nl)
                                   [AStr (Group pkg)]) ;;
                  ret false
                else ret true
              else if code =? 429 then
                fmt_Printf (" [!] Server responded with 429 (Too many requests), throttling and retrying..." ++ nl) [] ;;
                time_Sleep 10 ;;
                isAvailableInPublic n pkg (retry + 1)
              else ret false
          end
    }.
Proof. unfold retriesLeft. lia. Qed.

(** The loop of [PackagesNotInPublic]. *)
Fixpoint notInPublic (n : MVNLookup) (pkgs : list MVNPackage)
         (notavail : list string) : M (list string) :=
  match pkgs with
  | [] => ret notavail
  | pkg :: rest =>
      ok <- isAvailableInPublic n pkg 0 ;;
      notInPublic n rest
        (if negb ok then notavail ++ [(Group pkg ++ "/" ++ Artifact pkg)%string]
         else notavail)
  end.

(** [n.PackagesNotInPublic()] *)
Definition PackagesNotInPublic (n : MVNLookup) : M (list string) :=
  notInPublic n (Packages n) [].

Definition asPackage (dep : MavenDependency) : MVNPackage :=
  mkMVNPackage (GroupId dep) (ArtifactId dep) (DepVersion dep).

(** [n.ReadPackagesFromFile(filename)] *)
Definition ReadPackagesFromFile (filename : string) (n : MVNLookup)
  : M (option error * MVNLookup) :=
  r <- ReadFile filename ;;
  match r with
  | inl err => ret (Some err, n)
  | inr rawfile =>
      when (Verbose n) (fmt_Print ("Checking: filename: " ++ filename ++ nl)) ;;
      if len rawfile <? 10 then
        when (Verbose n)
             (fmt_Printf ("Skipping empty or too small POM file: %s" ++ nl)
                         [AStr filename]) ;;
        ret (None, n)
      else
        match xml_Unmarshal rawfile with
        | inl err =>
            when (Verbose n)
                 (fmt_Printf ("Warning: unable to parse POM file %s: %s" ++ nl)
                             [AStr filename; AErr err]) ;;
            ret (None, n)
        | inr project =>
            let pkgs1 := Packages n ++ map asPackage (Dependencies project) in
            let pkgs2 := pkgs1 ++ map asPackage (Plugins (Build project)) in
            let pkgs3 :=
              fold_left (fun acc build =>
                           acc ++ map asPackage (Plugins (ProfileBuild build)))
                        (Profiles project) pkgs2 in
            ret (None, setPackages n pkgs3)
        end
  end.

Definition GetPackageCount (n : MVNLookup) : Z :=
  Z.of_nat (length (Packages n)).

Definition GetLanguage (n : MVNLookup) : string := "mvn".

#[export] Instance resolver : PackageResolver MVNLookup := {
  Types.ReadPackagesFromFile := ReadPackagesFromFile;
  Types.PackagesNotInPublic := PackagesNotInPublic;
  Types.GetPackageCount := GetPackageCount;
  Types.GetLanguage := GetLanguage
}.

End Resolver.

End Mvn.

(* ===================================================================== *)
(** * Safe spaces: [removeSafe]                                          *)
(* ===================================================================== *)
Module SafeSpaces.

Section RemoveSafe.

(** [filepath.Match(pattern, name)] of path/filepath: whether [name]
    matches the shell pattern, or the error for a malformed pattern. *)
Variable Match : string -> string -> error + bool.

(** The inner loop of [removeSafe]: the value of [ignored] when the
    loop over the safe spaces ends. *)
Fixpoint ignoredBy (safeSpaces : list string) (pkg : string) : M bool :=
  match safeSpaces with
  | [] => ret false
  | safeSpace :: rest =>
      match Match safeSpace pkg with
      | inl err =>
          log WARN "Encountered an error while trying to match a known-safe namespace %s: %v"
              [AStr safeSpace; AErr err] ;;
          ignoredBy rest pkg
      | inr ok => if ok then ret true else ignoredBy rest pkg
      end
  end.

(** The outer loop of [removeSafe]. *)
Fixpoint keepLoop (packages safeSpaces retSlice : list string)
  : M (list string) :=
  match packages with
  | [] => ret retSlice
  | pkg :: rest =>
      ignored <- ignoredBy safeSpaces pkg ;;
      keepLoop rest safeSpaces
               (if negb ignored then retSlice ++ [pkg] else retSlice)
  end.

(** [removeSafe(packages, safeSpaces)], written twice in the sources
    with the same text: in cmd and as a method of the GitHub client. *)
Definition removeSafe (packages safeSpaces : list string) : M (list string) :=
  if Z.of_nat (length safeSpaces) =? 0 then ret packages
  else keepLoop packages safeSpaces [].

End RemoveSafe.

End SafeSpaces.

(* ===================================================================== *)
(** * path/filepath                                                      *)
(* ===================================================================== *)
(** Go's library is not part of the program.  The flows take its
    functions as parameters; this module gives the instances used to run
    them on examples.  [Match] follows the pattern grammar documented for
    path/filepath.Match (Unix separator, ASCII text). *)
Module Filepath.

Definition Separator : ascii := "/"%char.

Inductive term : Type :=
| TStar                                   (* '*' *)
| TAny                                    (* '?' *)
| TLit (c : ascii)                        (* c, or '\\' c *)
| TClass (negated : bool) (ranges : list (ascii * ascii)).

Inductive mode : Type :=
| Top
| InClass (negated : bool) (ranges : list (ascii * ascii))
| AfterDash (negated : bool) (ranges : list (ascii * ascii)) (lo : ascii).

Definition cons_term (t : term) (r : option (list term)) : option (list term) :=
  match r with Some ts => Some (t :: ts) | None => None end.

(** The terms of a pattern, or [None] for a malformed pattern
    ([ErrBadPattern]). *)
Fixpoint parse (m : mode) (s : string) : option (list term) :=
  match m, s with
  | Top, "" => Some []
  | Top, String c r =>
      if Ascii.eqb c "*" then cons_term TStar (parse Top r)
      else if Ascii.eqb c "?" then cons_term TAny (parse Top r)
      else if Ascii.eqb c backslash then
        match r with
        | "" => None
        | String d r' => cons_term (TLit d) (parse Top r')
        end
      else if Ascii.eqb c "[" then
        match r with
        | String "^" r' => parse (InClass true []) r'
        | _ => parse (InClass false []) r
        end
      else cons_term (TLit c) (parse Top r)
  | InClass neg ranges, "" => None
  | InClass neg ranges, String c r =>
      if Ascii.eqb c "]" then
        match ranges with
        | [] => None
        | _ => cons_term (TClass neg ranges) (parse Top r)
        end
      else if Ascii.eqb c "-" then None
      else if Ascii.eqb c backslash then
        match r with
        | "" => None
        | String lo r' =>
            match r' with
            | "" => None
            | String "-" r'' => parse (AfterDash neg ranges lo) r''
            | _ => parse (InClass neg (ranges ++ [(lo, lo)])) r'
            end
        end
      else
        match r with
        | "" => None
        | String "-" r' => parse (AfterDash neg ranges c) r'
        | _ => parse (InClass neg (ranges ++ [(c, c)])) r
        end
  | AfterDash neg ranges lo, "" => None
  | AfterDash neg ranges lo, String c r =>
      if Ascii.eqb c "]" || Ascii.eqb c "-" then None
      else if Ascii.eqb c backslash then
        match r with
        | "" => None
        | String hi r' =>
            match r' with
            | "" => None
            | _ => parse (InClass neg (ranges ++ [(lo, hi)])) r'
            end
        end
      else
        match r with
        | "" => None
        | _ => parse (InClass neg (ranges ++ [(lo, c)])) r
        end
  end.

Definition inRange (c : ascii) (r : ascii * ascii) : bool :=
  (nat_of_ascii (fst r) <=? nat_of_ascii c)%nat
  && (nat_of_ascii c <=? nat_of_ascii (snd r))%nat.

(** Does the whole of [name] match the terms? *)
Fixpoint matches (ts : list term) (name : string) : bool :=
  match ts with
  | [] => match name with "" => true | _ => false end
  | TStar :: ts' =>
      (fix star (n : string) : bool :=
         matches ts' n
         || match n with
            | "" => false
            | String c n' => negb (Ascii.eqb c Separator) && star n'
            end) name
  | TAny :: ts' =>
      match name with
      | "" => false
      | String c n' => negb (Ascii.eqb c Separator) && matches ts' n'
      end
  | TLit d :: ts' =>
      match name with
      | "" => false
      | String c n' => Ascii.eqb c d && matches ts' n'
      end
  | TClass neg ranges :: ts' =>
      match name with
      | "" => false
      | String c n' =>
          negb (Bool.eqb (existsb (inRange c) ranges) neg) && matches ts' n'
      end
  end.

Definition ErrBadPattern : error := LibError "syntax error in pattern".

(** [filepath.Match(pattern, name)] *)
Definition Match (pattern name : string) : error + bool :=
  match parse Top pattern with
  | None => inl ErrBadPattern
  | Some ts => inr (matches ts name)
  end.

(** The text after the last separator of [s], [s] having no trailing
    separator; [acc] is the element being read. *)
Fixpoint lastElem (s acc : string) : string :=
  match s with
  | "" => acc
  | String c r =>
      if Ascii.eqb c Separator then lastElem r ""
      else lastElem r (acc ++ String c "")%string
  end.

Fixpoint stripTrailing (s : string) : string :=
  match s with
  | "" => ""
  | String c r =>
      match stripTrailing r with
      | "" => if Ascii.eqb c Separator then "" else String c ""
      | r' => String c r'
      end
  end.

(** [filepath.Base(path)] *)
Definition Base (path : string) : string :=
  match path with
  | "" => "."
  | _ => match stripTrailing path with
         | "" => "/"
         | p => lastElem p ""
         end
  end.

(** [filepath.Join(a, b)] for elements that are already clean (no [.],
    [..] or doubled separators), as the paths of this program are: the
    non-empty elements joined by a separator. *)
Definition Join (a b : string) : string :=
  match stripTrailing a, stripTrailing b with
  | "", "" => match a, b with "", "" => "" | _, _ => "/" end
  | "", b' => match a with "" => b' | _ => ("/" ++ b')%string end
  | a', "" => a'
  | a', b' => (a' ++ "/" ++ b')%string
  end.

End Filepath.

(** The file-name table that both [getLanguageFromFile] functions carry:
    [fileLanguageMap[fileName]], the empty string for a missing key. *)
Definition fileLanguageMap (fileName : string) : string :=
  if String.eqb fileName "package.json" then "npm"
  else if String.eqb fileName "package-lock.json" then "npm"
  else if String.eqb fileName "yarn.lock" then "npm"
  else if String.eqb fileName "requirements.txt" then "pip"
  else if String.eqb fileName "requirements-dev.txt" then "pip"
  else if String.eqb fileName "setup.py" then "pip"
  else if String.eqb fileName "pyproject.toml" then "pip"
  else if String.eqb fileName "composer.json" then "composer"
  else if String.eqb fileName "composer.lock" then "composer"
  else if String.eqb fileName "pom.xml" then "mvn"
  else if String.eqb fileName "Gemfile" then "rubygems"
  else if String.eqb fileName "Gemfile.lock" then "rubygems"
  else if String.eqb fileName "gems.rb" then "rubygems"
  else "".

(** Running a method of a value of interface type. *)
Definition readPackages (r : Resolver) (filename : string)
  : M (option error * Resolver) :=
  res <- ReadPackagesFromFile (PackageResolver := methods r) filename (self r) ;;
  ret (fst res, mkResolver (methods r) (snd res)).

Definition notInPublic (r : Resolver) : M (list string) :=
  PackagesNotInPublic (PackageResolver := methods r) (self r).

(* ===================================================================== *)
(** * cmd/confused: the [scan] command                                   *)
(* ===================================================================== *)
Module Cmd.

(** The fields of [config.Config] the command reads. *)
Record Config : Type := mkConfig {
  Verbose : bool;
  Workers : Z;
  SaveResults : bool
}.

Section Scan.

Variable cfg : Config.

(** [resolvers.GetResolverForLanguageWithVerbose(language, verbose)],
    of factory.go, which is not among the sources. *)
Variable GetResolverForLanguageWithVerbose : string -> bool -> error + Resolver.

Variable Match : string -> string -> error + bool.

Definition removeSafe := SafeSpaces.removeSafe Match.

(** [printResult(result)] *)
Definition printResult (result : ScanResult) : M unit :=
  if negb (IsVulnerable result) then
    log INFO "All packages seem to be available in the public repositories." [] ;;
    log INFO "In case your application uses private repositories please make sure that those namespaces in public repositories are controlled by a trusted party." []
  else
    log WARN "Issues found, the following packages are not available in public package repositories:" [] ;;
    fold_left (fun acc pkg => acc ;; log WARN " [!] %s" [AStr pkg])
              (Vulnerable result) (ret tt).

(** [runScanCommand(cmd, args)], with [filename = args[0]] and the
    values of the flags [language] and [safe-spaces].  The function is
    followed until the result is printed; after that it only writes
    the finished result to disk and sets the exit status from
    [IsVulnerable]. *)
Definition runScanCommand (filename language : string)
           (safeSpaces : list string) : M (error + ScanResult) :=
  log INFO "Starting dependency confusion scan..." [] ;;
  log INFO "Target: %s" [AStr filename] ;;
  log INFO "Language: %s" [AStr language] ;;
  log INFO "Workers: %d" [AInt (Workers cfg)] ;;
  result <- NewScanResult filename "file" language ;;
  match GetResolverForLanguageWithVerbose language (Verbose cfg) with
  | inl err =>
      ret (inl (Errorf "failed to get resolver for language %s: %w"
                       [AStr language; AErr err]))
  | inr resolver =>
      r <- readPackages resolver filename ;;
      match fst r with
      | Some err =>
          ret (inl (Errorf "failed to read packages from file: %w" [AErr err]))
      | None =>
          vulnerablePackages <- notInPublic (snd r) ;;
          vulnerablePackages <- removeSafe vulnerablePackages safeSpaces ;;
          let result := fold_left AddVulnerable vulnerablePackages result in
          result <- Finalize result ;;
          printResult result ;;
          ret (inr result)
      end
  end.

End Scan.

End Cmd.

(* ===================================================================== *)
(** * pkg/github                                                         *)
(* ===================================================================== *)
Module GitHub.

(** The fields of [github.TreeEntry] the client reads. *)
Record TreeEntry : Type := mkTreeEntry {
  Path : string;
  SHA : string;
  Size : Z;
  EntryType : string
}.

Section Client.

(** [gc.config.Verbose] *)
Variable Verbose : bool.

Variable GetResolverForLanguageWithVerbose : string -> bool -> error + Resolver.
Variable Match : string -> string -> error + bool.
Variable Base : string -> string.

(** [gc.getFileContent(owner, repo, sha)] *)
Definition getFileContent (owner repo sha : string) : M (error + string) :=
  r <- Git_GetBlob owner repo sha ;;
  match r with
  | inl err => ret (inl err)
  | inr blob =>
      (* Decode base64 content *)
      let content := BlobContent blob in
      ret (inr content)
  end.

(** [gc.getLanguageFromFile(filePath)] *)
Definition getLanguageFromFile (filePath : string) : string :=
  let fileName := Base filePath in
  fileLanguageMap fileName.

(** [gc.getResolverForLanguage(language)] *)
Definition getResolverForLanguage (language : string) : error + Resolver :=
  GetResolverForLanguageWithVerbose language Verbose.

Definition removeSafe := SafeSpaces.removeSafe Match.

(** [gc.scanDependencyFile(owner, repo, file, safeSpaces)].  The
    deferred [os.Remove(tempFile)] runs when the function returns. *)
Definition scanDependencyFile (owner repo : string) (file : TreeEntry)
           (safeSpaces : list string) : M (error + ScanResult) :=
  c <- getFileContent owner repo (SHA file) ;;
  match c with
  | inl err => ret (inl (Errorf "failed to get file content: %w" [AErr err]))
  | inr content =>
      let language := getLanguageFromFile (Path file) in
      if String.eqb language "" then
        ret (inl (Errorf "unknown language for file: %s" [AStr (Path file)]))
      else
        result <- NewScanResult (owner ++ "/" ++ repo ++ ":" ++ Path file)
                                "github" language ;;
        match getResolverForLanguage language with
        | inl err =>
            ret (inl (Errorf "failed to get resolver for language %s: %w"
                             [AStr language; AErr err]))
        | inr resolver =>
            t <- createTempFile content ;;
            match t with
            | inl err =>
                ret (inl (Errorf "failed to create temporary file: %w" [AErr err]))
            | inr tempFile =>
                r <- readPackages resolver tempFile ;;
                match fst r with
                | Some err =>
                    os_Remove tempFile ;;
                    ret (inl (Errorf "failed to read packages from file: %w"
                                     [AErr err]))
                | None =>
                    vulnerablePackages <- notInPublic (snd r) ;;
                    vulnerablePackages <- removeSafe vulnerablePackages safeSpaces ;;
                    let result := fold_left AddVulnerable vulnerablePackages result in
                    let result := SetMetadata result "file_path" (MStr (Path file)) in
                    let result := SetMetadata result "file_sha" (MStr (SHA file)) in
                    let result := SetMetadata result "file_size" (MInt (Size file)) in
                    result <- Finalize result ;;
                    os_Remove tempFile ;;
                    ret (inr result)
                end
            end
        end
  end.

End Client.

End GitHub.

(* ===================================================================== *)
(** * pkg/web                                                            *)
(* ===================================================================== *)
Module Web.

(** What the scanner uses of net/url: parsed URLs, their [Host] and
    [Path] fields, a copy with another [Path], and [String()]. *)
Class UrlLib (URL : Type) : Type := {
  url_Parse : string -> error + URL;
  Host : URL -> string;
  Path : URL -> string;
  withPath : URL -> string -> URL;
  URL_String : URL -> string
}.

Record Scanner : Type := mkScanner {
  userAgent : string;
  timeout : Z
}.

Section Scanner.

Context {URL : Type} {urlLib : UrlLib URL}.

(** [resolvers.GetResolverForLanguage(language)], of factory.go, which
    is not among the sources. *)
Variable GetResolverForLanguage : string -> error + Resolver.

(** [filepath.Join] and [filepath.Base]. *)
Variable Join : string -> string -> string.
Variable Base : string -> string.

Variable s : Scanner.

Definition commonPaths : list string :=
  [ "package.json"; "package-lock.json"; "yarn.lock";
    "requirements.txt"; "requirements-dev.txt"; "setup.py";
    "pyproject.toml"; "composer.json"; "composer.lock"; "pom.xml";
    "Gemfile"; "Gemfile.lock"; "gems.rb" ].

(** [languagePaths[lang]], with whether the key exists. *)
Definition languagePaths (lang : string) : option (list string) :=
  if String.eqb lang "npm"
  then Some ["package.json"; "package-lock.json"; "yarn.lock"]
  else if String.eqb lang "pip"
  then Some ["requirements.txt"; "requirements-dev.txt"; "setup.py";
             "pyproject.toml"]
  else if String.eqb lang "composer"
  then Some ["composer.json"; "composer.lock"]
  else if String.eqb lang "mvn" then Some ["pom.xml"]
  else if String.eqb lang "rubygems"
  then Some ["Gemfile"; "Gemfile.lock"; "gems.rb"]
  else None.

(** [s.getDependencyFilePaths(languages)] *)
Definition getDependencyFilePaths (languages : list string) : list string :=
  if 0 <? Z.of_nat (length languages) then
    fold_left (fun paths lang =>
                 match languagePaths lang with
                 | Some langPaths => paths ++ langPaths
                 | None => paths
                 end) languages []
  else commonPaths.

(** [s.getLanguageFromFile(filePath)] *)
Definition getLanguageFromFile (filePath : string) : string :=
  let fileName := Base filePath in
  fileLanguageMap fileName.

(** [s.scanDependencyFile(baseURL, filePath, languages)].  The request
    built by [http.NewRequest] from the text of a parsed URL is sent
    with [s.client.Do]; the body is read whole.  The deferred
    [s.cleanupTempFile(tempFile)] runs when the function returns. *)
Definition scanDependencyFile (baseURL : URL) (filePath : string)
           (languages : list string) : M (error + ScanResult) :=
  let fileURL := withPath baseURL (Join (Path baseURL) filePath) in
  log DEBUG "Checking: %s" [AStr (URL_String fileURL)] ;;
  resp <- http_Get (URL_String fileURL) ;;
  match resp with
  | HttpError err => ret (inl err)
  | HttpResponse StatusCode _ content =>
      if negb (StatusCode =? 200) then
        ret (inl (Errorf "file not found (status: %d)" [AInt StatusCode]))
      else
        let language := getLanguageFromFile filePath in
        if String.eqb language "" then
          ret (inl (Errorf "unknown language for file: %s" [AStr filePath]))
        else
          result <- NewScanResult (Host baseURL ++ ":" ++ filePath)
                                  "web" language ;;
          match GetResolverForLanguage language with
          | inl err =>
              ret (inl (Errorf "failed to get resolver for language %s: %w"
                               [AStr language; AErr err]))
          | inr resolver =>
              t <- createTempFile content ;;
              match t with
              | inl err =>
                  ret (inl (Errorf "failed to create temporary file: %w"
                                   [AErr err]))
              | inr tempFile =>
                  r <- readPackages resolver tempFile ;;
                  match fst r with
                  | Some err =>
                      log DEBUG "Failed to parse %s: %v" [AStr filePath; AErr err] ;;
                      when (negb (String.eqb tempFile "")) (os_Remove tempFile) ;;
                      ret (inl err)
                  | None =>
                      vulnerablePackages <- notInPublic (snd r) ;;
                      let result := fold_left AddVulnerable vulnerablePackages result in
                      let result := SetMetadata result "file_path" (MStr filePath) in
                      let result := SetMetadata result "file_url"
                                                (MStr (URL_String fileURL)) in
                      let result := SetMetadata result "file_size"
                                                (MInt (len content)) in
                      let result := SetMetadata result "status_code"
                                                (MInt StatusCode) in
                      result <- Finalize result ;;
                      when (negb (String.eqb tempFile "")) (os_Remove tempFile) ;;
                      ret (inr result)
                  end
              end
          end
  end.

(** The loop of [scanDirectory]. *)
Fixpoint scanDirectoryLoop (baseURL : URL) (dir : string)
         (languages filePaths : list string) (results : list ScanResult)
  : M (list ScanResult) :=
  match filePaths with
  | [] => ret results
  | filePath :: rest =>
      let fullPath := Join dir filePath in
      r <- scanDependencyFile baseURL fullPath languages ;;
      match r with
      | inl _ => scanDirectoryLoop baseURL dir languages rest results
      | inr result =>
          scanDirectoryLoop baseURL dir languages rest (results ++ [result])
      end
  end.

(** [s.scanDirectory(baseURL, dir, languages)]; its error is always
    [nil]. *)
Definition scanDirectory (baseURL : URL) (dir : string)
           (languages : list string) : M (error + list ScanResult) :=
  let filePaths := getDependencyFilePaths languages in
  results <- scanDirectoryLoop baseURL dir languages filePaths [] ;;
  ret (inr results).

Definition commonDirs : list string :=
  [ "src/"; "lib/"; "app/"; "web/"; "public/"; "static/";
    "api/"; "backend/"; "frontend/"; "client/"; "server/" ].

(** The loop of [deepScan]. *)
Fixpoint deepScanLoop (baseURL : URL) (languages dirs : list string)
         (results : list ScanResult) : M (list ScanResult) :=
  match dirs with
  | [] => ret results
  | dir :: rest =>
      r <- scanDirectory baseURL dir languages ;;
      match r with
      | inl err =>
          log DEBUG "Failed to scan directory %s: %v" [AStr dir; AErr err] ;;
          deepScanLoop baseURL languages rest results
      | inr dirResults =>
          deepScanLoop baseURL languages rest (results ++ dirResults)
      end
  end.

(** [s.deepScan(baseURL, languages, maxDepth)]; its error is always
    [nil]. *)
Definition deepScan (baseURL : URL) (languages : list string)
           (maxDepth : Z) : M (error + list ScanResult) :=
  results <- deepScanLoop baseURL languages commonDirs [] ;;
  ret (inr results).

(** The first loop of [ScanTarget]. *)
Fixpoint scanPaths (u : URL) (languages filePaths : list string)
         (results : list ScanResult) : M (list ScanResult) :=
  match filePaths with
  | [] => ret results
  | filePath :: rest =>
      r <- scanDependencyFile u filePath languages ;;
      match r with
      | inl err =>
          log DEBUG "Failed to scan %s: %v" [AStr filePath; AErr err] ;;
          scanPaths u languages rest results
      | inr result => scanPaths u languages rest (results ++ [result])
      end
  end.

(** [s.ScanTarget(target, languages, deep, maxDepth)] *)
Definition ScanTarget (target : string) (languages : list string)
           (deep : bool) (maxDepth : Z) : M (error + list ScanResult) :=
  let target :=
    if negb (HasPrefix target "http://") && negb (HasPrefix target "https://")
    then ("https://" ++ target)%string else target in
  match url_Parse target with
  | inl err => ret (inl (Errorf "invalid URL: %w" [AErr err]))
  | inr u =>
      log INFO "Scanning web target: %s" [AStr target] ;;
      let filePaths := getDependencyFilePaths languages in
      results <- scanPaths u languages filePaths [] ;;
      if deep then
        d <- deepScan u languages maxDepth ;;
        match d with
        | inl err =>
            log WARN "Deep scan failed: %v" [AErr err] ;;
            ret (inr results)
        | inr deepResults => ret (inr (results ++ deepResults))
        end
      else ret (inr results)
  end.

End Scanner.

(** An instance of [UrlLib] for absolute http(s) URLs of the form
    scheme://host/path, used to run the scanner on examples. *)
Record SimpleURL : Type := mkURL {
  uScheme : string;
  uHost : string;
  uPath : string
}.

(** The text up to the first separator, and the text from it on. *)
Fixpoint splitHost (t : string) : string * string :=
  match t with
  | "" => ("", "")
  | String c r =>
      if Ascii.eqb c "/" then ("", t)
      else let (h, p) := splitHost r in (String c h, p)
  end.

Definition simpleParse (t : string) : error + SimpleURL :=
  if HasPrefix t "https://" then
    let (h, p) := splitHost (substring 8 (String.length t - 8) t) in
    inr (mkURL "https" h p)
  else if HasPrefix t "http://" then
    let (h, p) := splitHost (substring 7 (String.length t - 7) t) in
    inr (mkURL "http" h p)
  else inl (LibError "unsupported URL").

Definition simpleString (u : SimpleURL) : string :=
  uScheme u ++ "://" ++ uHost u
    ++ (if negb (String.eqb (uPath u) "") && negb (HasPrefix (uPath u) "/")
        then "/" else "")
    ++ uPath u.

#[export] Instance simpleUrlLib : UrlLib SimpleURL := {
  url_Parse := simpleParse;
  Host := uHost;
  Path := uPath;
  withPath := fun u p => mkURL (uScheme u) (uHost u) p;
  URL_String := simpleString
}.

End Web.

(* ===================================================================== *)
(** * The pip parser against its description                             *)
(* ===================================================================== *)
(** The description of the parser.  It is written on its own, without the
    functions of the resolver: white space around a line does not count,
    blank lines and lines beginning with # are skipped, a line ending in
    the continuation marker is joined, without the marker, with the lines
    that follow it, and the identifier of a logical line is its first run
    of characters that are not delimiters, without the white space around
    it. *)
Module PipSpec.

(** The delimiters [= < > ! ~ # [ space]. *)
Definition delimiters : list ascii := ["="; "<"; ">"; "!"; "~"; "#"; "["; " "]%char.

Definition isDelimiter (c : ascii) : bool :=
  if in_dec ascii_dec c delimiters then true else false.

(** The lines of a text: what stands between its line feeds.  [cur] is the
    part of the current line that has been read. *)
Fixpoint linesFrom (cur : string) (text : string) : list string :=
  match text with
  | "" => [cur]
  | String c text' =>
      if Ascii.eqb c (ascii_of_nat 10) then cur :: linesFrom "" text'
      else linesFrom (cur ++ String c "") text'
  end.

Definition lines (text : string) : list string := linesFrom "" text.

Definition isComment (l : string) : bool :=
  match l with
  | String c _ => Ascii.eqb c "#"
  | "" => false
  end.

Definition isBlank (l : string) : bool :=
  match l with
  | "" => true
  | _ => false
  end.

(** The lines of the file that count: surrounding white space removed,
    comment lines and blank lines left out. *)
Definition physicalLines (raw : string) : list string :=
  filter (fun l => negb (isComment l) && negb (isBlank l))
         (map TrimSpace (lines raw)).

(** The last character of a line. *)
Fixpoint lastChar (l : string) : option ascii :=
  match l with
  | "" => None
  | String c "" => Some c
  | String _ l' => lastChar l'
  end.

(** A line that ends in the continuation marker, and its text without
    its last character. *)
Definition marked (l : string) : bool :=
  match lastChar l with
  | Some c => Ascii.eqb c "\"
  | None => false
  end.

Definition unmarked (l : string) : string :=
  String.substring 0 (String.length l - 1) l.

(** Lines joined across continuation markers: [pending] is the text of
    the lines read so far that ended in a marker.  A marker on the last
    line has no following line to join with: the text that is pending at
    the end of the file yields no logical line. *)
Fixpoint logicalLines (pending : string) (ls : list string) : list string :=
  match ls with
  | [] => []
  | l :: rest =>
      if marked l then logicalLines (pending ++ unmarked l) rest
      else (pending ++ l)%string :: logicalLines "" rest
  end.

(** A line without the delimiters it begins with. *)
Fixpoint afterDelimiters (line : string) : string :=
  match line with
  | "" => ""
  | String c r => if isDelimiter c then afterDelimiters r else line
  end.

(** The text of a line before its first delimiter. *)
Fixpoint beforeDelimiter (line : string) : string :=
  match line with
  | "" => ""
  | String c r => if isDelimiter c then "" else String c (beforeDelimiter r)
  end.

(** The leading token of a line: its first run of characters that are
    not delimiters, if it has one. *)
Definition leadingToken (line : string) : option string :=
  match afterDelimiters line with
  | "" => None
  | t => Some (beforeDelimiter t)
  end.

Definition identifier (line : string) : list string :=
  match leadingToken line with
  | Some t => [TrimSpace t]
  | None => []
  end.

Definition identifiers (raw : string) : list string :=
  flat_map identifier (logicalLines "" (physicalLines raw)).




End PipSpec.

(** The parser as the specification words it.  The identifier of a
    logical line is its leading token, the text before the first
    delimiter, taken as it stands; and the text of a line that ends in a
    marker is joined with the lines that follow it, so that the text still
    pending at the end of the file is a logical line.  What the
    specification does not speak of (white space around a line, blank
    lines) is as in [PipSpec]. *)
Module PipWords.

Definition text (pending : option string) : string :=
  match pending with
  | Some p => p
  | None => ""
  end.

Fixpoint joined (pending : option string) (ls : list string) : list string :=
  match ls with
  | [] => match pending with Some p => [p] | None => [] end
  | l :: rest =>
      if PipSpec.marked l
      then joined (Some (text pending ++ PipSpec.unmarked l)%string) rest
      else (text pending ++ l)%string :: joined None rest
  end.

Definition identifiers (raw : string) : list string :=
  map PipSpec.beforeDelimiter (joined None (PipSpec.physicalLines raw)).

End PipWords.

(* ===================================================================== *)
(** * How a run changes the world                                        *)
(* ===================================================================== *)
(** The resolvers only issue requests, let time pass and print: the world
    after a run is the world before it with [n] more requests served,
    [dt] more seconds on the clock and the events [evs] appended. *)
Definition advance (w : World) (n : nat) (dt : Z) (evs : list Event) : World :=
  mkWorld (net w) (rtt w) (gitBlobs w) (tempNames w) (n + served w)
          (temps w) (files w) (clock w + dt) (trace w ++ evs).

(** The events emitted between two states of the world. *)
Definition since (w w' : World) : list Event :=
  skipn (length (trace w)) (trace w').

(** An answer that makes a retrying check try again. *)
Definition throttles (r : HttpResult) : Prop :=
  exists st body, r = HttpResponse 429 st body.

(** What the composer check prints. *)
Module ComposerOut.
Import Composer.

Definition checking (c : ComposerLookup) (name : string) : list Event :=
  if Verbose c
  then [EvStdout ("Checking: https://packagist.org/packages/" ++ name ++ ".json : ") []]
  else [].
Definition status (c : ComposerLookup) (st : string) : list Event :=
  if Verbose c then [EvStdout ("%s" ++ nl) [AStr st]] else [].
Definition failed (name : string) (err : error) : Event :=
  EvStdout (" [W] Error when trying to request https://packagist.org/packages/"
              ++ name ++ ".json : %s" ++ nl) [AErr err].
Definition throttled : Event :=
  EvStdout (" [!] Server responded with 429 (Too many requests), throttling and retrying..." ++ nl) [].
Definition exhausted (name : string) : Event :=
  EvStdout (" [W] Maximum number of retries exhausted for package: %s" ++ nl)
           [AStr name].

End ComposerOut.

(** What the maven check prints, and the URL it asks for. *)
Module MvnOut.
Import Mvn.

Definition repo (pkg : MVNPackage) : string := url (Group pkg).

Definition checking (n : MVNLookup) (pkg : MVNPackage) : list Event :=
  if Verbose n
  then [EvStdout ("Checking: https://repo1.maven.org/maven2/"
                    ++ ReplaceAll1 (Group pkg) "." "/" ++ "/ ") []]
  else [].
Definition status (n : MVNLookup) (st : string) : list Event :=
  if Verbose n then [EvStdout ("%s" ++ nl) [AStr st]] else [].
Definition failed (pkg : MVNPackage) (err : error) : Event :=
  EvStdout (" [W] Error when trying to request https://repo1.maven.org/maven2/"
              ++ ReplaceAll1 (Group pkg) "." "/" ++ "/ : %s" ++ nl) [AErr err].
Definition unpublished (n : MVNLookup) (pkg : MVNPackage) : list Event :=
  if Verbose n
  then [EvStdout ("[W] Package %s was found, but all its versions are unpublished, making anyone able to takeover the namespace." ++ nl)
                 [AStr (Group pkg)]]
  else [].
Definition throttled : Event :=
  EvStdout (" [!] Server responded with 429 (Too many requests), throttling and retrying..." ++ nl) [].
Definition exhausted (pkg : MVNPackage) : Event :=
  EvStdout (" [W] Maximum number of retries exhausted for package: %s" ++ nl)
           [AStr (Group pkg)].

End MvnOut.

(* ===================================================================== *)
(** * internal/resolvers/factory.go                                      *)
(* ===================================================================== *)
Module Factory.

Section Factory.

(** The case tables and the decoders of Go's library and
    [NpmResponse.NotAvailable], as the resolvers take them. *)
Variable lowerCase : Z -> Z.
Variable json_Unmarshal : string -> Composer.ComposerJSON * option error.
Variable NotAvailable : string -> bool.
Variable xml_Unmarshal : string -> error + Mvn.MavenProject.

(** The constructors [NewNPMLookup] and [NewRubyGemsLookup]; npm.go and
    rubygems.go are not among the sources. *)
Variable NewNPMLookup : bool -> Resolver.
Variable NewRubyGemsLookup : bool -> Resolver.

(** Modelled from the spec: factory.go is not among the sources.  The
    spec's Resolver Factory is a pure function from the ecosystem name to
    its parser and resolver, for npm, pip, composer, maven ("mvn") and
    rubygems, and fails with [UnsupportedEcosystem] for unknown names. *)
Definition GetResolverForLanguageWithVerbose (language : string) (verbose : bool)
  : error + Resolver :=
  if String.eqb language "npm" then inr (NewNPMLookup verbose)
  else if String.eqb language "pip"
  then inr (mkResolver Pip.resolver (Pip.NewPythonLookup verbose))
  else if String.eqb language "composer"
  then inr (mkResolver (Composer.resolver lowerCase json_Unmarshal)
                       (Composer.NewComposerLookup verbose))
  else if String.eqb language "mvn"
  then inr (mkResolver (Mvn.resolver NotAvailable xml_Unmarshal)
                       (Mvn.NewMVNLookup verbose))
  else if String.eqb language "rubygems" then inr (NewRubyGemsLookup verbose)
  else inl (Errorf "unsupported language: %s" [AStr language]).

(** Modelled from the spec: [GetResolverForLanguage], of factory.go, is
    the same factory for a resolver that is not verbose. *)
Definition GetResolverForLanguage (language : string) : error + Resolver :=
  GetResolverForLanguageWithVerbose language false.

End Factory.

End Factory.

(* ===================================================================== *)
(** * Base64, the encoding of blob contents                              *)
(* ===================================================================== *)
(** The GitHub API delivers the content of a blob in base64 (RFC 4648,
    standard alphabet, padded, broken into lines).  This is the decoding
    a reader of the blob has to apply. *)
Module Base64.

Definition sextet (c : ascii) : option nat :=
  let n := nat_of_ascii c in
  if ((65 <=? n) && (n <=? 90))%nat then Some (n - 65)%nat
  else if ((97 <=? n) && (n <=? 122))%nat then Some (n - 71)%nat
  else if ((48 <=? n) && (n <=? 57))%nat then Some (n + 4)%nat
  else if (n =? 43)%nat then Some 62%nat
  else if (n =? 47)%nat then Some 63%nat
  else None.

(** The six-bit values of the text; line breaks and padding carry none. *)
Fixpoint sextets (s : string) : option (list nat) :=
  match s with
  | "" => Some []
  | String c r =>
      if (nat_of_ascii c =? 10)%nat || (nat_of_ascii c =? 13)%nat
         || (nat_of_ascii c =? 61)%nat
      then sextets r
      else match sextet c, sextets r with
           | Some v, Some vs => Some (v :: vs)
           | _, _ => None
           end
  end.

Fixpoint octets (vs : list nat) : option string :=
  match vs with
  | [] => Some ""
  | [_] => None
  | [a; b] => Some (String (ascii_of_nat (a * 4 + b / 16)) "")
  | [a; b; c] =>
      Some (String (ascii_of_nat (a * 4 + b / 16))
                   (String (ascii_of_nat ((b mod 16) * 16 + c / 4)) ""))
  | a :: b :: c :: d :: rest =>
      match octets rest with
      | Some s =>
          Some (String (ascii_of_nat (a * 4 + b / 16))
                  (String (ascii_of_nat ((b mod 16) * 16 + c / 4))
                     (String (ascii_of_nat ((c mod 4) * 64 + d)) s)))
      | None => None
      end
  end%nat.

Definition decode (s : string) : option string :=
  match sextets s with
  | Some vs => octets vs
  | None => None
  end.

End Base64.

(* ===================================================================== *)
(** * Worlds for the examples                                            *)
(* ===================================================================== *)
Module Examples.

(** A registry that knows [known] and nothing else: 200 for the URLs in
    [known], 404 for every other one. *)
Definition registry (known : list string) (n : nat) (url : string) : HttpResult :=
  if existsb (String.eqb url) known
  then HttpResponse 200 "200 OK" ""
  else HttpResponse 404 "404 Not Found" "".

(** A registry that answers every request with 429. *)
Definition throttling (n : nat) (url : string) : HttpResult :=
  HttpResponse 429 "429 Too Many Requests" "".

(** A network that is down. *)
Definition unreachable (n : nat) (url : string) : HttpResult :=
  HttpError (LibError "dial tcp: lookup failed: no such host").

(** A world at its start: no request served yet, an empty trace, the
    given network and files, no blobs, one second per exchange. *)
Definition start (network : nat -> string -> HttpResult)
           (fs : list (string * string)) : World :=
  mkWorld network (fun _ _ => 1)
          (fun _ _ _ => inl (LibError "404 Not Found"))
          (fun _ => inr "/tmp/confused-1.tmp")
          0 0 fs 0 [].

(** The same with a repository holding one blob. *)
Definition startWithBlob (network : nat -> string -> HttpResult)
           (sha : string) (blob : Blob) : World :=
  mkWorld network (fun _ _ => 1)
          (fun _ _ s => if String.eqb s sha then inr blob
                        else inl (LibError "404 Not Found"))
          (fun _ => inr "/tmp/confused-1.tmp")
          0 0 [] 0 [].

(** The npm and rubygems resolvers are not among the sources.  Where an
    example needs a complete factory their place is taken by a resolver
    that never reads a package; no example asks for either. *)
Definition noPackages : PackageResolver unit := {|
  ReadPackagesFromFile := fun _ u => ret (None, u);
  PackagesNotInPublic := fun _ => ret [];
  GetPackageCount := fun _ => 0;
  GetLanguage := fun _ => ""
|}.

Definition other (verbose : bool) : Resolver := mkResolver noPackages tt.

(** Decoders for the examples, which read neither JSON nor XML. *)
Definition noJSON (raw : string) : Composer.ComposerJSON * option error :=
  (Composer.mkComposerJSON [] [], Some (LibError "unexpected end of JSON input")).
Definition noXML (raw : string) : error + Mvn.MavenProject :=
  inl (LibError "EOF").
Definition published (body : string) : bool := false.

(** Case tables for the examples: the two runes above ASCII whose lower
    case is an ASCII letter, U+0130 and U+212A; every other rune is left
    as it is.  The versions of the examples hold no other rune above
    ASCII. *)
Definition lowerCase (r : Z) : Z :=
  if r =? 0x130 then 0x69 else if r =? 0x212A then 0x6B else r.

Definition factory : string -> bool -> error + Resolver :=
  Factory.GetResolverForLanguageWithVerbose lowerCase noJSON published noXML
                                            other other.

Definition factory' : string -> error + Resolver :=
  Factory.GetResolverForLanguage lowerCase noJSON published noXML other other.

End Examples.

Module ExamplesPip.

(** A requirements file with a pinned package, a comment, and a
    requirement continued on the next line. *)
Definition requirements : string :=
  "requests==2.31.0" ++ nl ++ "# pinned" ++ nl ++ "foo==1.0\" ++ nl ++ ".0" ++ nl.





(** A pom.xml cut off in its first tag, and one cut off later. *)
Definition shortPom : string := "<project".
Definition truncatedPom : string := "<project><dependencies><dependency><groupId>com.ac".

Definition pomWorld : World :=
  Examples.start (Examples.registry [])
                 [("pom.xml", shortPom); ("module/pom.xml", truncatedPom)].

End ExamplesPip.

(** What the pip check prints. *)
Module PipOut.
Import Pip.

Definition checking (p : PythonLookup) (name : string) : list Event :=
  if Verbose p
  then [EvStdout ("Checking: https://pypi.org/project/" ++ name ++ "/ : ") []]
  else [].
Definition status (p : PythonLookup) (st : string) : list Event :=
  if Verbose p then [EvStdout ("%s" ++ nl) [AStr st]] else [].
Definition failed (name : string) (err : error) : Event :=
  EvStdout (" [W] Error when trying to request https://pypi.org/project/"
              ++ name ++ "/ : %s" ++ nl) [AErr err].

End PipOut.

(** An answer that is no answer: the request failed in transport (DNS,
    connection). *)
Definition transportError (r : HttpResult) : Prop :=
  exists err, r = HttpError err.

(** The outcome of one availability check started in [w]: its verdict,
    the requests and the sleeps it made. *)
Definition verdict (r : bool * World) : bool := fst r.
Definition requests (w : World) (r : bool * World) : list Event :=
  gets (since w (snd r)).
Definition backoffs (w : World) (r : bool * World) : list Event :=
  sleeps (since w (snd r)).

(** The composer packages of the claim and of the code.  [isReference] is
    the test [PackagesNotInPublic] makes before it skips a package;
    [declaredReference] is the class in the words of the specification: a
    version prefixed [file:] (LocalPath), [http:] or [https:] (DirectURL),
    [git:], [git+ssh:], [git+http:] or [git+https:] (GitRef). *)
Definition isReference (lowerCase : Z -> Z) (version : string) : bool :=
  Composer.localReference lowerCase version
  || Composer.urlReference lowerCase version
  || Composer.gitReference lowerCase version.

Definition declaredReference (version : string) : bool :=
  existsb (HasPrefix version)
          ["file:"; "http:"; "https:"; "git:"; "git+ssh:"; "git+http:"; "git+https:"].

Definition fromRegistry (pkg : Composer.ComposerPackage) : bool :=
  negb (declaredReference (Composer.Version pkg)).

(** A maven package with a group identifier. *)
Definition hasGroup (pkg : Mvn.MVNPackage) : bool :=
  negb (String.eqb (Mvn.Group pkg) "").

Module ExamplesRetry.

(** A registry that throttles all the time, one that is unreachable, and
    the packages asked for. *)
Definition throttlingWorld : World := Examples.start Examples.throttling [].
Definition unreachableWorld : World := Examples.start Examples.unreachable [].

Definition acme : Mvn.MVNPackage := Mvn.mkMVNPackage "com.acme" "core" "1.0".
Definition groupless : Mvn.MVNPackage := Mvn.mkMVNPackage "" "core" "1.0".

(** Scenario B of the specification: composer.json requires
    monolog/monolog ^3.0 and internal/php-package file:./local; neither
    is on the registry of the example. *)
Definition scenarioB : Composer.ComposerLookup :=
  Composer.setPackages (Composer.NewComposerLookup false)
    [ Composer.mkComposerPackage "monolog/monolog" "^3.0";
      Composer.mkComposerPackage "internal/php-package" "file:./local" ].

Definition emptyRegistry : World := Examples.start (Examples.registry []) [].

End ExamplesRetry.

Module ExamplesScan.

(** A requirements file naming a public package and a private one, and a
    registry that knows the public one. *)
Definition requirements : string :=
  "requests==2.31.0" ++ nl ++ "acme-internal>=1.0" ++ nl.

Definition pypi : nat -> string -> HttpResult :=
  Examples.registry ["https://pypi.org/project/requests/"].

Definition fileWorld : World :=
  Examples.start pypi [("requirements.txt", requirements)].

Definition cfg : Cmd.Config := Cmd.mkConfig false 10 true.

(** The same file served by a web host; every other path is missing. *)
Definition webNet (n : nat) (url : string) : HttpResult :=
  if String.eqb url "https://example.com/requirements.txt"
  then HttpResponse 200 "200 OK" requirements
  else pypi n url.

Definition webWorld : World := Examples.start webNet [].

(** The same file as a blob of a GitHub repository, in base64 as the API
    delivers it. *)
Definition encoded : string :=
  "cmVxdWVzdHM9PTIuMzEuMAphY21lLWludGVybmFsPj0xLjAK".

Definition blob : Blob := mkBlob encoded "base64".

Definition entry : GitHub.TreeEntry :=
  GitHub.mkTreeEntry "requirements.txt" "3b18e512dba79e4c8300dd08aeb37f8e728b8dad"
                     36 "blob".

Definition gitWorld : World :=
  Examples.startWithBlob pypi "3b18e512dba79e4c8300dd08aeb37f8e728b8dad" blob.

(** The operator's safe spaces. *)
Definition safeSpaces : list string := ["acme-*"].

End ExamplesScan.

(** Safe-space filtering as the specification describes it: an identifier
    is removed when some pattern matches it; a pattern that is malformed
    matches nothing and is reported in the log. *)
Definition matchesSafe (Match : string -> string -> error + bool)
           (safeSpaces : list string) (pkg : string) : bool :=
  existsb (fun safeSpace =>
             match Match safeSpace pkg with
             | inr ok => ok
             | inl _ => false
             end) safeSpaces.

(** The warnings logged while one identifier is compared with the
    patterns: one for each malformed pattern tried before a match. *)
Fixpoint malformedWarnings (Match : string -> string -> error + bool)
         (safeSpaces : list string) (pkg : string) : list Event :=
  match safeSpaces with
  | [] => []
  | safeSpace :: rest =>
      match Match safeSpace pkg with
      | inl err =>
          EvLog WARN "Encountered an error while trying to match a known-safe namespace %s: %v"
                [AStr safeSpace; AErr err]
          :: malformedWarnings Match rest pkg
      | inr ok => if ok then [] else malformedWarnings Match rest pkg
      end
  end.

(* ===================================================================== *)
(** * internal/resolvers: package details                                *)
(* ===================================================================== *)
(** [GetPackageDetails] and [buildPackageDetails] of the three resolvers.
    They work on the field [packageDetails] of the lookup, which no other
    method reads; here the field is passed beside the lookup, and each
    function returns its new value. *)
Module Details.

(** [types.PackageDetail] *)
Record PackageDetail : Type := mkPackageDetail {
  Name : string;
  Version : string;
  DetailType : string;
  Vulnerable : bool;
  Reason : string;
  Metadata : MetaMap
}.

(** [detail.Vulnerable = true; detail.Reason = reason] *)
Definition markVulnerable (detail : PackageDetail) (reason : string)
  : PackageDetail :=
  mkPackageDetail (Name detail) (Version detail) (DetailType detail)
                  true reason (Metadata detail).

(** The loop of pip's [buildPackageDetails]. *)
Fixpoint pipBuildLoop (p : Pip.PythonLookup) (pkgs : list string)
         (packageDetails : list PackageDetail) : M (list PackageDetail) :=
  match pkgs with
  | [] => ret packageDetails
  | pkgName :: rest =>
      let detail :=
        mkPackageDetail pkgName "" "dependency" false ""
                        [("original_name", MStr pkgName)] in
      ok <- Pip.isAvailableInPublic p pkgName ;;
      let detail :=
        if negb ok
        then markVulnerable detail "Package not available in public PyPI registry"
        else detail in
      pipBuildLoop p rest (packageDetails ++ [detail])
  end.

(** [p.buildPackageDetails()] *)
Definition pipBuildPackageDetails (p : Pip.PythonLookup) : M (list PackageDetail) :=
  pipBuildLoop p (Pip.Packages p) [].

(** [p.GetPackageDetails()] *)
Definition pipGetPackageDetails (p : Pip.PythonLookup)
           (packageDetails : list PackageDetail) : M (list PackageDetail) :=
  if Z.of_nat (length packageDetails) =? 0 then pipBuildPackageDetails p
  else ret packageDetails.

(** The loop of composer's [buildPackageDetails]. *)
Fixpoint composerBuildLoop (c : Composer.ComposerLookup)
         (pkgs : list Composer.ComposerPackage)
         (packageDetails : list PackageDetail) : M (list PackageDetail) :=
  match pkgs with
  | [] => ret packageDetails
  | pkg :: rest =>
      let detail :=
        mkPackageDetail (Composer.Name pkg) (Composer.Version pkg) "dependency"
                        false ""
                        [("original_version", MStr (Composer.Version pkg))] in
      ok <- Composer.isAvailableInPublic c (Composer.Name pkg) 0 ;;
      let detail :=
        if negb ok
        then markVulnerable detail
                            "Package not available in public Packagist registry"
        else detail in
      composerBuildLoop c rest (packageDetails ++ [detail])
  end.

(** [c.buildPackageDetails()] *)
Definition composerBuildPackageDetails (c : Composer.ComposerLookup)
  : M (list PackageDetail) :=
  composerBuildLoop c (Composer.Packages c) [].

(** [c.GetPackageDetails()] *)
Definition composerGetPackageDetails (c : Composer.ComposerLookup)
           (packageDetails : list PackageDetail) : M (list PackageDetail) :=
  if Z.of_nat (length packageDetails) =? 0 then composerBuildPackageDetails c
  else ret packageDetails.

Section Maven.

Variable NotAvailable : string -> bool.

(** The loop of maven's [buildPackageDetails]. *)
Fixpoint mvnBuildLoop (m : Mvn.MVNLookup) (pkgs : list Mvn.MVNPackage)
         (packageDetails : list PackageDetail) : M (list PackageDetail) :=
  match pkgs with
  | [] => ret packageDetails
  | pkg :: rest =>
      let detail :=
        mkPackageDetail (Mvn.Group pkg ++ ":" ++ Mvn.Artifact pkg)
                        (Mvn.Version pkg) "dependency" false ""
                        [("group", MStr (Mvn.Group pkg));
                         ("artifact", MStr (Mvn.Artifact pkg));
                         ("version", MStr (Mvn.Version pkg))] in
      ok <- Mvn.isAvailableInPublic NotAvailable m pkg 0 ;;
      let detail :=
        if negb ok
        then markVulnerable detail
                            "Package not available in public Maven repository"
        else detail in
      mvnBuildLoop m rest (packageDetails ++ [detail])
  end.

(** [m.buildPackageDetails()] *)
Definition mvnBuildPackageDetails (m : Mvn.MVNLookup) : M (list PackageDetail) :=
  mvnBuildLoop m (Mvn.Packages m) [].

(** [m.GetPackageDetails()] *)
Definition mvnGetPackageDetails (m : Mvn.MVNLookup)
           (packageDetails : list PackageDetail) : M (list PackageDetail) :=
  if Z.of_nat (length packageDetails) =? 0 then mvnBuildPackageDetails m
  else ret packageDetails.

End Maven.

End Details.

(* ===================================================================== *)
(** * pkg/github: repositories, branches and trees                       *)
(* ===================================================================== *)
Module GitHubRepo.

(** The fields of [github.Repository] the client reads. *)
Record Repository : Type := mkRepository {
  FullName : string;
  DefaultBranch : string
}.

(** One page of a paginated listing: its items and [resp.NextPage]. *)
Record Page (A : Type) : Type := mkPage {
  items : list A;
  NextPage : Z
}.
Arguments mkPage {A} _ _.
Arguments items {A} _.
Arguments NextPage {A} _.

(** How a call ends that can also end in a run-time panic. *)
Inductive Outcome (A : Type) : Type :=
| Returned (a : A)
| Failed (err : error)
| Panicked (msg : string).
Arguments Returned {A} _.
Arguments Failed {A} _.
Arguments Panicked {A} _.

(** The file-name patterns of [findDependencyFiles]:
    [filePatterns[lang]], with whether the key exists. *)
Definition filePatterns (lang : string) : option (list string) :=
  if String.eqb lang "npm"
  then Some ["package.json"; "package-lock.json"; "yarn.lock"]
  else if String.eqb lang "pip"
  then Some ["requirements.txt"; "requirements-dev.txt"; "setup.py";
             "pyproject.toml"]
  else if String.eqb lang "composer"
  then Some ["composer.json"; "composer.lock"]
  else if String.eqb lang "mvn" then Some ["pom.xml"]
  else if String.eqb lang "rubygems"
  then Some ["Gemfile"; "Gemfile.lock"; "gems.rb"]
  else None.

Section Client.

Variable Verbose : bool.
Variable GetResolverForLanguageWithVerbose : string -> bool -> error + Resolver.
Variable Match : string -> string -> error + bool.
Variable Base : string -> string.

(** The GitHub API, as the answers it gives during one run:
    [client.Repositories.Get(ctx, owner, repo)],
    [client.Repositories.ListByOrg(ctx, org, opts)] for public
    repositories, by page and page size,
    [client.Repositories.ListBranches(ctx, owner, repo, opts)] (the names
    of the branches), by page and page size, and
    [client.Git.GetTree(ctx, owner, repo, branch, true)] (the entries of
    the tree). *)
Variable Repositories_Get : string -> string -> error + Repository.
Variable Repositories_ListByOrg : string -> Z -> Z -> error + Page Repository.
Variable Repositories_ListBranches : string -> string -> Z -> Z -> error + Page string.
Variable Git_GetTree : string -> string -> string -> error + list GitHub.TreeEntry.

(** The loop of [getOrganizationRepos].  It runs as long as the API
    names a next page; [fuel] bounds the number of pages asked for, and
    [None] means the bound was reached.  [allRepos[:maxRepos]] panics for
    a negative [maxRepos]. *)
Fixpoint orgReposLoop (fuel : nat) (org : string) (maxRepos : Z)
         (allRepos : list Repository) (page : Z)
  : option (Outcome (list Repository)) :=
  match fuel with
  | O => None
  | S fuel' =>
      match Repositories_ListByOrg org page 100 with
      | inl err => Some (Failed err)
      | inr resp =>
          let allRepos := allRepos ++ items resp in
          if Z.of_nat (length allRepos) >=? maxRepos then
            if maxRepos <? 0
            then Some (Panicked "slice bounds out of range")
            else Some (Returned (firstn (Z.to_nat maxRepos) allRepos))
          else if NextPage resp =? 0 then Some (Returned allRepos)
          else orgReposLoop fuel' org maxRepos allRepos (NextPage resp)
      end
  end.

(** [gc.getOrganizationRepos(org, maxRepos)] *)
Definition getOrganizationRepos (fuel : nat) (org : string) (maxRepos : Z)
  : option (Outcome (list Repository)) :=
  orgReposLoop fuel org maxRepos [] 1.

(** The loop of [getBranches]. *)
Fixpoint branchesLoop (fuel : nat) (owner repo : string)
         (branches : list string) (page : Z) : option (error + list string) :=
  match fuel with
  | O => None
  | S fuel' =>
      match Repositories_ListBranches owner repo page 100 with
      | inl err => Some (inl err)
      | inr resp =>
          let branches := branches ++ items resp in
          if NextPage resp =? 0 then Some (inr branches)
          else branchesLoop fuel' owner repo branches (NextPage resp)
      end
  end.

(** [gc.getBranches(owner, repo)] *)
Definition getBranches (fuel : nat) (owner repo : string)
  : option (error + list string) :=
  branchesLoop fuel owner repo [] 1.

(** [gc.findDependencyFiles(entries, languages)] *)
Definition findDependencyFiles (entries : list GitHub.TreeEntry)
           (languages : list string) : list GitHub.TreeEntry :=
  let allPatterns :=
    fold_left (fun allPatterns lang =>
                 match filePatterns lang with
                 | Some patterns => allPatterns ++ patterns
                 | None => allPatterns
                 end) languages [] in
  fold_left (fun dependencyFiles entry =>
               if String.eqb (GitHub.EntryType entry) "blob" then
                 let fileName := Base (GitHub.Path entry) in
                 if existsb (fun pattern => String.eqb fileName pattern) allPatterns
                 then dependencyFiles ++ [entry]
                 else dependencyFiles
               else dependencyFiles) entries [].

(** The loop of [scanBranch] over the dependency files. *)
Fixpoint scanFiles (owner repo : string) (files : list GitHub.TreeEntry)
         (safeSpaces : list string) (results : list ScanResult)
  : M (list ScanResult) :=
  match files with
  | [] => ret results
  | file :: rest =>
      r <- GitHub.scanDependencyFile Verbose GetResolverForLanguageWithVerbose
             Match Base owner repo file safeSpaces ;;
      match r with
      | inl err =>
          log WARN "Failed to scan dependency file %s: %v"
              [AStr (GitHub.Path file); AErr err] ;;
          scanFiles owner repo rest safeSpaces results
      | inr result => scanFiles owner repo rest safeSpaces (results ++ [result])
      end
  end.

(** [gc.scanBranch(owner, repo, branch, languages, safeSpaces)] *)
Definition scanBranch (owner repo branch : string)
           (languages safeSpaces : list string) : M (error + list ScanResult) :=
  match Git_GetTree owner repo branch with
  | inl err =>
      ret (inl (Errorf "failed to get tree for branch %s: %w"
                       [AStr branch; AErr err]))
  | inr entries =>
      let dependencyFiles := findDependencyFiles entries languages in
      log DEBUG "Found %d dependency files in branch %s"
          [AInt (Z.of_nat (length dependencyFiles)); AStr branch] ;;
      results <- scanFiles owner repo dependencyFiles safeSpaces [] ;;
      ret (inr results)
  end.

(** The loop of [ScanRepository] over the branches of a deep scan. *)
Fixpoint scanBranches (owner repoName defaultBranch : string)
         (branches languages safeSpaces : list string)
         (results : list ScanResult) : M (list ScanResult) :=
  match branches with
  | [] => ret results
  | branch :: rest =>
      if String.eqb branch defaultBranch
      then scanBranches owner repoName defaultBranch rest languages safeSpaces
                        results
      else
        r <- scanBranch owner repoName branch languages safeSpaces ;;
        match r with
        | inl err =>
            log WARN "Failed to scan branch %s: %v" [AStr branch; AErr err] ;;
            scanBranches owner repoName defaultBranch rest languages safeSpaces
                         results
        | inr branchResults =>
            scanBranches owner repoName defaultBranch rest languages safeSpaces
                         (results ++ branchResults)
        end
  end.

(** [gc.ScanRepository(repo, languages, safeSpaces, deep)].  [fuel]
    bounds the pages [getBranches] asks for; [None] means the bound was
    reached. *)
Definition ScanRepository (fuel : nat) (repo : string)
           (languages safeSpaces : list string) (deep : bool)
  : M (option (error + list ScanResult)) :=
  let parts := Split1 repo "/" in
  match parts with
  | [owner; repoName] =>
      log INFO "Scanning repository: %s/%s" [AStr owner; AStr repoName] ;;
      match Repositories_Get owner repoName with
      | inl err =>
          ret (Some (inl (Errorf "failed to get repository: %w" [AErr err])))
      | inr repository =>
          log DEBUG "Repository: %s" [AStr (FullName repository)] ;;
          log DEBUG "Default branch: %s" [AStr (DefaultBranch repository)] ;;
          let defaultBranch :=
            if String.eqb (DefaultBranch repository) "" then "main"
            else DefaultBranch repository in
          r <- scanBranch owner repoName defaultBranch languages safeSpaces ;;
          match r with
          | inl err =>
              ret (Some (inl (Errorf "failed to scan default branch: %w"
                                     [AErr err])))
          | inr results =>
              if deep then
                match getBranches fuel owner repoName with
                | None => ret None
                | Some (inl err) =>
                    log WARN "Failed to get branches for deep scan: %v" [AErr err] ;;
                    ret (Some (inr results))
                | Some (inr branches) =>
                    results <- scanBranches owner repoName defaultBranch branches
                                            languages safeSpaces results ;;
                    ret (Some (inr results))
                end
              else ret (Some (inr results))
          end
      end
  | _ =>
      ret (Some (inl (Errorf "invalid repository format: %s (expected owner/repo)"
                             [AStr repo])))
  end.

End Client.

End GitHubRepo.

(* ===================================================================== *)
(** * pkg/config                                                         *)
(* ===================================================================== *)
Module Config.

Record DatabaseSettings : Type := mkDatabase {
  DbType : string;
  DbHost : string;
  DbPort : Z;
  DbUsername : string;
  DbPassword : string;
  DbDatabase : string
}.

(** [config.Config] *)
Record Config : Type := mkConfig {
  Verbose : bool;
  Output : string;
  Format : string;
  Workers : Z;
  Timeout : Z;
  GitHubToken : string;
  GitHubOrg : string;
  GitHubRepo : string;
  MaxRepos : Z;
  Targets : list string;
  TargetFile : string;
  SafeSpaces : list string;
  Languages : list string;
  DeepScan : bool;
  RateLimit : Z;
  Delay : Z;
  SaveResults : bool;
  OutputDir : string;
  UserAgent : string;
  FollowRedirects : bool;
  Database : DatabaseSettings
}.

(** [config.Default()]; the fields the literal leaves out have their
    zero value. *)
Definition Default : Config :=
  mkConfig false "" "text" 10 30 "" "" "" 50 [] ""
           [] ["npm"; "pip"; "composer"; "mvn"; "rubygems"] false
           100 100 true "./results" "Confused-DepConfusion-Scanner/2.0" true
           (mkDatabase "" "" 0 "" "" "").

(** How [Load] ends: it returns, or it panics with the error of
    [viper.Unmarshal]. *)
Inductive Loaded : Type :=
| LoadedConfig (cfg : Config)
| LoadPanic (err : error).

Section Load.

(** [viper.Unmarshal(cfg)]: the configuration after the settings viper
    has read (file, environment) are decoded into it, or an error.  The
    decoder writes through the pointer, and [cliSafeSpaces] is a slice
    that shares its array with [cfg.SafeSpaces] as it was before: the
    second component is what that slice holds after the decoding. *)
Variable viper_Unmarshal : Config -> error + Config * list string.

(** [config.Load(cfg)].  The error of [viper.ReadInConfig] is dropped. *)
Definition Load (cfg : Config) : Loaded :=
  let cliGitHubToken := GitHubToken cfg in
  let cliVerbose := Verbose cfg in
  let cliOutput := Output cfg in
  let cliFormat := Format cfg in
  let cliWorkers := Workers cfg in
  let cliTimeout := Timeout cfg in
  let cliSafeSpaces := SafeSpaces cfg in
  let cliOutputDir := OutputDir cfg in
  let cliSaveResults := SaveResults cfg in
  let cliUserAgent := UserAgent cfg in
  match viper_Unmarshal cfg with
  | inl err => LoadPanic err
  | inr (cfg, cliSafeSpacesNow) =>
      LoadedConfig
        (mkConfig
           (if cliVerbose then cliVerbose else Verbose cfg)
           (if negb (String.eqb cliOutput "") then cliOutput else Output cfg)
           (if negb (String.eqb cliFormat "") then cliFormat else Format cfg)
           (if cliWorkers >? 0 then cliWorkers else Workers cfg)
           (if cliTimeout >? 0 then cliTimeout else Timeout cfg)
           (if negb (String.eqb cliGitHubToken "") then cliGitHubToken
            else GitHubToken cfg)
           (GitHubOrg cfg) (GitHubRepo cfg) (MaxRepos cfg)
           (Targets cfg) (TargetFile cfg)
           (if Z.of_nat (length cliSafeSpaces) >? 0 then cliSafeSpacesNow
            else SafeSpaces cfg)
           (Languages cfg) (DeepScan cfg) (RateLimit cfg) (Delay cfg)
           cliSaveResults
           (if negb (String.eqb cliOutputDir "") then cliOutputDir
            else OutputDir cfg)
           (if negb (String.eqb cliUserAgent "") then cliUserAgent
            else UserAgent cfg)
           (FollowRedirects cfg) (Database cfg))
  end.

End Load.

(** A 64-bit signed integer: the value of an [int64] expression whose
    mathematical value is [z]. *)
Definition wrap64 (z : Z) : Z :=
  (z + 9223372036854775808) mod 18446744073709551616 - 9223372036854775808.

(** [c.GetTimeout()], in nanoseconds:
    [time.Duration(c.Timeout) * time.Second]. *)
Definition GetTimeout (c : Config) : Z := wrap64 (Timeout c * 1000000000).

(** [c.GetDelay()], in nanoseconds:
    [time.Duration(c.Delay) * time.Millisecond]. *)
Definition GetDelay (c : Config) : Z := wrap64 (Delay c * 1000000).

End Config.

(* ===================================================================== *)
(** * cmd/confused: the [config validate] command                        *)
(* ===================================================================== *)
Module CmdConfig.

Definition validLanguages : list string :=
  ["npm"; "pip"; "composer"; "mvn"; "rubygems"].

(** The loop over [cfg.Languages]: the first language that is not among
    the valid ones, if there is one. *)
Fixpoint firstInvalid (languages : list string) : option string :=
  match languages with
  | [] => None
  | lang :: rest =>
      if existsb (fun validLang => String.eqb lang validLang) validLanguages
      then firstInvalid rest
      else Some lang
  end.

(** [runConfigValidateCommand(cmd, args)]; [cfg] is the global
    configuration, [None] for a nil pointer. *)
Definition runConfigValidateCommand (cfg : option Config.Config)
  : M (option error) :=
  log INFO "Validating configuration..." [] ;;
  match cfg with
  | None => ret (Some (Errorf "configuration is nil" []))
  | Some cfg =>
      if Config.Workers cfg <=? 0
      then ret (Some (Errorf "workers must be greater than 0" []))
      else if Config.Timeout cfg <=? 0
      then ret (Some (Errorf "timeout must be greater than 0" []))
      else
        match firstInvalid (Config.Languages cfg) with
        | Some lang => ret (Some (Errorf "invalid language: %s" [AStr lang]))
        | None =>
            log INFO "Configuration is valid" [] ;;
            ret None
        end
  end.

End CmdConfig.

(* ===================================================================== *)
(** * Descriptions for the properties of the code                        *)
(* ===================================================================== *)

(** Is the answer a response with status 200? *)
Definition is200 (r : HttpResult) : bool :=
  match r with
  | HttpResponse code _ _ => code =? 200
  | HttpError _ => false
  end.

(** The pip packages of [pkgs] that are not answered with a 200, when the
    registry is asked for them one after the other starting with request
    number [k]. *)
Fixpoint notAnswered200 (w : World) (k : nat) (pkgs : list string) : list string :=
  match pkgs with
  | [] => []
  | pkg :: rest =>
      (if is200 (net w k (Pip.url pkg)) then [] else [pkg])
        ++ notAnswered200 w (S k) rest
  end.

(** One call on a scan result: [AddVulnerable(pkg)] or [AddSafe(pkg)]. *)
Inductive AddCall : Type :=
| CallAddVulnerable (pkg : string)
| CallAddSafe (pkg : string).

Definition applyCall (sr : ScanResult) (c : AddCall) : ScanResult :=
  match c with
  | CallAddVulnerable pkg => AddVulnerable sr pkg
  | CallAddSafe pkg => AddSafe sr pkg
  end.

Definition vulnerableOf (calls : list AddCall) : list string :=
  flat_map (fun c => match c with CallAddVulnerable pkg => [pkg] | _ => [] end) calls.

Definition safeOf (calls : list AddCall) : list string :=
  flat_map (fun c => match c with CallAddSafe pkg => [pkg] | _ => [] end) calls.

(** The request the web scanner makes for a path below a base URL. *)
Definition probe {URL : Type} {lib : Web.UrlLib URL}
           (Join : string -> string -> string) (u : URL) (filePath : string)
  : Event :=
  EvGet (Web.URL_String (Web.withPath u (Join (Web.Path u) filePath))).

(** The paths a deep scan adds: each file name below each of the common
    directories. *)
Definition deepPaths (Join : string -> string -> string)
           (filePaths : list string) : list string :=
  flat_map (fun dir => map (Join dir) filePaths) Web.commonDirs.

(** The verdict of a check on an answer that is not a 429. *)
Definition answerVerdict (NotAvailable : string -> bool) (r : HttpResult) : bool :=
  match r with
  | HttpResponse code _ body => (code =? 200) && negb (NotAvailable body)
  | HttpError _ => false
  end.

Module ExamplesMore.

(** A registry with a server error, and one that throttles the first two
    requests and then answers 200. *)
Definition serverError (n : nat) (url : string) : HttpResult :=
  HttpResponse 500 "500 Internal Server Error" "".

Definition throttledTwice (n : nat) (url : string) : HttpResult :=
  if (n <? 2)%nat then HttpResponse 429 "429 Too Many Requests" ""
  else HttpResponse 200 "200 OK" "".

Definition serverErrorWorld : World := Examples.start serverError [].
Definition throttledTwiceWorld : World := Examples.start throttledTwice [].

(** Two artifacts of one group. *)
Definition acmeCore : Mvn.MVNPackage := Mvn.mkMVNPackage "com.acme" "core" "1.0".
Definition acmeSecret : Mvn.MVNPackage :=
  Mvn.mkMVNPackage "com.acme" "secret-internal" "9.9".

End ExamplesMore.

Module ExamplesParse.

(** A composer.json and what [json.Unmarshal] makes of it: the
    requirements of scenario B, and a development requirement that
    repeats one of them. *)
Definition composerFile : string := "{ require, require-dev }".

Definition decoded : Composer.ComposerJSON :=
  Composer.mkComposerJSON
    [("monolog/monolog", "^3.0"); ("internal/php-package", "file:./local")]
    [("monolog/monolog", "^3.1")].

Definition decodeComposer (raw : string) : Composer.ComposerJSON * option error :=
  (decoded, None).

(** A pom.xml and what [xml.Unmarshal] makes of it: one dependency, one
    build plugin, and one plugin in each of two profiles. *)
Definition pomFile : string := "<project>...</project>".

Definition project : Mvn.MavenProject :=
  Mvn.mkMavenProject
    [Mvn.mkMavenDependency "com.acme" "core" "1.0"]
    (Mvn.mkMavenBuild [Mvn.mkMavenDependency "org.apache.maven.plugins"
                                             "maven-jar-plugin" "3.3.0"])
    [Mvn.mkMavenProfile
       (Mvn.mkMavenBuild [Mvn.mkMavenDependency "com.acme" "lint" "2.0"]);
     Mvn.mkMavenProfile
       (Mvn.mkMavenBuild [Mvn.mkMavenDependency "com.acme" "release" "2.1"])].

Definition decodePom (raw : string) : error + Mvn.MavenProject := inr project.

Definition parseWorld : World :=
  Examples.start (Examples.registry [])
                 [("composer.json", composerFile); ("pom.xml", pomFile)].

End ExamplesParse.

Module ExamplesGitHub.

(** An organisation with three public repositories on two pages. *)
Definition shop : GitHubRepo.Repository := GitHubRepo.mkRepository "acme/shop" "main".
Definition site : GitHubRepo.Repository := GitHubRepo.mkRepository "acme/site" "master".
Definition tools : GitHubRepo.Repository := GitHubRepo.mkRepository "acme/tools" "".

Definition listByOrg (org : string) (page perPage : Z)
  : error + GitHubRepo.Page GitHubRepo.Repository :=
  if negb (String.eqb org "acme") then inl (LibError "404 Not Found")
  else if page =? 1 then inr (GitHubRepo.mkPage [shop; site] 2)
  else if page =? 2 then inr (GitHubRepo.mkPage [tools] 0)
  else inr (GitHubRepo.mkPage [] 0).

(** The same organisation when the API fails on the second page. *)
Definition failingOrg (org : string) (page perPage : Z)
  : error + GitHubRepo.Page GitHubRepo.Repository :=
  if page =? 1 then inr (GitHubRepo.mkPage [shop; site] 2)
  else inl (LibError "502 Bad Gateway").

(** The tree of a branch: two dependency files, a directory that is named
    like one, and a file that is none. *)
Definition tree : list GitHub.TreeEntry :=
  [ GitHub.mkTreeEntry "requirements.txt" "3b18e512dba79e4c8300dd08aeb37f8e728b8dad"
                       36 "blob";
    GitHub.mkTreeEntry "pom.xml" "0000000000000000000000000000000000000001" 0 "tree";
    GitHub.mkTreeEntry "README.md" "0000000000000000000000000000000000000002" 120 "blob";
    GitHub.mkTreeEntry "services/api/pom.xml"
                       "0000000000000000000000000000000000000003" 900 "blob" ].

End ExamplesGitHub.

(** The target as [ScanTarget] parses it: with [https://] put before a
    target that names no scheme. *)
Definition normalised (target : string) : string :=
  if negb (HasPrefix target "http://") && negb (HasPrefix target "https://")
  then "https://" ++ target else target.

Module ExamplesWeb.

(** A host that has none of the files: every request is answered 404. *)
Definition bare : World := Examples.start (Examples.registry []) [].

Definition join (dir name : string) : string := dir ++ name.

End ExamplesWeb.
Module ExamplesDetails.

(** A lookup holding the two requirements of the example file, and one
    holding a composer package from the registry and a local one. *)
Definition pipLookup : Pip.PythonLookup :=
  Pip.setPackages (Pip.NewPythonLookup false) ["requests"; "acme-internal"].

Definition composerLookup : Composer.ComposerLookup :=
  Composer.setPackages (Composer.NewComposerLookup false)
    [ Composer.mkComposerPackage "monolog/monolog" "^3.0";
      Composer.mkComposerPackage "internal/php-package" "file:./local" ].

Definition registryOnly : Composer.ComposerLookup :=
  Composer.setPackages (Composer.NewComposerLookup false)
    [ Composer.mkComposerPackage "monolog/monolog" "^3.0" ].

End ExamplesDetails.

(** What [printResult] writes to the log for a result. *)
Definition printed (result : ScanResult) : list Event :=
  if negb (IsVulnerable result) then
    [ EvLog INFO "All packages seem to be available in the public repositories." [];
      EvLog INFO "In case your application uses private repositories please make sure that those namespaces in public repositories are controlled by a trusted party." [] ]
  else
    EvLog WARN "Issues found, the following packages are not available in public package repositories:" []
    :: map (fun pkg => EvLog WARN " [!] %s" [AStr pkg]) (Vulnerable result).

(** Is the event the line [printResult] writes for one package? *)
Definition isPackageLine (e : Event) : bool :=
  match e with
  | EvLog WARN format [AStr _] => String.eqb format " [!] %s"
  | _ => false
  end.
(** A paginated listing as the client walks it from [page] on: the pages
    it is given, each naming the next one, until a page names none
    ([failure] is [None]) or a request fails ([failure] is that error). *)
Fixpoint pagesFrom {A : Type} (listing : Z -> error + GitHubRepo.Page A)
         (page : Z) (resps : list (GitHubRepo.Page A)) (failure : option error)
  : Prop :=
  match resps with
  | [] =>
      match failure with
      | Some err => listing page = inl err
      | None => False
      end
  | resp :: rest =>
      listing page = inr resp
      /\ match rest, failure with
         | [], None => GitHubRepo.NextPage resp = 0
         | _, _ =>
             GitHubRepo.NextPage resp <> 0
             /\ pagesFrom listing (GitHubRepo.NextPage resp) rest failure
         end
  end.

(** Branches scanned one after the other with [scan], each on the world
    the one before left: the results of the branches in order.  A branch
    whose scan fails is logged and adds nothing. *)
Fixpoint scanInTurn (scan : string -> M (error + list ScanResult))
         (branches : list string) : M (list ScanResult) :=
  match branches with
  | [] => ret []
  | branch :: rest =>
      r <- scan branch ;;
      match r with
      | inl err =>
          log WARN "Failed to scan branch %s: %v" [AStr branch; AErr err] ;;
          scanInTurn scan rest
      | inr branchResults =>
          more <- scanInTurn scan rest ;;
          ret (branchResults ++ more)
      end
  end.

Module ExamplesBranches.

(** A repository with three branches on two pages. *)
Definition listBranches (owner repo : string) (page perPage : Z)
  : error + GitHubRepo.Page string :=
  if page =? 1 then inr (GitHubRepo.mkPage ["main"; "dev"] 2)
  else if page =? 2 then inr (GitHubRepo.mkPage ["release"] 0)
  else inl (LibError "404 Not Found").

End ExamplesBranches.

Module ExamplesTree.

(** The tree of every branch of the example repository. *)
Definition getTree (owner repo branch : string) : error + list GitHub.TreeEntry :=
  inr ExamplesGitHub.tree.

End ExamplesTree.

(** A result of the web scanner that names one of the paths [paths] of
    the host of [u]. *)
Definition fromPath {URL : Type} {lib : Web.UrlLib URL} (Base : string -> string)
           (u : URL) (paths : list string) (res : ScanResult) : Prop :=
  exists path,
    In path paths
    /\ Target res = (Web.Host u ++ ":" ++ path)%string
    /\ ScanType res = "web"
    /\ Language res = Web.getLanguageFromFile Base path
    /\ Language res <> "".

(* ===================================================================== *)
(** * Facts about the pip parser                                          *)
(* ===================================================================== *)
Section PipFacts.

Import PipSpec.




(** ** The functions of the resolver and the words of the description *)





Lemma substring_whole (s : string) : String.substring 0 (String.length s) s = s.
Proof. induction s as [|c s IH]; cbn; [reflexivity | now rewrite IH]. Qed.





(** ** The fields of a line *)






(** ** White space *)

(** [TrimSpace] removes each of the white-space characters of Unicode,
    in its UTF-8 encoding, from both ends, and nothing else: not a
    zero-width space (U+200B), not a byte that is no character, and
    nothing inside the text. *)
Lemma TrimSpace_white_space :
  forallb (fun e => String.eqb (TrimSpace (e ++ "a b" ++ e)) "a b") whiteSpace = true
  /\ forallb (fun e => String.eqb (TrimSpace (e ++ "a" ++ e)) (e ++ "a" ++ e))
             [String (ascii_of_nat 226) (String (ascii_of_nat 128)
                                               (String (ascii_of_nat 139) ""));
              String (ascii_of_nat 160) ""; String (ascii_of_nat 133) "";
              String (ascii_of_nat 194) ""; "_"]
     = true.
Proof. split; vm_compute; reflexivity. Qed.

(** ** Identifiers keep no delimiter *)











(** ** Where the words of the specification hold *)




End PipFacts.

(* ===================================================================== *)
(** * Facts about runs                                                   *)
(* ===================================================================== *)
Section Advance.

Lemma advance_advance w n dt evs n' dt' evs' :
  advance (advance w n dt evs) n' dt' evs'
  = advance w (n' + n) (dt + dt') (evs ++ evs').
Proof.
  unfold advance; simpl. f_equal; [lia | lia | now rewrite app_assoc].
Qed.

Lemma advance_nothing w : advance w 0 0 [] = w.
Proof.
  destruct w; unfold advance; simpl. now rewrite Z.add_0_r, app_nil_r.
Qed.

Lemma since_advance w n dt evs : since w (advance w n dt evs) = evs.
Proof.
  unfold since, advance; simpl.
  rewrite skipn_app, skipn_all, Nat.sub_diag. reflexivity.
Qed.

Lemma served_advance w n dt evs : served (advance w n dt evs) = (n + served w)%nat.
Proof. reflexivity. Qed.

Lemma net_advance w n dt evs : net (advance w n dt evs) = net w.
Proof. reflexivity. Qed.

Lemma rtt_advance w n dt evs : rtt (advance w n dt evs) = rtt w.
Proof. reflexivity. Qed.

Lemma emit_advance e w : emit e w = (tt, advance w 0 0 [e]).
Proof. unfold emit, advance. now rewrite Z.add_0_r. Qed.

Lemma fmt_Printf_advance f args w :
  fmt_Printf f args w = (tt, advance w 0 0 [EvStdout f args]).
Proof. apply emit_advance. Qed.

Lemma fmt_Print_advance s w :
  fmt_Print s w = (tt, advance w 0 0 [EvStdout s []]).
Proof. apply emit_advance. Qed.

Lemma log_advance l f args w :
  log l f args w = (tt, advance w 0 0 [EvLog l f args]).
Proof. apply emit_advance. Qed.

Lemma when_advance (b : bool) (e : Event) w :
  when b (emit e) w = (tt, advance w 0 0 (if b then [e] else [])).
Proof.
  destruct b; simpl; [apply emit_advance | ].
  unfold ret. now rewrite advance_nothing.
Qed.

Lemma http_Get_advance url w :
  http_Get url w
  = (net w (served w) url, advance w 1 (rtt w (served w) url) [EvGet url]).
Proof. reflexivity. Qed.

Lemma time_Sleep_advance d w :
  time_Sleep d w = (tt, advance w 0 d [EvSleep d]).
Proof. reflexivity. Qed.

Lemma gets_app a b : gets (a ++ b) = gets a ++ gets b.
Proof. apply filter_app. Qed.

Lemma sleeps_app a b : sleeps (a ++ b) = sleeps a ++ sleeps b.
Proof. apply filter_app. Qed.

End Advance.

Lemma advance_ext w n dt evs n' dt' evs' :
  n = n' -> dt = dt' -> evs = evs' -> advance w n dt evs = advance w n' dt' evs'.
Proof. now intros -> -> ->. Qed.

(** Two runs that end in the same world. *)
Ltac same_world :=
  unfold ret; rewrite ?advance_advance;
  apply f_equal;
  apply advance_ext; [lia | lia | rewrite <- ?app_assoc; reflexivity].


(* ===================================================================== *)
(** * Runs of the composer availability check                            *)
(* ===================================================================== *)
Module ComposerRun.
Import Composer ComposerOut.

Lemma composer_run_exhausted c name retry w :
  retry > 3 ->
  isAvailableInPublic c name retry w = (false, advance w 0 0 [exhausted name]).
Proof.
  intros H. rewrite isAvailableInPublic_equation_1.
  destruct (Z_gt_dec retry 3) as [g|n]; [ | contradiction].
  cbn [isAvailableInPublic_unfold_clause_1]. unfold bind.
  rewrite fmt_Printf_advance. reflexivity.
Qed.

(** One call below the cap, by the answer to its request. *)
Lemma composer_run_attempt c name retry w :
  retry <= 3 ->
  isAvailableInPublic c name retry w =
  let w1 := advance w 1 (rtt w (served w) (url name))
                    (checking c name ++ [EvGet (url name)]) in
  match net w (served w) (url name) with
  | HttpError err => (false, advance w1 0 0 [failed name err])
  | HttpResponse code st _ =>
      let w2 := advance w1 0 0 (status c st) in
      if code =? 200 then (true, w2)
      else if code =? 429
           then isAvailableInPublic c name (retry + 1)
                  (advance w2 0 10 [throttled; EvSleep 10])
           else (false, w2)
  end.
Proof.
  intros H. rewrite isAvailableInPublic_equation_1.
  destruct (Z_gt_dec retry 3) as [g|n]; [lia | ].
  cbn [isAvailableInPublic_unfold_clause_1]. unfold bind.
  change (when (Verbose c) (fmt_Print ?s) w)
    with (when (Verbose c) (emit (EvStdout s [])) w).
  rewrite when_advance, http_Get_advance.
  rewrite net_advance, rtt_advance, served_advance. cbn [Nat.add].
  change ("https://packagist.org/packages/" ++ name ++ ".json")%string
    with (url name).
  cbv zeta.
  destruct (net w (served w) (url name)) as [err|code st body].
  - rewrite fmt_Printf_advance. same_world.
  - change (when (Verbose c) (fmt_Printf ?f ?a))
      with (when (Verbose c) (emit (EvStdout f a))).
    rewrite when_advance.
    destruct (code =? 200); [same_world | ].
    destruct (code =? 429); [ | same_world].
    rewrite fmt_Printf_advance, time_Sleep_advance.
    same_world.
Qed.

Lemma composer_gets_checking c name : gets (checking c name) = [].
Proof. unfold checking; destruct (Verbose c); reflexivity. Qed.

Lemma composer_sleeps_checking c name : sleeps (checking c name) = [].
Proof. unfold checking; destruct (Verbose c); reflexivity. Qed.

Lemma composer_gets_status c st : gets (status c st) = [].
Proof. unfold status; destruct (Verbose c); reflexivity. Qed.

Lemma composer_sleeps_status c st : sleeps (status c st) = [].
Proof. unfold status; destruct (Verbose c); reflexivity. Qed.

Ltac observe :=
  rewrite ?gets_app, ?sleeps_app, ?composer_gets_checking, ?composer_sleeps_checking,
          ?composer_gets_status, ?composer_sleeps_status;
  cbn [gets sleeps filter isGet isSleep failed throttled exhausted app].

(** Every run, whatever the registry answers: [n] requests, all for the
    package's URL, and [m] sleeps of ten seconds, with
    [m <= n <= retriesLeft retry]. *)
Lemma composer_run_summary (k : nat) : forall c name retry w,
  (retriesLeft retry <= k)%nat ->
  exists b n m dt evs,
    isAvailableInPublic c name retry w = (b, advance w n dt evs)
    /\ gets evs = repeat (EvGet (url name)) n
    /\ sleeps evs = repeat (EvSleep 10) m
    /\ (m <= n <= retriesLeft retry)%nat.
Proof.
  induction k as [|k IH]; intros c name retry w Hk.
  - exists false, 0%nat, 0%nat, 0, [exhausted name].
    rewrite composer_run_exhausted by (unfold retriesLeft in Hk; lia).
    repeat split; simpl; lia.
  - destruct (Z_gt_dec retry 3) as [g|g].
    + exists false, 0%nat, 0%nat, 0, [exhausted name].
      rewrite composer_run_exhausted by lia. repeat split; simpl; lia.
    + assert (Hr : (1 <= retriesLeft retry)%nat) by (unfold retriesLeft; lia).
      rewrite composer_run_attempt by lia. cbv zeta.
      destruct (net w (served w) (url name)) as [err|code st body].
      * eexists _, 1%nat, 0%nat, _, _. rewrite advance_advance.
        split; [reflexivity | ]. observe. repeat split; lia.
      * destruct (code =? 200).
        { eexists _, 1%nat, 0%nat, _, _. rewrite advance_advance.
          split; [reflexivity | ]. observe. repeat split; lia. }
        destruct (code =? 429).
        2:{ eexists _, 1%nat, 0%nat, _, _. rewrite advance_advance.
            split; [reflexivity | ]. observe. repeat split; lia. }
        rewrite !advance_advance.
        edestruct (IH c name (retry + 1))
          as (b & n & m & dt & evs & E & Hg & Hs & Hb);
          [unfold retriesLeft in *; lia | ].
        rewrite E, advance_advance.
        exists b, (S n), (S m), (rtt w (served w) (url name) + 0 + 10 + dt),
          (((checking c name ++ [EvGet (url name)]) ++ status c st
              ++ [throttled; EvSleep 10]) ++ evs).
        split; [apply f_equal, advance_ext; [lia | lia | reflexivity] | ].
        observe. rewrite Hg, Hs.
        repeat split; try reflexivity; unfold retriesLeft in *; lia.
Qed.

(** A registry that answers 429 to each of the [j] calls left below the
    cap: [j] requests, [j] sleeps, and the package is reported
    unavailable with the warning as the last thing printed. *)
Lemma composer_run_throttled (j : nat) : forall c name retry w,
  retry + Z.of_nat j = 4 ->
  (forall k, (k < j)%nat -> throttles (net w (k + served w) (url name))) ->
  exists dt evs,
    isAvailableInPublic c name retry w
    = (false, advance w j dt (evs ++ [exhausted name]))
    /\ gets evs = repeat (EvGet (url name)) j
    /\ sleeps evs = repeat (EvSleep 10) j.
Proof.
  induction j as [|j IH]; intros c name retry w Hr Hnet.
  - exists 0, []. rewrite composer_run_exhausted by lia. now repeat split.
  - rewrite composer_run_attempt by lia. cbv zeta.
    destruct (Hnet 0%nat) as (st & body & E); [lia | ].
    cbn [Nat.add] in E. rewrite E. cbn [Z.eqb Pos.eqb].
    rewrite !advance_advance.
    edestruct (IH c name (retry + 1)) as (dt & evs & E' & Hg & Hs); [lia | | ].
    2:{ rewrite E', advance_advance.
        eexists _, ((checking c name ++ [EvGet (url name)]) ++ status c st
                      ++ [throttled; EvSleep 10] ++ evs).
        split.
        - apply f_equal, advance_ext; [lia | reflexivity | ].
          now rewrite <- !app_assoc.
        - observe. now rewrite Hg, Hs. }
    intros k Hk. rewrite net_advance, served_advance.
    replace (k + (0 + 0 + 1 + served w))%nat with (S k + served w)%nat by lia.
    apply Hnet. lia.
Qed.


End ComposerRun.

(* ===================================================================== *)
(** * Runs of the maven availability check                               *)
(* ===================================================================== *)
Module MvnRun.
Import Mvn MvnOut.

Section Runs.

Variable NotAvailable : string -> bool.

Local Abbreviation isAvailableInPublic := (Mvn.isAvailableInPublic NotAvailable).

Lemma mvn_run_exhausted n pkg retry w :
  retry > 3 ->
  isAvailableInPublic n pkg retry w = (false, advance w 0 0 [exhausted pkg]).
Proof.
  intros H. rewrite isAvailableInPublic_equation_1.
  destruct (Z_gt_dec retry 3) as [g|g]; [ | contradiction].
  cbn [isAvailableInPublic_unfold_clause_1]. unfold bind.
  rewrite fmt_Printf_advance. reflexivity.
Qed.

(** A package without group is taken as available at once: nothing is
    requested, nothing printed, the world is as before. *)
Lemma mvn_run_no_group n pkg retry w :
  retry <= 3 -> Group pkg = "" ->
  isAvailableInPublic n pkg retry w = (true, w).
Proof.
  intros H E. rewrite isAvailableInPublic_equation_1.
  destruct (Z_gt_dec retry 3) as [g|g]; [lia | ].
  cbn [isAvailableInPublic_unfold_clause_1].
  rewrite E. reflexivity.
Qed.

(** One call below the cap for a package with a group, by the answer
    to its request. *)
Lemma mvn_run_attempt n pkg retry w :
  retry <= 3 -> Group pkg <> "" ->
  isAvailableInPublic n pkg retry w =
  let w1 := advance w 1 (rtt w (served w) (repo pkg))
                    (checking n pkg ++ [EvGet (repo pkg)]) in
  match net w (served w) (repo pkg) with
  | HttpError err => (false, advance w1 0 0 [failed pkg err])
  | HttpResponse code st body =>
      let w2 := advance w1 0 0 (status n st) in
      if code =? 200 then
        if NotAvailable body then (false, advance w2 0 0 (unpublished n pkg))
        else (true, w2)
      else if code =? 429
           then isAvailableInPublic n pkg (retry + 1)
                  (advance w2 0 10 [throttled; EvSleep 10])
           else (false, w2)
  end.
Proof.
  intros H Hg. rewrite isAvailableInPublic_equation_1.
  destruct (Z_gt_dec retry 3) as [g|g]; [lia | ].
  cbn [isAvailableInPublic_unfold_clause_1].
  apply String.eqb_neq in Hg. rewrite Hg.
  cbv zeta. unfold bind.
  change (when (Verbose n) (fmt_Print ?s) w)
    with (when (Verbose n) (emit (EvStdout s [])) w).
  rewrite when_advance, http_Get_advance.
  rewrite net_advance, rtt_advance, served_advance. cbn [Nat.add].
  change ("https://repo1.maven.org/maven2/"
            ++ ReplaceAll1 (Group pkg) "." "/" ++ "/")%string
    with (repo pkg).
  destruct (net w (served w) (repo pkg)) as [err|code st body].
  - rewrite fmt_Printf_advance. same_world.
  - change (when (Verbose n) (fmt_Printf ?f ?a))
      with (when (Verbose n) (emit (EvStdout f a))).
    rewrite when_advance.
    destruct (code =? 200).
    + destruct (NotAvailable body); [ | same_world].
      rewrite when_advance. same_world.
    + destruct (code =? 429); [ | same_world].
      rewrite fmt_Printf_advance, time_Sleep_advance.
      same_world.
Qed.

Lemma mvn_gets_checking n pkg : gets (checking n pkg) = [].
Proof. unfold checking; destruct (Verbose n); reflexivity. Qed.

Lemma mvn_sleeps_checking n pkg : sleeps (checking n pkg) = [].
Proof. unfold checking; destruct (Verbose n); reflexivity. Qed.

Lemma mvn_gets_status n st : gets (status n st) = [].
Proof. unfold status; destruct (Verbose n); reflexivity. Qed.

Lemma mvn_sleeps_status n st : sleeps (status n st) = [].
Proof. unfold status; destruct (Verbose n); reflexivity. Qed.

Lemma mvn_gets_unpublished n pkg : gets (unpublished n pkg) = [].
Proof. unfold unpublished; destruct (Verbose n); reflexivity. Qed.

Lemma mvn_sleeps_unpublished n pkg : sleeps (unpublished n pkg) = [].
Proof. unfold unpublished; destruct (Verbose n); reflexivity. Qed.

Ltac observe :=
  rewrite ?gets_app, ?sleeps_app, ?mvn_gets_checking, ?mvn_sleeps_checking,
          ?mvn_gets_status, ?mvn_sleeps_status, ?mvn_gets_unpublished,
          ?mvn_sleeps_unpublished;
  cbn [gets sleeps filter isGet isSleep failed throttled exhausted app].

(** Every run, whatever the registry answers. *)
Lemma mvn_run_summary (k : nat) : forall n pkg retry w,
  (retriesLeft retry <= k)%nat ->
  exists b g m dt evs,
    isAvailableInPublic n pkg retry w = (b, advance w g dt evs)
    /\ gets evs = repeat (EvGet (repo pkg)) g
    /\ sleeps evs = repeat (EvSleep 10) m
    /\ (m <= g <= retriesLeft retry)%nat
    /\ (Group pkg = "" -> g = 0%nat /\ (retry <= 3 -> b = true)).
Proof.
  induction k as [|k IH]; intros n pkg retry w Hk.
  - exists false, 0%nat, 0%nat, 0, [exhausted pkg].
    rewrite mvn_run_exhausted by (unfold retriesLeft in Hk; lia).
    unfold retriesLeft in Hk. repeat split; simpl; lia.
  - destruct (Z_gt_dec retry 3) as [g|g].
    + exists false, 0%nat, 0%nat, 0, [exhausted pkg].
      rewrite mvn_run_exhausted by lia. repeat split; simpl; lia.
    + assert (Hr : (1 <= retriesLeft retry)%nat) by (unfold retriesLeft; lia).
      destruct (string_dec (Group pkg) "") as [Eg|Eg].
      { exists true, 0%nat, 0%nat, 0, [].
        rewrite mvn_run_no_group, advance_nothing by (assumption || lia).
        repeat split; simpl; lia. }
      rewrite mvn_run_attempt by (assumption || lia). cbv zeta.
      destruct (net w (served w) (repo pkg)) as [err|code st body].
      * eexists _, 1%nat, 0%nat, _, _. rewrite advance_advance.
        split; [reflexivity | ]. observe.
        repeat split; try lia; contradiction.
      * destruct (code =? 200).
        { destruct (NotAvailable body);
            eexists _, 1%nat, 0%nat, _, _; rewrite !advance_advance;
            (split; [reflexivity | ]); observe;
            repeat split; try lia; contradiction. }
        destruct (code =? 429).
        2:{ eexists _, 1%nat, 0%nat, _, _. rewrite advance_advance.
            split; [reflexivity | ]. observe.
            repeat split; try lia; contradiction. }
        rewrite !advance_advance.
        edestruct (IH n pkg (retry + 1))
          as (b & g' & m & dt & evs & E & Hg & Hs & Hb & _);
          [unfold retriesLeft in *; lia | ].
        rewrite E, advance_advance.
        exists b, (S g'), (S m), (rtt w (served w) (repo pkg) + 0 + 10 + dt),
          (((checking n pkg ++ [EvGet (repo pkg)]) ++ status n st
              ++ [throttled; EvSleep 10]) ++ evs).
        split; [apply f_equal, advance_ext; [lia | lia | reflexivity] | ].
        observe. rewrite Hg, Hs.
        repeat split; try reflexivity; try contradiction;
          unfold retriesLeft in *; lia.
Qed.

(** A registry that answers 429 to each of the [j] calls left below
    the cap. *)
Lemma mvn_run_throttled (j : nat) : forall n pkg retry w,
  Group pkg <> "" ->
  retry + Z.of_nat j = 4 ->
  (forall k, (k < j)%nat -> throttles (net w (k + served w) (repo pkg))) ->
  exists dt evs,
    isAvailableInPublic n pkg retry w
    = (false, advance w j dt (evs ++ [exhausted pkg]))
    /\ gets evs = repeat (EvGet (repo pkg)) j
    /\ sleeps evs = repeat (EvSleep 10) j.
Proof.
  induction j as [|j IH]; intros n pkg retry w Hgrp Hr Hnet.
  - exists 0, []. rewrite mvn_run_exhausted by lia. now repeat split.
  - rewrite mvn_run_attempt by (assumption || lia). cbv zeta.
    destruct (Hnet 0%nat) as (st & body & E); [lia | ].
    cbn [Nat.add] in E. rewrite E. cbn [Z.eqb Pos.eqb].
    rewrite !advance_advance.
    edestruct (IH n pkg (retry + 1)) as (dt & evs & E' & Hg & Hs);
      [assumption | lia | | ].
    2:{ rewrite E', advance_advance.
        eexists _, ((checking n pkg ++ [EvGet (repo pkg)]) ++ status n st
                      ++ [throttled; EvSleep 10] ++ evs).
        split.
        - apply f_equal, advance_ext; [lia | reflexivity | ].
          now rewrite <- !app_assoc.
        - observe. now rewrite Hg, Hs. }
    intros k Hk. rewrite net_advance, served_advance.
    replace (k + (0 + 0 + 1 + served w))%nat with (S k + served w)%nat by lia.
    apply Hnet. lia.
Qed.


End Runs.

End MvnRun.

(* ===================================================================== *)
(** * The parsers                                                        *)
(* ===================================================================== *)




(** C7.  Reading a pom.xml whose content is shorter than ten bytes, or
    which the XML decoder rejects, returns no error and leaves the lookup
    as it was, so that a new lookup keeps an empty package list; the call
    asks nothing of the network. *)
Theorem maven_malformed_pom
        (xml_Unmarshal : string -> error + Mvn.MavenProject)
        (filename raw : string) (n : Mvn.MVNLookup) (w : World) :
  lookupFile filename (files w) = Some raw ->
  len raw < 10 \/ (exists err, xml_Unmarshal raw = inl err) ->
  exists evs,
    Mvn.ReadPackagesFromFile xml_Unmarshal filename n w
    = ((None, n), advance w 0 0 evs)
    /\ gets evs = []
    /\ (forall verbose, n = Mvn.NewMVNLookup verbose -> Mvn.Packages n = []).
Proof.
  intros Hfile Hbad.
  unfold Mvn.ReadPackagesFromFile, bind, ReadFile. rewrite Hfile.
  change (when (Mvn.Verbose n) (fmt_Print ?s))
    with (when (Mvn.Verbose n) (emit (EvStdout s []))).
  rewrite when_advance.
  assert (Hnew : forall verbose, n = Mvn.NewMVNLookup verbose -> Mvn.Packages n = [])
    by (now intros verbose ->).
  destruct (len raw <? 10) eqn:Hlen.
  - change (when (Mvn.Verbose n) (fmt_Printf ?f ?a))
      with (when (Mvn.Verbose n) (emit (EvStdout f a))).
    rewrite when_advance. unfold ret. rewrite advance_advance.
    eexists. split; [reflexivity | ]. split; [ | exact Hnew].
    destruct (Mvn.Verbose n); reflexivity.
  - destruct Hbad as [Hshort | (err & Herr)].
    + apply Z.ltb_ge in Hlen. lia.
    + rewrite Herr.
      change (when (Mvn.Verbose n) (fmt_Printf ?f ?a))
        with (when (Mvn.Verbose n) (emit (EvStdout f a))).
      rewrite when_advance. unfold ret. rewrite advance_advance.
      eexists. split; [reflexivity | ]. split; [ | exact Hnew].
      destruct (Mvn.Verbose n); reflexivity.
Qed.

(** A pom.xml cut off after eight bytes, and a longer one the decoder
    rejects: both are read without error into an empty package list. *)
Lemma maven_malformed_pom_witness :
  (exists evs,
      Mvn.ReadPackagesFromFile Examples.noXML "pom.xml" (Mvn.NewMVNLookup false)
                               ExamplesPip.pomWorld
      = ((None, Mvn.NewMVNLookup false), advance ExamplesPip.pomWorld 0 0 evs))
  /\ (exists evs,
      Mvn.ReadPackagesFromFile Examples.noXML "module/pom.xml"
                               (Mvn.NewMVNLookup true) ExamplesPip.pomWorld
      = ((None, Mvn.NewMVNLookup true), advance ExamplesPip.pomWorld 0 0 evs))
  /\ Mvn.Packages (Mvn.NewMVNLookup false) = [].
Proof.
  split; [ | split].
  - destruct (maven_malformed_pom Examples.noXML "pom.xml" (raw := ExamplesPip.shortPom)
                (Mvn.NewMVNLookup false) ExamplesPip.pomWorld eq_refl
                (or_introl eq_refl)) as (evs & H & _).
    exists evs. exact H.
  - destruct (maven_malformed_pom Examples.noXML "module/pom.xml"
                (raw := ExamplesPip.truncatedPom)
                (Mvn.NewMVNLookup true) ExamplesPip.pomWorld eq_refl
                (or_intror (ex_intro _ (LibError "EOF") eq_refl))) as (evs & H & _).
    exists evs. exact H.
  - reflexivity.
Defined.

(* ===================================================================== *)
(** * Availability checks: errors, throttling and the retry cap          *)
(* ===================================================================== *)

Lemma pip_run (p : Pip.PythonLookup) (name : string) (w : World) :
  Pip.isAvailableInPublic p name w =
  let w1 := advance w 1 (rtt w (served w) (Pip.url name))
                    (PipOut.checking p name ++ [EvGet (Pip.url name)]) in
  match net w (served w) (Pip.url name) with
  | HttpError err => (false, advance w1 0 0 [PipOut.failed name err])
  | HttpResponse code st _ => (code =? 200, advance w1 0 0 (PipOut.status p st))
  end.
Proof.
  unfold Pip.isAvailableInPublic, bind.
  change (when (Pip.Verbose p) (fmt_Print ?s) w)
    with (when (Pip.Verbose p) (emit (EvStdout s [])) w).
  rewrite when_advance, http_Get_advance.
  rewrite net_advance, rtt_advance, served_advance. cbn [Nat.add].
  change ("https://pypi.org/project/" ++ name ++ "/")%string with (Pip.url name).
  cbv zeta.
  destruct (net w (served w) (Pip.url name)) as [err|code st body].
  - rewrite fmt_Printf_advance. same_world.
  - change (when (Pip.Verbose p) (fmt_Printf ?f ?a))
      with (when (Pip.Verbose p) (emit (EvStdout f a))).
    rewrite when_advance.
    destruct (code =? 200); same_world.
Qed.

Lemma pip_gets_checking p name : gets (PipOut.checking p name) = [].
Proof. unfold PipOut.checking; destruct (Pip.Verbose p); reflexivity. Qed.

Lemma pip_sleeps_checking p name : sleeps (PipOut.checking p name) = [].
Proof. unfold PipOut.checking; destruct (Pip.Verbose p); reflexivity. Qed.

Lemma pip_gets_status p st : gets (PipOut.status p st) = [].
Proof. unfold PipOut.status; destruct (Pip.Verbose p); reflexivity. Qed.

Lemma pip_sleeps_status p st : sleeps (PipOut.status p st) = [].
Proof. unfold PipOut.status; destruct (Pip.Verbose p); reflexivity. Qed.

(** The pip check always makes one request and never sleeps. *)
Lemma pip_single_request p name w :
  let r := Pip.isAvailableInPublic p name w in
  requests w r = [EvGet (Pip.url name)]
  /\ backoffs w r = []
  /\ served (snd r) = S (served w)
  /\ (transportError (net w (served w) (Pip.url name)) -> verdict r = false).
Proof.
  cbv zeta. unfold requests, backoffs, verdict. rewrite pip_run. cbv zeta.
  destruct (net w (served w) (Pip.url name)) as [err|code st body];
    rewrite advance_advance; cbn [fst snd]; rewrite since_advance;
    rewrite ?gets_app, ?sleeps_app, ?pip_gets_checking, ?pip_sleeps_checking,
            ?pip_gets_status, ?pip_sleeps_status;
    repeat split; try reflexivity.
  intros (err & E). discriminate E.
Qed.

Lemma not_throttled_code code st body :
  ~ throttles (HttpResponse code st body) -> (code =? 429) = false.
Proof.
  intros H. apply Z.eqb_neq. intros ->. apply H. now exists st, body.
Qed.

(** A composer check whose answer is not a 429 makes that one request and
    does not sleep. *)
Lemma composer_single_request c name retry w :
  retry <= 3 ->
  ~ throttles (net w (served w) (Composer.url name)) ->
  let r := Composer.isAvailableInPublic c name retry w in
  requests w r = [EvGet (Composer.url name)]
  /\ backoffs w r = []
  /\ served (snd r) = S (served w)
  /\ (transportError (net w (served w) (Composer.url name)) -> verdict r = false).
Proof.
  intros Hr Hnot. cbv zeta. unfold requests, backoffs, verdict.
  rewrite ComposerRun.composer_run_attempt by assumption. cbv zeta.
  destruct (net w (served w) (Composer.url name)) as [err|code st body].
  - rewrite advance_advance; cbn [fst snd]; rewrite since_advance.
    rewrite ?gets_app, ?sleeps_app, ?ComposerRun.composer_gets_checking,
            ?ComposerRun.composer_sleeps_checking.
    repeat split; reflexivity.
  - rewrite (not_throttled_code Hnot).
    assert (Hte : ~ transportError (HttpResponse code st body))
      by (intros (err & E); discriminate E).
    destruct (code =? 200);
      rewrite advance_advance; cbn [fst snd]; rewrite since_advance;
      rewrite ?gets_app, ?sleeps_app, ?ComposerRun.composer_gets_checking,
              ?ComposerRun.composer_sleeps_checking,
              ?ComposerRun.composer_gets_status,
              ?ComposerRun.composer_sleeps_status;
      repeat split; try reflexivity; intros H; now destruct (Hte H).
Qed.

(** The same for a maven check of a package that has a group. *)
Lemma mvn_single_request NotAvailable n pkg retry w :
  retry <= 3 ->
  Mvn.Group pkg <> "" ->
  ~ throttles (net w (served w) (MvnOut.repo pkg)) ->
  let r := Mvn.isAvailableInPublic NotAvailable n pkg retry w in
  requests w r = [EvGet (MvnOut.repo pkg)]
  /\ backoffs w r = []
  /\ served (snd r) = S (served w)
  /\ (transportError (net w (served w) (MvnOut.repo pkg)) -> verdict r = false).
Proof.
  intros Hr Hg Hnot. cbv zeta. unfold requests, backoffs, verdict.
  rewrite MvnRun.mvn_run_attempt by assumption. cbv zeta.
  destruct (net w (served w) (MvnOut.repo pkg)) as [err|code st body].
  - rewrite advance_advance; cbn [fst snd]; rewrite since_advance.
    rewrite ?gets_app, ?sleeps_app, ?MvnRun.mvn_gets_checking,
            ?MvnRun.mvn_sleeps_checking.
    repeat split; reflexivity.
  - rewrite (not_throttled_code Hnot).
    assert (Hte : ~ transportError (HttpResponse code st body))
      by (intros (err & E); discriminate E).
    destruct (code =? 200); [destruct (NotAvailable body) | ];
      rewrite ?advance_advance; cbn [fst snd]; rewrite since_advance;
      rewrite ?gets_app, ?sleeps_app, ?MvnRun.mvn_gets_checking,
              ?MvnRun.mvn_sleeps_checking, ?MvnRun.mvn_gets_status,
              ?MvnRun.mvn_sleeps_status, ?MvnRun.mvn_gets_unpublished,
              ?MvnRun.mvn_sleeps_unpublished;
      repeat split; try reflexivity; intros H; now destruct (Hte H).
Qed.

(** C8.  In the pip, composer and maven checks a request that fails in
    transport makes the package unavailable at once: the check has made
    that one request, has not slept and does not ask again.  The same
    holds for every answer other than a 429; the pip check does not
    retry at all. *)
Theorem transport_error_is_not_retried
        (NotAvailable : string -> bool) (w : World) :
  (forall p name,
      let r := Pip.isAvailableInPublic p name w in
      requests w r = [EvGet (Pip.url name)]
      /\ backoffs w r = []
      /\ served (snd r) = S (served w)
      /\ (transportError (net w (served w) (Pip.url name)) -> verdict r = false))
  /\ (forall c name retry,
      retry <= 3 ->
      ~ throttles (net w (served w) (Composer.url name)) ->
      let r := Composer.isAvailableInPublic c name retry w in
      requests w r = [EvGet (Composer.url name)]
      /\ backoffs w r = []
      /\ served (snd r) = S (served w)
      /\ (transportError (net w (served w) (Composer.url name)) ->
          verdict r = false))
  /\ (forall n pkg retry,
      retry <= 3 ->
      Mvn.Group pkg <> "" ->
      ~ throttles (net w (served w) (MvnOut.repo pkg)) ->
      let r := Mvn.isAvailableInPublic NotAvailable n pkg retry w in
      requests w r = [EvGet (MvnOut.repo pkg)]
      /\ backoffs w r = []
      /\ served (snd r) = S (served w)
      /\ (transportError (net w (served w) (MvnOut.repo pkg)) ->
          verdict r = false)).
Proof.
  split; [ | split].
  - intros p name. apply pip_single_request.
  - intros c name retry. apply composer_single_request.
  - intros n pkg retry. apply mvn_single_request.
Qed.

(** A dead network: each of the three checks gives up after its first
    request, without a sleep. *)
Lemma transport_error_is_not_retried_witness :
  let w := ExamplesRetry.unreachableWorld in
  let rp := Pip.isAvailableInPublic (Pip.NewPythonLookup false) "acme-internal" w in
  let rc := Composer.isAvailableInPublic (Composer.NewComposerLookup false)
                                         "acme/internal" 0 w in
  let rm := Mvn.isAvailableInPublic Examples.published (Mvn.NewMVNLookup false)
                                    ExamplesRetry.acme 0 w in
  (verdict rp = false /\ length (requests w rp) = 1%nat /\ backoffs w rp = [])
  /\ (verdict rc = false /\ length (requests w rc) = 1%nat /\ backoffs w rc = [])
  /\ (verdict rm = false /\ length (requests w rm) = 1%nat /\ backoffs w rm = []).
Proof.
  cbv zeta.
  destruct (transport_error_is_not_retried Examples.published
              ExamplesRetry.unreachableWorld) as (Hp & Hc & Hm).
  assert (Hdown : forall u, transportError (net ExamplesRetry.unreachableWorld
                                                (served ExamplesRetry.unreachableWorld) u))
    by (intros u; eexists; reflexivity).
  assert (Hnot : forall u, ~ throttles (net ExamplesRetry.unreachableWorld
                                            (served ExamplesRetry.unreachableWorld) u))
    by (intros u (st & body & E); discriminate E).
  split; [ | split].
  - destruct (Hp (Pip.NewPythonLookup false) "acme-internal") as (H1 & H2 & _ & H4).
    rewrite H1. auto.
  - destruct (Hc (Composer.NewComposerLookup false) "acme/internal" 0)
      as (H1 & H2 & _ & H4); [lia | apply Hnot | ].
    rewrite H1. auto.
  - destruct (Hm (Mvn.NewMVNLookup false) ExamplesRetry.acme 0)
      as (H1 & H2 & _ & H4); [lia | discriminate | apply Hnot | ].
    rewrite H1. auto.
Defined.

(** A byte below 0x80 is a rune of its own, and its lower case is the
    lower case of the byte. *)
Lemma lower_of_ascii (lowerCase : Z -> Z) (c : ascii) (s : string) :
  byte c < 0x80 ->
  DecodeRuneInString (String c s) = (byte c, 1%nat)
  /\ (0 <=? unicode_ToLower lowerCase (byte c)) = true
  /\ EncodeRune (unicode_ToLower lowerCase (byte c)) = String (toLower c) "".
Proof.
  intros H.
  assert (Hd : DecodeRuneInString (String c s) = (byte c, 1%nat)).
  { cbn [DecodeRuneInString]. cbv zeta.
    apply Z.ltb_lt in H. now rewrite H. }
  split; [exact Hd | ]. clear Hd s.
  destruct c as [[] [] [] [] [] [] [] []];
    try (vm_compute in H; discriminate H);
    split; vm_compute; reflexivity.
Qed.

Lemma ToLower_ascii_head (lowerCase : Z -> Z) (c : ascii) (s : string) :
  byte c < 0x80 ->
  ToLower lowerCase (String c s) = String (toLower c) (ToLower lowerCase s).
Proof.
  intros H. unfold ToLower. cbn [isASCII].
  destruct (@lower_of_ascii lowerCase c s H) as (Hd & Hpos & He).
  apply Z.ltb_lt in H. rewrite H. cbn [andb].
  destruct (isASCII s); [reflexivity | ].
  unfold Map. cbn [mapFrom]. rewrite Hd, Hpos, He.
  cbn [String.append Nat.sub]. reflexivity.
Qed.

(** Lower-casing keeps a prefix of ASCII characters. *)
Lemma prefix_ToLower (lowerCase : Z -> Z) (p v : string) :
  isASCII p = true ->
  String.prefix p v = true ->
  String.prefix (lowerBytes p) (ToLower lowerCase v) = true.
Proof.
  revert v. induction p as [|a p IH]; intros v Hp.
  { intros _. cbn [lowerBytes String.prefix]. now destruct (ToLower lowerCase v). }
  destruct v as [|b v]; [discriminate | ].
  cbn [String.prefix isASCII] in *.
  apply andb_prop in Hp as [Ha Hp]. apply Z.ltb_lt in Ha.
  destruct (ascii_dec a b) as [<-|]; [ | discriminate].
  intros H. rewrite ToLower_ascii_head by exact Ha.
  cbn [lowerBytes String.prefix].
  destruct (ascii_dec (toLower a) (toLower a)); [auto | contradiction].
Qed.

(** The test lower-cases runes, not bytes: with a case table that maps
    U+0130 to i, as the table of Go does, a version that writes the i of
    [file:] as U+0130 is a local reference. *)
Example reference_test_maps_runes :
  Composer.localReference
    Examples.lowerCase
    ("f" ++ String (ascii_of_nat 196) (String (ascii_of_nat 176) "")
         ++ "le:./local")%string
  = true.
Proof. vm_compute. reflexivity. Qed.

(** A version of the specification's class passes the test the code
    makes. *)
Lemma declared_is_reference (lowerCase : Z -> Z) (version : string) :
  declaredReference version = true -> isReference lowerCase version = true.
Proof.
  unfold declaredReference. intros H.
  apply existsb_exists in H as (p & Hin & Hp).
  unfold isReference, Composer.localReference, Composer.urlReference,
    Composer.gitReference, HasPrefix in *.
  cbv zeta. cbn [existsb].
  cbn [In] in Hin.
  repeat (destruct Hin as [<- | Hin];
          [apply (prefix_ToLower lowerCase) in Hp; [ | reflexivity];
           vm_compute lowerBytes in Hp;
           rewrite Hp; rewrite ?orb_true_r; reflexivity | ]).
  contradiction.
Qed.

(* ===================================================================== *)
(** * The loops of [PackagesNotInPublic]                                 *)
(* ===================================================================== *)

Lemma in_gets_repeat (u : string) (e : Event) (n : nat) (evs : list Event) :
  gets evs = repeat e n -> In (EvGet u) evs -> e = EvGet u /\ (0 < n)%nat.
Proof.
  intros Hg Hin.
  assert (H : In (EvGet u) (gets evs)) by (apply filter_In; now split).
  rewrite Hg in H. destruct n; [contradiction | ].
  split; [ | lia]. symmetry. eapply repeat_spec. exact H.
Qed.

(** The composer loop: what it reports and what it requests comes from
    packages that pass no reference test. *)
Lemma composer_loop (lowerCase : Z -> Z) (c : Composer.ComposerLookup) :
  forall pkgs acc w,
  exists res g dt evs,
    Composer.notInPublic lowerCase c pkgs acc w = (acc ++ res, advance w g dt evs)
    /\ (forall id, In id res ->
        exists pkg, In pkg pkgs /\ isReference lowerCase (Composer.Version pkg) = false
                    /\ id = Composer.Name pkg)
    /\ (forall u, In (EvGet u) evs ->
        exists pkg, In pkg pkgs /\ isReference lowerCase (Composer.Version pkg) = false
                    /\ u = Composer.url (Composer.Name pkg)).
Proof.
  induction pkgs as [|pkg rest IH]; intros acc w.
  - exists [], 0%nat, 0, []. simpl. unfold ret.
    rewrite app_nil_r, advance_nothing. repeat split; intros ? [].
  - cbn [Composer.notInPublic].
    fold (isReference lowerCase (Composer.Version pkg)).
    destruct (isReference lowerCase (Composer.Version pkg)) eqn:Eref.
    + destruct (IH acc w) as (res & g & dt & evs & E & Hres & Hget).
      exists res, g, dt, evs. split; [exact E | ].
      split; intros x Hx;
        [destruct (Hres x Hx) as (q & ? & ? & ?)
        | destruct (Hget x Hx) as (q & ? & ? & ?)];
        exists q; repeat split; auto; now right.
    + unfold bind.
      destruct (ComposerRun.composer_run_summary (k := retriesLeft 0) c
                  (Composer.Name pkg) 0 w (le_n _))
        as (b & g1 & m & dt1 & evs1 & E1 & Hg1 & _ & _).
      rewrite E1.
      destruct (IH (if negb b then acc ++ [Composer.Name pkg] else acc)
                   (advance w g1 dt1 evs1))
        as (res & g & dt & evs & E & Hres & Hget).
      rewrite E, advance_advance.
      exists ((if negb b then [Composer.Name pkg] else []) ++ res),
        (g + g1)%nat, (dt1 + dt), (evs1 ++ evs).
      split.
      { f_equal. destruct b; simpl; [reflexivity | now rewrite <- app_assoc]. }
      split; intros x Hx; apply in_app_or in Hx as [Hx | Hx].
      * destruct b; simpl in Hx; [contradiction | ].
        destruct Hx as [<- | []]. exists pkg. repeat split; auto. now left.
      * destruct (Hres x Hx) as (q & ? & ? & ?).
        exists q; repeat split; auto; now right.
      * destruct (@in_gets_repeat x _ _ _ Hg1 Hx) as [Eu _].
        injection Eu as <-. exists pkg. repeat split; auto. now left.
      * destruct (Hget x Hx) as (q & ? & ? & ?).
        exists q; repeat split; auto; now right.
Qed.

(** Taking the packages of the specification's class out of the list
    changes nothing in the run of the composer loop. *)
Lemma composer_loop_skips (lowerCase : Z -> Z) (c : Composer.ComposerLookup) :
  forall pkgs acc w,
    Composer.notInPublic lowerCase c pkgs acc w
    = Composer.notInPublic lowerCase c (filter fromRegistry pkgs) acc w.
Proof.
  induction pkgs as [|pkg rest IH]; intros acc w; [reflexivity | ].
  cbn [Composer.notInPublic filter]. unfold fromRegistry at 1.
  fold (isReference lowerCase (Composer.Version pkg)).
  destruct (declaredReference (Composer.Version pkg)) eqn:Ed; cbn [negb].
  - rewrite (declared_is_reference lowerCase _ Ed). apply IH.
  - cbn [Composer.notInPublic]. fold (isReference lowerCase (Composer.Version pkg)).
    destruct (isReference lowerCase (Composer.Version pkg)); [apply IH | ].
    unfold bind.
    destruct (Composer.isAvailableInPublic c (Composer.Name pkg) 0 w) as [ok w'].
    apply IH.
Qed.

(** The maven loop: what it reports and what it requests comes from
    packages that have a group. *)
Lemma mvn_loop (NotAvailable : string -> bool) (n : Mvn.MVNLookup) :
  forall pkgs acc w,
  exists res g dt evs,
    Mvn.notInPublic NotAvailable n pkgs acc w = (acc ++ res, advance w g dt evs)
    /\ (forall id, In id res ->
        exists pkg, In pkg pkgs /\ Mvn.Group pkg <> "" /\ id = Mvn.ident pkg)
    /\ (forall u, In (EvGet u) evs ->
        exists pkg, In pkg pkgs /\ Mvn.Group pkg <> "" /\ u = MvnOut.repo pkg).
Proof.
  induction pkgs as [|pkg rest IH]; intros acc w.
  - exists [], 0%nat, 0, []. simpl. unfold ret.
    rewrite app_nil_r, advance_nothing. repeat split; intros ? [].
  - cbn [Mvn.notInPublic]. unfold bind.
    destruct (MvnRun.mvn_run_summary NotAvailable (k := retriesLeft 0) n pkg 0 w
                (le_n _))
      as (b & g1 & m & dt1 & evs1 & E1 & Hg1 & _ & _ & Hgrp).
    rewrite E1.
    fold (Mvn.ident pkg).
    destruct (IH (if negb b then acc ++ [Mvn.ident pkg] else acc)
                 (advance w g1 dt1 evs1))
      as (res & g & dt & evs & E & Hres & Hget).
    rewrite E, advance_advance.
    exists ((if negb b then [Mvn.ident pkg] else []) ++ res),
      (g + g1)%nat, (dt1 + dt), (evs1 ++ evs).
    split.
    { f_equal. destruct b; simpl; [reflexivity | now rewrite <- app_assoc]. }
    split; intros x Hx; apply in_app_or in Hx as [Hx | Hx].
    * destruct b; simpl in Hx; [contradiction | ].
      destruct Hx as [<- | []]. exists pkg. repeat split; auto; [now left | ].
      intros Eg. destruct (Hgrp Eg) as [_ Hb]. discriminate Hb. lia.
    * destruct (Hres x Hx) as (q & ? & ? & ?).
      exists q; repeat split; auto; now right.
    * destruct (@in_gets_repeat x _ _ _ Hg1 Hx) as [Eu Hpos].
      injection Eu as <-. exists pkg. repeat split; auto; [now left | ].
      intros Eg. destruct (Hgrp Eg) as [Hz _]. lia.
    * destruct (Hget x Hx) as (q & ? & ? & ?).
      exists q; repeat split; auto; now right.
Qed.

(** Taking the packages without group out of the list changes nothing in
    the run of the maven loop. *)
Lemma mvn_loop_skips (NotAvailable : string -> bool) (n : Mvn.MVNLookup) :
  forall pkgs acc w,
    Mvn.notInPublic NotAvailable n pkgs acc w
    = Mvn.notInPublic NotAvailable n (filter hasGroup pkgs) acc w.
Proof.
  induction pkgs as [|pkg rest IH]; intros acc w; [reflexivity | ].
  cbn [Mvn.notInPublic filter]. unfold hasGroup at 1.
  destruct (String.eqb (Mvn.Group pkg) "") eqn:Eg; cbn [negb].
  - apply String.eqb_eq in Eg. unfold bind.
    rewrite MvnRun.mvn_run_no_group by (assumption || lia).
    cbn [negb]. apply IH.
  - cbn [Mvn.notInPublic]. unfold bind.
    destruct (Mvn.isAvailableInPublic NotAvailable n pkg 0 w) as [ok w'].
    apply IH.
Qed.

(** The checks read nothing of the lookup but its [Verbose] flag. *)
Lemma composer_check_verbose (k : nat) : forall c c' name retry w,
  Composer.Verbose c = Composer.Verbose c' ->
  (retriesLeft retry <= k)%nat ->
  Composer.isAvailableInPublic c name retry w
  = Composer.isAvailableInPublic c' name retry w.
Proof.
  induction k as [|k IH]; intros c c' name retry w Hv Hk.
  - rewrite !ComposerRun.composer_run_exhausted
      by (unfold retriesLeft in Hk; lia). reflexivity.
  - destruct (Z_gt_dec retry 3) as [g|g].
    + now rewrite !ComposerRun.composer_run_exhausted by lia.
    + rewrite !ComposerRun.composer_run_attempt by lia.
      unfold ComposerOut.checking, ComposerOut.status. rewrite Hv. cbv zeta.
      destruct (net w (served w) (Composer.url name)) as [err|code st body];
        [reflexivity | ].
      destruct (code =? 200); [reflexivity | ].
      destruct (code =? 429); [ | reflexivity].
      apply IH; [assumption | unfold retriesLeft in *; lia].
Qed.

Lemma composer_loop_verbose (lowerCase : Z -> Z) (c c' : Composer.ComposerLookup) :
  Composer.Verbose c = Composer.Verbose c' ->
  forall pkgs acc w,
    Composer.notInPublic lowerCase c pkgs acc w = Composer.notInPublic lowerCase c' pkgs acc w.
Proof.
  intros Hv. induction pkgs as [|pkg rest IH]; intros acc w; [reflexivity | ].
  cbn [Composer.notInPublic].
  destruct (Composer.localReference lowerCase (Composer.Version pkg)
            || Composer.urlReference lowerCase (Composer.Version pkg)
            || Composer.gitReference lowerCase (Composer.Version pkg)); [apply IH | ].
  unfold bind.
  rewrite (composer_check_verbose (k := retriesLeft 0) c c' _ 0 w Hv (le_n _)).
  destruct (Composer.isAvailableInPublic c' (Composer.Name pkg) 0 w) as [ok w'].
  apply IH.
Qed.

Lemma mvn_check_verbose (NotAvailable : string -> bool) (k : nat) :
  forall n n' pkg retry w,
  Mvn.Verbose n = Mvn.Verbose n' ->
  (retriesLeft retry <= k)%nat ->
  Mvn.isAvailableInPublic NotAvailable n pkg retry w
  = Mvn.isAvailableInPublic NotAvailable n' pkg retry w.
Proof.
  induction k as [|k IH]; intros n n' pkg retry w Hv Hk.
  - rewrite !MvnRun.mvn_run_exhausted
      by (unfold retriesLeft in Hk; lia). reflexivity.
  - destruct (Z_gt_dec retry 3) as [g|g].
    + now rewrite !MvnRun.mvn_run_exhausted by lia.
    + destruct (string_dec (Mvn.Group pkg) "") as [Eg|Eg].
      { now rewrite !MvnRun.mvn_run_no_group by (assumption || lia). }
      rewrite !MvnRun.mvn_run_attempt by (assumption || lia).
      unfold MvnOut.checking, MvnOut.status, MvnOut.unpublished.
      rewrite Hv. cbv zeta.
      destruct (net w (served w) (MvnOut.repo pkg)) as [err|code st body];
        [reflexivity | ].
      destruct (code =? 200); [reflexivity | ].
      destruct (code =? 429); [ | reflexivity].
      apply IH; [assumption | unfold retriesLeft in *; lia].
Qed.

Lemma mvn_loop_verbose (NotAvailable : string -> bool) (n n' : Mvn.MVNLookup) :
  Mvn.Verbose n = Mvn.Verbose n' ->
  forall pkgs acc w,
    Mvn.notInPublic NotAvailable n pkgs acc w
    = Mvn.notInPublic NotAvailable n' pkgs acc w.
Proof.
  intros Hv. induction pkgs as [|pkg rest IH]; intros acc w; [reflexivity | ].
  cbn [Mvn.notInPublic]. unfold bind.
  rewrite (mvn_check_verbose NotAvailable (k := retriesLeft 0) n n' pkg 0 w
             Hv (le_n _)).
  destruct (Mvn.isAvailableInPublic NotAvailable n' pkg 0 w) as [ok w'].
  apply IH.
Qed.

Lemma not_reference_from_registry (lowerCase : Z -> Z)
      (pkg : Composer.ComposerPackage) :
  isReference lowerCase (Composer.Version pkg) = false -> fromRegistry pkg = true.
Proof.
  intros H. unfold fromRegistry.
  destruct (declaredReference (Composer.Version pkg)) eqn:E; [ | reflexivity].
  rewrite (declared_is_reference lowerCase _ E) in H. discriminate H.
Qed.

(** C5.  A composer package whose version is prefixed [file:], [http:],
    [https:], [git:], [git+ssh:], [git+http:] or [git+https:] takes no
    part in [PackagesNotInPublic]: the run is the run on the list without
    these packages, every identifier reported and every request made
    belongs to a package outside the class.  For the composer.json of
    scenario B only monolog/monolog is asked for, and
    internal/php-package is not reported although the registry does not
    know it.  This holds whatever the lower case of the characters above
    ASCII is. *)
Theorem composer_references_are_not_checked
        (lowerCase : Z -> Z) (c : Composer.ComposerLookup) (w : World) :
  let r := Composer.PackagesNotInPublic lowerCase c w in
  r = Composer.PackagesNotInPublic lowerCase
        (Composer.setPackages c (filter fromRegistry (Composer.Packages c))) w
  /\ (forall id, In id (fst r) ->
      exists pkg, In pkg (Composer.Packages c) /\ fromRegistry pkg = true
                  /\ id = Composer.Name pkg)
  /\ (forall u, In (EvGet u) (since w (snd r)) ->
      exists pkg, In pkg (Composer.Packages c) /\ fromRegistry pkg = true
                  /\ u = Composer.url (Composer.Name pkg))
  /\ (let rB := Composer.PackagesNotInPublic lowerCase ExamplesRetry.scenarioB
                                             ExamplesRetry.emptyRegistry in
      fst rB = ["monolog/monolog"]
      /\ gets (since ExamplesRetry.emptyRegistry (snd rB))
         = [EvGet "https://packagist.org/packages/monolog/monolog.json"]).
Proof.
  cbv zeta. unfold Composer.PackagesNotInPublic.
  split.
  { rewrite composer_loop_skips. now apply composer_loop_verbose. }
  destruct (composer_loop lowerCase c (Composer.Packages c) [] w)
    as (res & g & dt & evs & E & Hres & Hget).
  rewrite E. cbn [fst snd app]. rewrite since_advance.
  split; [ | split].
  - intros id Hid. destruct (Hres id Hid) as (pkg & Hin & Href & Hname).
    exists pkg. eauto using not_reference_from_registry.
  - intros u Hu. destruct (Hget u Hu) as (pkg & Hin & Href & Hname).
    exists pkg. eauto using not_reference_from_registry.
  - split; vm_compute; reflexivity.
Qed.

(** Scenario B through the general statement: the one identifier
    reported belongs to a package outside the class. *)
Lemma composer_references_are_not_checked_witness :
  exists pkg,
    In pkg (Composer.Packages ExamplesRetry.scenarioB)
    /\ fromRegistry pkg = true
    /\ "monolog/monolog" = Composer.Name pkg.
Proof.
  apply (proj1 (proj2 (composer_references_are_not_checked
                         Examples.lowerCase
                         ExamplesRetry.scenarioB ExamplesRetry.emptyRegistry))).
  vm_compute. left. reflexivity.
Defined.

(** C10.  A maven package whose group is the empty string is taken as
    available without a request (the world is left as it was), and it
    takes no part in [PackagesNotInPublic]: the run is the run on the list
    without these packages, and every identifier reported and every
    request made belongs to a package that has a group. *)
Theorem maven_without_group_is_available
        (NotAvailable : string -> bool) (n : Mvn.MVNLookup) (w : World) :
  (forall pkg retry,
      Mvn.Group pkg = "" -> retry <= 3 ->
      Mvn.isAvailableInPublic NotAvailable n pkg retry w = (true, w))
  /\ (let r := Mvn.PackagesNotInPublic NotAvailable n w in
      r = Mvn.PackagesNotInPublic NotAvailable
            (Mvn.setPackages n (filter hasGroup (Mvn.Packages n))) w
      /\ (forall id, In id (fst r) ->
          exists pkg, In pkg (Mvn.Packages n) /\ Mvn.Group pkg <> ""
                      /\ id = Mvn.ident pkg)
      /\ (forall u, In (EvGet u) (since w (snd r)) ->
          exists pkg, In pkg (Mvn.Packages n) /\ Mvn.Group pkg <> ""
                      /\ u = MvnOut.repo pkg)).
Proof.
  split.
  - intros pkg retry Hg Hr. now apply MvnRun.mvn_run_no_group.
  - cbv zeta. unfold Mvn.PackagesNotInPublic.
    split.
    { rewrite mvn_loop_skips. now apply mvn_loop_verbose. }
    destruct (mvn_loop NotAvailable n (Mvn.Packages n) [] w)
      as (res & g & dt & evs & E & Hres & Hget).
    rewrite E. cbn [fst snd app]. rewrite since_advance.
    split; assumption.
Qed.

(** A package without group in a world where every request would fail:
    it is available, and a lookup holding only this package reports
    nothing and requests nothing. *)
Lemma maven_without_group_is_available_witness :
  Mvn.isAvailableInPublic Examples.published (Mvn.NewMVNLookup false)
                          ExamplesRetry.groupless 0
                          ExamplesRetry.unreachableWorld
  = (true, ExamplesRetry.unreachableWorld).
Proof.
  apply (proj1 (maven_without_group_is_available Examples.published
                  (Mvn.NewMVNLookup false) ExamplesRetry.unreachableWorld)
               ExamplesRetry.groupless 0 eq_refl).
  lia.
Defined.

(* ===================================================================== *)
(** * The retry cap                                                      *)
(* ===================================================================== *)

(** On a 429 the composer check sleeps ten seconds and calls itself with
    the next retry number. *)
Lemma composer_retry_step c name retry w :
  retry <= 3 ->
  throttles (net w (served w) (Composer.url name)) ->
  exists evs,
    Composer.isAvailableInPublic c name retry w
    = Composer.isAvailableInPublic c name (retry + 1)
        (advance w 1 (rtt w (served w) (Composer.url name) + 10) evs)
    /\ gets evs = [EvGet (Composer.url name)]
    /\ sleeps evs = [EvSleep 10].
Proof.
  intros Hr (st & body & E).
  rewrite ComposerRun.composer_run_attempt by assumption. cbv zeta.
  rewrite E. cbn [Z.eqb Pos.eqb]. rewrite !advance_advance.
  eexists. split.
  - apply f_equal, advance_ext; [reflexivity | lia | reflexivity].
  - rewrite !gets_app, !sleeps_app, ComposerRun.composer_gets_checking,
      ComposerRun.composer_sleeps_checking, ComposerRun.composer_gets_status,
      ComposerRun.composer_sleeps_status.
    split; reflexivity.
Qed.

Lemma composer_retry_cap c name w :
  let r := Composer.isAvailableInPublic c name 0 w in
  (exists g m,
      requests w r = repeat (EvGet (Composer.url name)) g
      /\ backoffs w r = repeat (EvSleep 10) m
      /\ (m <= g <= 4)%nat)
  /\ ((forall k, (k < 4)%nat ->
                 throttles (net w (k + served w) (Composer.url name))) ->
      verdict r = false
      /\ requests w r = repeat (EvGet (Composer.url name)) 4
      /\ backoffs w r = repeat (EvSleep 10) 4
      /\ served (snd r) = (4 + served w)%nat
      /\ exists evs, since w (snd r) = evs ++ [ComposerOut.exhausted name]).
Proof.
  cbv zeta. unfold requests, backoffs, verdict. split.
  - destruct (ComposerRun.composer_run_summary (k := retriesLeft 0) c name 0 w
                (le_n _)) as (b & g & m & dt & evs & E & Hg & Hs & Hb).
    rewrite E. cbn [snd]. rewrite since_advance.
    exists g, m. repeat split; try assumption; try lia.
    change (retriesLeft 0) with 4%nat in Hb. lia.
  - intros Hnet.
    destruct (ComposerRun.composer_run_throttled (j := 4) c name 0 w eq_refl Hnet)
      as (dt & evs & E & Hg & Hs).
    rewrite E. cbn [fst snd]. rewrite since_advance.
    rewrite gets_app, sleeps_app, Hg, Hs. cbn [gets sleeps filter isGet isSleep
      ComposerOut.exhausted]. rewrite !app_nil_r.
    repeat split. now exists evs.
Qed.

Lemma mvn_retry_step NotAvailable n pkg retry w :
  retry <= 3 ->
  Mvn.Group pkg <> "" ->
  throttles (net w (served w) (MvnOut.repo pkg)) ->
  exists evs,
    Mvn.isAvailableInPublic NotAvailable n pkg retry w
    = Mvn.isAvailableInPublic NotAvailable n pkg (retry + 1)
        (advance w 1 (rtt w (served w) (MvnOut.repo pkg) + 10) evs)
    /\ gets evs = [EvGet (MvnOut.repo pkg)]
    /\ sleeps evs = [EvSleep 10].
Proof.
  intros Hr Hgrp (st & body & E).
  rewrite MvnRun.mvn_run_attempt by assumption. cbv zeta.
  rewrite E. cbn [Z.eqb Pos.eqb]. rewrite !advance_advance.
  eexists. split.
  - apply f_equal, advance_ext; [reflexivity | lia | reflexivity].
  - rewrite !gets_app, !sleeps_app, MvnRun.mvn_gets_checking,
      MvnRun.mvn_sleeps_checking, MvnRun.mvn_gets_status,
      MvnRun.mvn_sleeps_status.
    split; reflexivity.
Qed.

Lemma mvn_retry_cap NotAvailable n pkg w :
  let r := Mvn.isAvailableInPublic NotAvailable n pkg 0 w in
  (exists g m,
      requests w r = repeat (EvGet (MvnOut.repo pkg)) g
      /\ backoffs w r = repeat (EvSleep 10) m
      /\ (m <= g <= 4)%nat)
  /\ (Mvn.Group pkg <> "" ->
      (forall k, (k < 4)%nat ->
                 throttles (net w (k + served w) (MvnOut.repo pkg))) ->
      verdict r = false
      /\ requests w r = repeat (EvGet (MvnOut.repo pkg)) 4
      /\ backoffs w r = repeat (EvSleep 10) 4
      /\ served (snd r) = (4 + served w)%nat
      /\ exists evs, since w (snd r) = evs ++ [MvnOut.exhausted pkg]).
Proof.
  cbv zeta. unfold requests, backoffs, verdict. split.
  - destruct (MvnRun.mvn_run_summary NotAvailable (k := retriesLeft 0) n pkg 0 w
                (le_n _)) as (b & g & m & dt & evs & E & Hg & Hs & Hb & _).
    rewrite E. cbn [snd]. rewrite since_advance.
    exists g, m. repeat split; try assumption; try lia.
    change (retriesLeft 0) with 4%nat in Hb. lia.
  - intros Hgrp Hnet.
    destruct (MvnRun.mvn_run_throttled NotAvailable (j := 4) n pkg 0 w Hgrp
                eq_refl Hnet) as (dt & evs & E & Hg & Hs).
    rewrite E. cbn [fst snd]. rewrite since_advance.
    rewrite gets_app, sleeps_app, Hg, Hs. cbn [gets sleeps filter isGet isSleep
      MvnOut.exhausted]. rewrite !app_nil_r.
    repeat split. now exists evs.
Qed.

(** C1, as the code has it.  In the composer and maven checks a 429 makes
    the check sleep ten seconds and ask again.  A check started with retry
    number 0 makes at most four requests, the first one and three
    retries, and never more sleeps than requests.  When the registry
    answers 429 to all four, the check has made four requests and four
    sleeps of ten seconds, prints the warning last and reports the
    package unavailable; it makes no fifth request. *)
Theorem throttled_check_retries_three_times
        (NotAvailable : string -> bool) (w : World) :
  (forall c name,
      (forall retry,
          retry <= 3 ->
          throttles (net w (served w) (Composer.url name)) ->
          exists evs,
            Composer.isAvailableInPublic c name retry w
            = Composer.isAvailableInPublic c name (retry + 1)
                (advance w 1 (rtt w (served w) (Composer.url name) + 10) evs)
            /\ gets evs = [EvGet (Composer.url name)]
            /\ sleeps evs = [EvSleep 10])
      /\ let r := Composer.isAvailableInPublic c name 0 w in
         (exists g m,
             requests w r = repeat (EvGet (Composer.url name)) g
             /\ backoffs w r = repeat (EvSleep 10) m
             /\ (m <= g <= 4)%nat)
         /\ ((forall k, (k < 4)%nat ->
                        throttles (net w (k + served w) (Composer.url name))) ->
             verdict r = false
             /\ requests w r = repeat (EvGet (Composer.url name)) 4
             /\ backoffs w r = repeat (EvSleep 10) 4
             /\ served (snd r) = (4 + served w)%nat
             /\ exists evs, since w (snd r) = evs ++ [ComposerOut.exhausted name]))
  /\ (forall n pkg,
      (forall retry,
          retry <= 3 ->
          Mvn.Group pkg <> "" ->
          throttles (net w (served w) (MvnOut.repo pkg)) ->
          exists evs,
            Mvn.isAvailableInPublic NotAvailable n pkg retry w
            = Mvn.isAvailableInPublic NotAvailable n pkg (retry + 1)
                (advance w 1 (rtt w (served w) (MvnOut.repo pkg) + 10) evs)
            /\ gets evs = [EvGet (MvnOut.repo pkg)]
            /\ sleeps evs = [EvSleep 10])
      /\ let r := Mvn.isAvailableInPublic NotAvailable n pkg 0 w in
         (exists g m,
             requests w r = repeat (EvGet (MvnOut.repo pkg)) g
             /\ backoffs w r = repeat (EvSleep 10) m
             /\ (m <= g <= 4)%nat)
         /\ (Mvn.Group pkg <> "" ->
             (forall k, (k < 4)%nat ->
                        throttles (net w (k + served w) (MvnOut.repo pkg))) ->
             verdict r = false
             /\ requests w r = repeat (EvGet (MvnOut.repo pkg)) 4
             /\ backoffs w r = repeat (EvSleep 10) 4
             /\ served (snd r) = (4 + served w)%nat
             /\ exists evs, since w (snd r) = evs ++ [MvnOut.exhausted pkg])).
Proof.
  split.
  - intros c name. split.
    + intros retry. apply composer_retry_step.
    + apply composer_retry_cap.
  - intros n pkg. split.
    + intros retry. apply mvn_retry_step.
    + apply mvn_retry_cap.
Qed.

(** A registry that always answers 429: both checks stop after four
    requests and four sleeps and report the package unavailable. *)
Lemma throttled_check_retries_three_times_witness :
  let w := ExamplesRetry.throttlingWorld in
  let rc := Composer.isAvailableInPublic (Composer.NewComposerLookup false)
                                         "acme/internal" 0 w in
  let rm := Mvn.isAvailableInPublic Examples.published (Mvn.NewMVNLookup false)
                                    ExamplesRetry.acme 0 w in
  (verdict rc = false /\ length (requests w rc) = 4%nat
   /\ backoffs w rc = repeat (EvSleep 10) 4)
  /\ (verdict rm = false /\ length (requests w rm) = 4%nat
      /\ backoffs w rm = repeat (EvSleep 10) 4).
Proof.
  cbv zeta.
  destruct (throttled_check_retries_three_times Examples.published
              ExamplesRetry.throttlingWorld) as (Hc & Hm).
  split.
  - destruct (Hc (Composer.NewComposerLookup false) "acme/internal")
      as (_ & _ & H).
    destruct H as (Hv & Hr & Hb & _).
    + intros k _. eexists _, _. reflexivity.
    + rewrite Hr. auto.
  - destruct (Hm (Mvn.NewMVNLookup false) ExamplesRetry.acme) as (_ & _ & H).
    destruct H as (Hv & Hr & Hb & _).
    + discriminate.
    + intros k _. eexists _, _. reflexivity.
    + rewrite Hr. auto.
Defined.

(** Against C1 as stated: with a registry that answers 429 every time,
    the composer check makes four attempts, not at most three, and the
    fourth request is answered by a fourth consecutive 429; the pip check
    on the same registry does not sleep and does not retry. *)
Lemma three_attempts_counterexample :
  let w := ExamplesRetry.throttlingWorld in
  let rc := Composer.isAvailableInPublic (Composer.NewComposerLookup false)
                                         "acme/internal" 0 w in
  let rp := Pip.isAvailableInPublic (Pip.NewPythonLookup false) "acme-internal" w in
  requests w rc
  = repeat (EvGet "https://packagist.org/packages/acme/internal.json") 4
  /\ ~ (length (requests w rc) <= 3)%nat
  /\ throttles (net w 3 "https://packagist.org/packages/acme/internal.json")
  /\ length (requests w rp) = 1%nat
  /\ backoffs w rp = [].
Proof.
  cbv zeta. split; [vm_compute; reflexivity | ].
  split; [vm_compute; lia | ].
  split; [eexists _, _; reflexivity | ].
  split; vm_compute; reflexivity.
Qed.

(* ===================================================================== *)
(** * The scan flows                                                     *)
(* ===================================================================== *)

Lemma Safe_AddVulnerable (pkgs : list string) (sr : ScanResult) :
  Safe (fold_left AddVulnerable pkgs sr) = Safe sr.
Proof.
  revert sr. induction pkgs as [|pkg rest IH]; intros sr; simpl;
    [reflexivity | now rewrite IH].
Qed.

Lemma Vulnerable_AddVulnerable (pkgs : list string) (sr : ScanResult) :
  Vulnerable (fold_left AddVulnerable pkgs sr) = Vulnerable sr ++ pkgs.
Proof.
  revert sr. induction pkgs as [|pkg rest IH]; intros sr; simpl.
  - now rewrite app_nil_r.
  - rewrite IH. simpl. now rewrite <- app_assoc.
Qed.

(** Following a flow to its end: each call is replaced by its outcome. *)
Ltac run_through H :=
  repeat (cbn [fst snd] in H;
          match type of H with
          | context [match ?x with _ => _ end] => destruct x eqn:?
          end);
  try discriminate H.

(** A scan of a local file ends with the resolver's list, filtered by the
    safe spaces, as its vulnerable list, and with an empty safe list. *)
Lemma file_scan_result cfg factory Match filename language safeSpaces w res w' :
  Cmd.runScanCommand cfg factory Match filename language safeSpaces w
  = (inr res, w') ->
  Safe res = []
  /\ exists resolver w1 w2 found,
      notInPublic resolver w1 = (found, w2)
      /\ Vulnerable res = fst (SafeSpaces.removeSafe Match found safeSpaces w2).
Proof.
  intros H.
  cbv beta iota delta [Cmd.runScanCommand Cmd.removeSafe NewScanResult
                       Finalize bind time_Now ret] in H.
  run_through H.
  injection H as <- <-. cbn [Safe Vulnerable].
  rewrite Safe_AddVulnerable, Vulnerable_AddVulnerable. cbn [Safe Vulnerable app].
  split; [reflexivity | ].
  repeat match goal with
         | E : notInPublic _ _ = _ |- _ =>
             eexists _, _, _, _; split; [exact E | ]
         end.
  match goal with E : SafeSpaces.removeSafe _ _ _ _ = _ |- _ => now rewrite E end.
Qed.

(** A scan of a file of a GitHub repository ends the same way. *)
Lemma github_scan_result verbose factory Match Base owner repo file safeSpaces
      w res w' :
  GitHub.scanDependencyFile verbose factory Match Base owner repo file safeSpaces w
  = (inr res, w') ->
  Safe res = []
  /\ exists resolver w1 w2 found,
      notInPublic resolver w1 = (found, w2)
      /\ Vulnerable res = fst (SafeSpaces.removeSafe Match found safeSpaces w2).
Proof.
  intros H.
  cbv beta iota delta [GitHub.scanDependencyFile GitHub.removeSafe NewScanResult
                       Finalize bind time_Now ret] in H.
  run_through H.
  injection H as <- <-. cbn [Safe Vulnerable SetMetadata].
  rewrite Safe_AddVulnerable, Vulnerable_AddVulnerable. cbn [Safe Vulnerable app].
  split; [reflexivity | ].
  repeat match goal with
         | E : notInPublic _ _ = _ |- _ =>
             eexists _, _, _, _; split; [exact E | ]
         end.
  match goal with E : SafeSpaces.removeSafe _ _ _ _ = _ |- _ => now rewrite E end.
Qed.

(** A scan of a file found on a web host ends with the resolver's list
    itself as its vulnerable list: no safe space is applied, the function
    is given none. *)
Lemma web_scan_result {URL : Type} {lib : Web.UrlLib URL} factory Join Base
      (u : URL) filePath languages w res w' :
  Web.scanDependencyFile factory Join Base u filePath languages w
  = (inr res, w') ->
  Safe res = []
  /\ exists resolver w1 w2,
      notInPublic resolver w1 = (Vulnerable res, w2).
Proof.
  intros H.
  cbv beta iota delta [Web.scanDependencyFile NewScanResult
                       Finalize bind time_Now ret] in H.
  run_through H.
  injection H as <- <-. cbn [Safe Vulnerable SetMetadata].
  rewrite Safe_AddVulnerable, Vulnerable_AddVulnerable. cbn [Safe Vulnerable app].
  split; [reflexivity | ].
  match goal with
  | E : notInPublic _ _ = _ |- _ => eexists _, _, _; exact E
  end.
Qed.

(* ===================================================================== *)
(** * Safe spaces                                                        *)
(* ===================================================================== *)

Section SafeSpaceFacts.

Variable Match : string -> string -> error + bool.

Lemma ignoredBy_spec (safeSpaces : list string) (pkg : string) (w : World) :
  SafeSpaces.ignoredBy Match safeSpaces pkg w
  = (matchesSafe Match safeSpaces pkg,
     advance w 0 0 (malformedWarnings Match safeSpaces pkg)).
Proof.
  revert w. induction safeSpaces as [|p rest IH]; intros w; simpl.
  - unfold ret. now rewrite advance_nothing.
  - destruct (Match p pkg) as [err|ok].
    + unfold bind. rewrite log_advance, IH, advance_advance. reflexivity.
    + destruct ok; [unfold ret; now rewrite advance_nothing | apply IH].
Qed.

Lemma keepLoop_spec (safeSpaces packages acc : list string) (w : World) :
  SafeSpaces.keepLoop Match packages safeSpaces acc w
  = (acc ++ filter (fun pkg => negb (matchesSafe Match safeSpaces pkg)) packages,
     advance w 0 0 (flat_map (malformedWarnings Match safeSpaces) packages)).
Proof.
  revert acc w. induction packages as [|pkg rest IH]; intros acc w; simpl.
  - unfold ret. now rewrite app_nil_r, advance_nothing.
  - unfold bind. rewrite ignoredBy_spec, IH, advance_advance.
    f_equal. destruct (matchesSafe Match safeSpaces pkg); simpl;
      [reflexivity | now rewrite <- app_assoc].
Qed.

(** [removeSafe] keeps exactly the identifiers that no pattern matches; a
    malformed pattern removes nothing and leaves a warning in the log;
    nothing else happens. *)
Lemma removeSafe_spec (packages safeSpaces : list string) (w : World) :
  exists warnings,
    SafeSpaces.removeSafe Match packages safeSpaces w
    = (filter (fun pkg => negb (matchesSafe Match safeSpaces pkg)) packages,
       advance w 0 0 warnings)
    /\ Forall (fun e => exists p err,
                   e = EvLog WARN "Encountered an error while trying to match a known-safe namespace %s: %v"
                             [AStr p; AErr err]
                   /\ In p safeSpaces /\ exists pkg, Match p pkg = inl err)
              warnings.
Proof.
  unfold SafeSpaces.removeSafe.
  destruct safeSpaces as [|p rest].
  - exists []. simpl. unfold ret. rewrite advance_nothing. split; [ | constructor].
    f_equal. induction packages as [|pkg l IH]; simpl; [reflexivity | now f_equal].
  - cbn [length Z.of_nat Z.eqb]. rewrite keepLoop_spec. eexists. split; [reflexivity | ].
    apply Forall_forall. intros e He.
    apply in_flat_map in He as (pkg & _ & He).
    generalize dependent (p :: rest). intros l.
    induction l as [|q l IH]; simpl; [contradiction | ].
    destruct (Match q pkg) as [err|ok] eqn:E.
    + intros [<- | Hin].
      * exists q, err. split; [reflexivity | split; [now left | now exists pkg]].
      * destruct (IH Hin) as (p' & err' & ? & ? & ?).
        exists p', err'. split; [assumption | split; [now right | assumption]].
    + destruct ok; [contradiction | ]. intros Hin.
      destruct (IH Hin) as (p' & err' & ? & ? & ?).
      exists p', err'. split; [assumption | split; [now right | assumption]].
Qed.

End SafeSpaceFacts.

(* ===================================================================== *)
(** * What the flows put into a [ScanResult]                             *)
(* ===================================================================== *)

(** C2, at the code.  No flow calls [AddSafe]: whatever the resolver and
    the registry, the result of a scan of a local file, of a file of a
    GitHub repository and of a file on a web host has an empty safe list.
    For the requirements file of the example, with [requests] known to the
    registry (200) and [acme-internal] unknown (404), the result is
    vulnerable = [acme-internal], safe = [] and total = 1; the
    specification has safe = [requests]. *)
Theorem scans_leave_safe_list_empty :
  (forall cfg factory Match filename language safeSpaces w res w',
      Cmd.runScanCommand cfg factory Match filename language safeSpaces w
      = (inr res, w') ->
      Safe res = [])
  /\ (forall verbose factory Match Base owner repo file safeSpaces w res w',
      GitHub.scanDependencyFile verbose factory Match Base owner repo file
                                safeSpaces w = (inr res, w') ->
      Safe res = [])
  /\ (forall (URL : Type) (lib : Web.UrlLib URL) factory Join Base (u : URL)
             filePath languages w res w',
      Web.scanDependencyFile factory Join Base u filePath languages w
      = (inr res, w') ->
      Safe res = [])
  /\ (exists res,
      fst (Cmd.runScanCommand ExamplesScan.cfg Examples.factory Filepath.Match
                              "requirements.txt" "pip" [] ExamplesScan.fileWorld)
      = inr res
      /\ Vulnerable res = ["acme-internal"]
      /\ Safe res = []
      /\ Total res = 1).
Proof.
  split; [ | split; [ | split]].
  - intros. eapply file_scan_result; eassumption.
  - intros. eapply github_scan_result; eassumption.
  - intros. eapply web_scan_result; eassumption.
  - eexists. split; [vm_compute; reflexivity | ]. repeat split.
Qed.

(** The scan of the example, through the general statement. *)
Lemma scans_leave_safe_list_empty_witness :
  exists res,
    fst (Cmd.runScanCommand ExamplesScan.cfg Examples.factory Filepath.Match
                            "requirements.txt" "pip" [] ExamplesScan.fileWorld)
    = inr res
    /\ Safe res = [].
Proof.
  destruct (Cmd.runScanCommand ExamplesScan.cfg Examples.factory Filepath.Match
              "requirements.txt" "pip" [] ExamplesScan.fileWorld)
    as [[e|res] w'] eqn:E.
  - vm_compute in E. discriminate E.
  - exists res. split; [reflexivity | ].
    exact (proj1 scans_leave_safe_list_empty _ _ _ _ _ _ _ _ _ E).
Defined.

(** C3, at the code.  The pattern [acme-*] matches [acme-internal].  The
    scan of the local file with this safe space reports nothing; the scan
    of the same file on a web host reports [acme-internal]: the web flow
    takes no safe spaces, its vulnerable list is the resolver's list as it
    is.  Where [removeSafe] is called it does what the specification
    says: [@company/*] removes [@company/foo] and leaves [@other/foo], and
    a malformed pattern is logged and matches nothing. *)
Theorem web_scan_applies_no_safe_space :
  Filepath.Match "acme-*" "acme-internal" = inr true
  /\ (exists res,
      fst (Cmd.runScanCommand ExamplesScan.cfg Examples.factory Filepath.Match
                              "requirements.txt" "pip" ExamplesScan.safeSpaces
                              ExamplesScan.fileWorld) = inr res
      /\ Vulnerable res = [])
  /\ (exists res,
      fst (Web.ScanTarget (urlLib := Web.simpleUrlLib) Examples.factory'
                          Filepath.Join Filepath.Base "example.com" ["pip"]
                          false 3 ExamplesScan.webWorld) = inr [res]
      /\ Vulnerable res = ["acme-internal"])
  /\ (forall (URL : Type) (lib : Web.UrlLib URL) factory Join Base (u : URL)
             filePath languages w res w',
      Web.scanDependencyFile factory Join Base u filePath languages w
      = (inr res, w') ->
      exists resolver w1 w2, notInPublic resolver w1 = (Vulnerable res, w2))
  /\ fst (SafeSpaces.removeSafe Filepath.Match ["@company/foo"; "@other/foo"]
                                ["@company/*"] ExamplesScan.fileWorld)
     = ["@other/foo"]
  /\ (let r := SafeSpaces.removeSafe Filepath.Match ["@company/foo"; "@other/foo"]
                                     ["["; "@company/*"] ExamplesScan.fileWorld in
      fst r = ["@other/foo"]
      /\ length (since ExamplesScan.fileWorld (snd r)) = 2%nat).
Proof.
  split; [reflexivity | ].
  split; [eexists; split; vm_compute; reflexivity | ].
  split; [eexists; split; vm_compute; reflexivity | ].
  split; [intros; eapply web_scan_result; eassumption | ].
  split; [reflexivity | ].
  split; vm_compute; reflexivity.
Qed.

(** The web scan of the example, through the general statement: its
    vulnerable list is the list some resolver returned. *)
Lemma web_scan_applies_no_safe_space_witness :
  exists res resolver w1 w2,
    fst (Web.scanDependencyFile (urlLib := Web.simpleUrlLib) Examples.factory'
                                Filepath.Join Filepath.Base
                                (Web.mkURL "https" "example.com" "")
                                "requirements.txt" ["pip"] ExamplesScan.webWorld)
    = inr res
    /\ notInPublic resolver w1 = (Vulnerable res, w2).
Proof.
  destruct (Web.scanDependencyFile (urlLib := Web.simpleUrlLib) Examples.factory'
              Filepath.Join Filepath.Base (Web.mkURL "https" "example.com" "")
              "requirements.txt" ["pip"] ExamplesScan.webWorld)
    as [[e|res] w'] eqn:E.
  - vm_compute in E. discriminate E.
  - destruct (proj1 (proj2 (proj2 (proj2 web_scan_applies_no_safe_space)))
                    _ _ _ _ _ _ _ _ _ _ _ E) as (resolver & w1 & w2 & H).
    exists res, resolver, w1, w2. split; [reflexivity | exact H].
Defined.

(** C4, at the code.  [getFileContent] returns the content field of the
    blob as the API delivered it, under a comment that announces the
    decoding.  For the requirements file of the example, delivered in
    base64, the text written to the temporary file and handed to the pip
    parser is the base64 text: the scan asks the registry for a package
    of that name and reports it, where the decoded file names [requests]
    and [acme-internal]. *)
Theorem blob_content_is_used_undecoded :
  (forall owner repo sha w blob,
      gitBlobs w owner repo sha = inr blob ->
      GitHub.getFileContent owner repo sha w = (inr (BlobContent blob), w))
  /\ Base64.decode ExamplesScan.encoded = Some ExamplesScan.requirements
  /\ Pip.readLines ExamplesScan.requirements [] = ["requests"; "acme-internal"]
  /\ (let r := GitHub.scanDependencyFile false Examples.factory Filepath.Match
                 Filepath.Base "acme" "shop" ExamplesScan.entry []
                 ExamplesScan.gitWorld in
      (exists res, fst r = inr res /\ Vulnerable res = [ExamplesScan.encoded])
      /\ since ExamplesScan.gitWorld (snd r)
         = [ EvTempWrite "/tmp/confused-1.tmp" ExamplesScan.encoded;
             EvGet (Pip.url ExamplesScan.encoded);
             EvRemove "/tmp/confused-1.tmp" ]).
Proof.
  split.
  - intros owner repo sha w blob H.
    unfold GitHub.getFileContent, bind, Git_GetBlob. now rewrite H.
  - split; [vm_compute; reflexivity | ].
    split; [vm_compute; reflexivity | ].
    cbv zeta. split; [eexists; split; vm_compute; reflexivity | ].
    vm_compute. reflexivity.
Qed.

(** The blob of the example, through the general statement. *)
Lemma blob_content_is_used_undecoded_witness :
  GitHub.getFileContent "acme" "shop" "3b18e512dba79e4c8300dd08aeb37f8e728b8dad"
                        ExamplesScan.gitWorld
  = (inr ExamplesScan.encoded, ExamplesScan.gitWorld).
Proof.
  exact (proj1 blob_content_is_used_undecoded "acme" "shop"
               "3b18e512dba79e4c8300dd08aeb37f8e728b8dad" ExamplesScan.gitWorld
               ExamplesScan.blob eq_refl).
Defined.

(** C9.  [ScanTarget] gives the same results and leaves the same world
    for any two values of [maxDepth]: the deep scan goes through the fixed
    list of directories, one level deep, whatever the depth asked for. *)
Theorem web_max_depth_has_no_effect
        {URL : Type} {lib : Web.UrlLib URL}
        (factory : string -> error + Resolver)
        (Join : string -> string -> string) (Base : string -> string)
        (target : string) (languages : list string) (deep : bool)
        (maxDepth maxDepth' : Z) (w : World) :
  Web.ScanTarget factory Join Base target languages deep maxDepth w
  = Web.ScanTarget factory Join Base target languages deep maxDepth' w
  /\ (forall u : URL,
      Web.deepScan factory Join Base u languages maxDepth w
      = let (results, w') :=
          Web.deepScanLoop factory Join Base u languages Web.commonDirs [] w in
        (inr results, w')).
Proof.
  split; reflexivity.
Qed.

(* ===================================================================== *)
(** * Further properties of the resolvers                                *)
(* ===================================================================== *)

Lemma notAnswered200_advance w n dt evs k pkgs :
  notAnswered200 (advance w n dt evs) k pkgs = notAnswered200 w k pkgs.
Proof.
  revert k. induction pkgs as [|pkg rest IH]; intros k; simpl;
    [reflexivity | now rewrite IH].
Qed.

(** One pip check: its verdict is whether the answer is a 200. *)
Lemma pip_run_summary p name w :
  exists evs,
    Pip.isAvailableInPublic p name w
    = (is200 (net w (served w) (Pip.url name)),
       advance w 1 (rtt w (served w) (Pip.url name)) evs)
    /\ gets evs = [EvGet (Pip.url name)]
    /\ sleeps evs = [].
Proof.
  rewrite pip_run. cbv zeta.
  destruct (net w (served w) (Pip.url name)) as [err|code st body];
    rewrite advance_advance; eexists;
    (split; [apply f_equal, advance_ext; [reflexivity | lia | reflexivity] | ]);
    rewrite !gets_app, !sleeps_app, ?pip_gets_checking, ?pip_sleeps_checking,
      ?pip_gets_status, ?pip_sleeps_status; split; reflexivity.
Qed.

Lemma pip_loop (p : Pip.PythonLookup) :
  forall pkgs acc w,
  exists dt evs,
    Pip.notInPublic p pkgs acc w
    = (acc ++ notAnswered200 w (served w) pkgs, advance w (length pkgs) dt evs)
    /\ gets evs = map (fun pkg => EvGet (Pip.url pkg)) pkgs
    /\ sleeps evs = [].
Proof.
  induction pkgs as [|pkg rest IH]; intros acc w.
  - exists 0, []. simpl. unfold ret. now rewrite app_nil_r, advance_nothing.
  - cbn [Pip.notInPublic]. unfold bind.
    destruct (pip_run_summary p pkg w) as (evs1 & E1 & Hg1 & Hs1).
    rewrite E1.
    destruct (IH (if negb (is200 (net w (served w) (Pip.url pkg)))
                  then acc ++ [pkg] else acc)
                 (advance w 1 (rtt w (served w) (Pip.url pkg)) evs1))
      as (dt & evs & E & Hg & Hs).
    rewrite E, advance_advance, notAnswered200_advance.
    exists (rtt w (served w) (Pip.url pkg) + dt), (evs1 ++ evs).
    split.
    + cbn [notAnswered200 length served advance Nat.add].
      f_equal.
      * destruct (is200 (net w (served w) (Pip.url pkg))); simpl;
          [reflexivity | now rewrite <- app_assoc].
      * apply advance_ext; [lia | reflexivity | reflexivity].
    + rewrite gets_app, sleeps_app, Hg, Hs, Hg1, Hs1. split; reflexivity.
Qed.

(** X1.  [PackagesNotInPublic] of pip asks the registry once for every
    package of the list, in the order of the list and without leaving out
    repeated names, never sleeps, and reports exactly the packages whose
    answer was not a 200, in the same order. *)
Theorem pip_checks_every_package_once (p : Pip.PythonLookup) (w : World) :
  let r := Pip.PackagesNotInPublic p w in
  fst r = notAnswered200 w (served w) (Pip.Packages p)
  /\ gets (since w (snd r)) = map (fun pkg => EvGet (Pip.url pkg)) (Pip.Packages p)
  /\ sleeps (since w (snd r)) = []
  /\ served (snd r) = (length (Pip.Packages p) + served w)%nat.
Proof.
  cbv zeta. unfold Pip.PackagesNotInPublic.
  destruct (pip_loop p (Pip.Packages p) [] w) as (dt & evs & E & Hg & Hs).
  rewrite E. cbn [fst snd app]. rewrite since_advance.
  repeat split; assumption.
Qed.

Lemma composer_verdict c name retry w :
  retry <= 3 ->
  ~ throttles (net w (served w) (Composer.url name)) ->
  verdict (Composer.isAvailableInPublic c name retry w)
  = is200 (net w (served w) (Composer.url name)).
Proof.
  intros Hr Hnot. unfold verdict.
  rewrite ComposerRun.composer_run_attempt by assumption. cbv zeta.
  destruct (net w (served w) (Composer.url name)) as [err|code st body];
    [reflexivity | ].
  rewrite (not_throttled_code Hnot). simpl.
  destruct (code =? 200); reflexivity.
Qed.

Lemma mvn_verdict NotAvailable n pkg retry w :
  retry <= 3 ->
  Mvn.Group pkg <> "" ->
  ~ throttles (net w (served w) (MvnOut.repo pkg)) ->
  verdict (Mvn.isAvailableInPublic NotAvailable n pkg retry w)
  = answerVerdict NotAvailable (net w (served w) (MvnOut.repo pkg)).
Proof.
  intros Hr Hg Hnot. unfold verdict.
  rewrite MvnRun.mvn_run_attempt by assumption. cbv zeta.
  destruct (net w (served w) (MvnOut.repo pkg)) as [err|code st body];
    [reflexivity | ].
  rewrite (not_throttled_code Hnot). simpl.
  destruct (code =? 200); [ | reflexivity].
  destruct (NotAvailable body); reflexivity.
Qed.

(** X2.  A package is available exactly when the registry answers 200:
    in the pip and composer checks every other status and a failed
    request give "not available", and the maven check asks in addition
    that the body of the 200 answer does not decode to a response whose
    versions are all unpublished. *)
Theorem availability_is_status_200 (NotAvailable : string -> bool) (w : World) :
  (forall p name,
      verdict (Pip.isAvailableInPublic p name w)
      = is200 (net w (served w) (Pip.url name)))
  /\ (forall c name retry,
      retry <= 3 ->
      ~ throttles (net w (served w) (Composer.url name)) ->
      verdict (Composer.isAvailableInPublic c name retry w)
      = is200 (net w (served w) (Composer.url name)))
  /\ (forall n pkg retry,
      retry <= 3 ->
      Mvn.Group pkg <> "" ->
      ~ throttles (net w (served w) (MvnOut.repo pkg)) ->
      verdict (Mvn.isAvailableInPublic NotAvailable n pkg retry w)
      = answerVerdict NotAvailable (net w (served w) (MvnOut.repo pkg))).
Proof.
  split; [ | split].
  - intros p name. unfold verdict.
    destruct (pip_run_summary p name w) as (evs & E & _). now rewrite E.
  - intros c name retry. apply composer_verdict.
  - intros n pkg retry. apply mvn_verdict.
Qed.

(** A registry that answers 500: the composer check reports the package
    as not available. *)
Lemma availability_is_status_200_witness :
  verdict (Composer.isAvailableInPublic (Composer.NewComposerLookup false)
                                        "monolog/monolog" 0
                                        ExamplesMore.serverErrorWorld)
  = false.
Proof.
  apply (proj1 (proj2 (availability_is_status_200 Examples.published
                         ExamplesMore.serverErrorWorld))
               (Composer.NewComposerLookup false) "monolog/monolog" 0).
  - lia.
  - intros (st & body & E). discriminate E.
Defined.

(** A registry that throttles the first [k] calls below the cap and then
    gives another answer: the verdict is the one for that answer, after
    [k + 1] requests and [k] sleeps. *)
Lemma composer_run_recovers (k : nat) : forall c name retry w,
  retry + Z.of_nat k <= 3 ->
  (forall i, (i < k)%nat -> throttles (net w (i + served w) (Composer.url name))) ->
  ~ throttles (net w (k + served w) (Composer.url name)) ->
  exists dt evs,
    Composer.isAvailableInPublic c name retry w
    = (is200 (net w (k + served w) (Composer.url name)), advance w (S k) dt evs)
    /\ gets evs = repeat (EvGet (Composer.url name)) (S k)
    /\ sleeps evs = repeat (EvSleep 10) k.
Proof.
  induction k as [|k IH]; intros c name retry w Hr Hthr Hnot.
  - cbn [Nat.add] in *.
    rewrite ComposerRun.composer_run_attempt by lia. cbv zeta.
    destruct (net w (served w) (Composer.url name)) as [err|code st body].
    + rewrite advance_advance. eexists _, _. split; [reflexivity | ].
      rewrite !gets_app, !sleeps_app, ComposerRun.composer_gets_checking,
        ComposerRun.composer_sleeps_checking. split; reflexivity.
    + rewrite (not_throttled_code Hnot). cbn [is200].
      destruct (code =? 200); rewrite advance_advance; eexists _, _;
        (split; [reflexivity | ]);
        rewrite !gets_app, !sleeps_app, ComposerRun.composer_gets_checking,
          ComposerRun.composer_sleeps_checking, ComposerRun.composer_gets_status,
          ComposerRun.composer_sleeps_status; split; reflexivity.
  - rewrite ComposerRun.composer_run_attempt by lia. cbv zeta.
    destruct (Hthr 0%nat) as (st & body & E); [lia | ].
    cbn [Nat.add] in E. rewrite E. cbn [Z.eqb Pos.eqb].
    rewrite !advance_advance.
    edestruct (IH c name (retry + 1)) as (dt & evs & E' & Hg & Hs); [lia | | | ].
    3:{ rewrite E', advance_advance.
        rewrite net_advance, served_advance.
        replace (k + (0 + 0 + 1 + served w))%nat with (S k + served w)%nat by lia.
        eexists _, ((ComposerOut.checking c name ++ [EvGet (Composer.url name)])
                      ++ ComposerOut.status c st
                      ++ [ComposerOut.throttled; EvSleep 10] ++ evs).
        split.
        - apply f_equal, advance_ext; [lia | reflexivity | ].
          now rewrite <- !app_assoc.
        - rewrite !gets_app, !sleeps_app, ComposerRun.composer_gets_checking,
            ComposerRun.composer_sleeps_checking, ComposerRun.composer_gets_status,
            ComposerRun.composer_sleeps_status, Hg, Hs.
          split; reflexivity. }
    + intros i Hi. rewrite net_advance, served_advance.
      replace (i + (0 + 0 + 1 + served w))%nat with (S i + served w)%nat by lia.
      apply Hthr. lia.
    + rewrite net_advance, served_advance.
      replace (k + (0 + 0 + 1 + served w))%nat with (S k + served w)%nat by lia.
      exact Hnot.
Qed.

Lemma mvn_run_recovers (NotAvailable : string -> bool) (k : nat) :
  forall n pkg retry w,
  Mvn.Group pkg <> "" ->
  retry + Z.of_nat k <= 3 ->
  (forall i, (i < k)%nat -> throttles (net w (i + served w) (MvnOut.repo pkg))) ->
  ~ throttles (net w (k + served w) (MvnOut.repo pkg)) ->
  exists dt evs,
    Mvn.isAvailableInPublic NotAvailable n pkg retry w
    = (answerVerdict NotAvailable (net w (k + served w) (MvnOut.repo pkg)),
       advance w (S k) dt evs)
    /\ gets evs = repeat (EvGet (MvnOut.repo pkg)) (S k)
    /\ sleeps evs = repeat (EvSleep 10) k.
Proof.
  induction k as [|k IH]; intros n pkg retry w Hgrp Hr Hthr Hnot.
  - cbn [Nat.add] in *.
    rewrite MvnRun.mvn_run_attempt by (assumption || lia). cbv zeta.
    destruct (net w (served w) (MvnOut.repo pkg)) as [err|code st body].
    + rewrite advance_advance. eexists _, _. split; [reflexivity | ].
      rewrite !gets_app, !sleeps_app, MvnRun.mvn_gets_checking,
        MvnRun.mvn_sleeps_checking. split; reflexivity.
    + rewrite (not_throttled_code Hnot). cbn [answerVerdict].
      destruct (code =? 200); [destruct (NotAvailable body) | ];
        rewrite ?advance_advance; eexists _, _;
        (split; [reflexivity | ]);
        rewrite !gets_app, !sleeps_app, ?MvnRun.mvn_gets_checking,
          ?MvnRun.mvn_sleeps_checking, ?MvnRun.mvn_gets_status,
          ?MvnRun.mvn_sleeps_status, ?MvnRun.mvn_gets_unpublished,
          ?MvnRun.mvn_sleeps_unpublished; split; reflexivity.
  - rewrite MvnRun.mvn_run_attempt by (assumption || lia). cbv zeta.
    destruct (Hthr 0%nat) as (st & body & E); [lia | ].
    cbn [Nat.add] in E. rewrite E. cbn [Z.eqb Pos.eqb].
    rewrite !advance_advance.
    edestruct (IH n pkg (retry + 1)) as (dt & evs & E' & Hg & Hs);
      [assumption | lia | | | ].
    3:{ rewrite E', advance_advance.
        rewrite net_advance, served_advance.
        replace (k + (0 + 0 + 1 + served w))%nat with (S k + served w)%nat by lia.
        eexists _, ((MvnOut.checking n pkg ++ [EvGet (MvnOut.repo pkg)])
                      ++ MvnOut.status n st
                      ++ [MvnOut.throttled; EvSleep 10] ++ evs).
        split.
        - apply f_equal, advance_ext; [lia | reflexivity | ].
          now rewrite <- !app_assoc.
        - rewrite !gets_app, !sleeps_app, MvnRun.mvn_gets_checking,
            MvnRun.mvn_sleeps_checking, MvnRun.mvn_gets_status,
            MvnRun.mvn_sleeps_status, Hg, Hs.
          split; reflexivity. }
    + intros i Hi. rewrite net_advance, served_advance.
      replace (i + (0 + 0 + 1 + served w))%nat with (S i + served w)%nat by lia.
      apply Hthr. lia.
    + rewrite net_advance, served_advance.
      replace (k + (0 + 0 + 1 + served w))%nat with (S k + served w)%nat by lia.
      exact Hnot.
Qed.

(** X3.  A composer or maven check that is throttled [k] times, [k] at
    most 3, and then gets another answer, gives the verdict for that
    answer: it has made [k + 1] requests and slept [k] times ten
    seconds.  Throttling that ends within three retries does not turn a
    public package into a missing one. *)
Theorem throttled_check_recovers
        (NotAvailable : string -> bool) (k : nat) (w : World) :
  (k <= 3)%nat ->
  (forall c name,
      (forall i, (i < k)%nat ->
                 throttles (net w (i + served w) (Composer.url name))) ->
      ~ throttles (net w (k + served w) (Composer.url name)) ->
      let r := Composer.isAvailableInPublic c name 0 w in
      verdict r = is200 (net w (k + served w) (Composer.url name))
      /\ requests w r = repeat (EvGet (Composer.url name)) (S k)
      /\ backoffs w r = repeat (EvSleep 10) k)
  /\ (forall n pkg,
      Mvn.Group pkg <> "" ->
      (forall i, (i < k)%nat ->
                 throttles (net w (i + served w) (MvnOut.repo pkg))) ->
      ~ throttles (net w (k + served w) (MvnOut.repo pkg)) ->
      let r := Mvn.isAvailableInPublic NotAvailable n pkg 0 w in
      verdict r = answerVerdict NotAvailable (net w (k + served w) (MvnOut.repo pkg))
      /\ requests w r = repeat (EvGet (MvnOut.repo pkg)) (S k)
      /\ backoffs w r = repeat (EvSleep 10) k).
Proof.
  intros Hk. split.
  - intros c name Hthr Hnot. cbv zeta. unfold verdict, requests, backoffs.
    destruct (composer_run_recovers (k := k) c name 0 w) as (dt & evs & E & Hg & Hs);
      [lia | assumption | assumption | ].
    rewrite E. cbn [fst snd]. rewrite since_advance. repeat split; assumption.
  - intros n pkg Hgrp Hthr Hnot. cbv zeta. unfold verdict, requests, backoffs.
    destruct (mvn_run_recovers NotAvailable (k := k) n pkg 0 w)
      as (dt & evs & E & Hg & Hs); [assumption | lia | assumption | assumption | ].
    rewrite E. cbn [fst snd]. rewrite since_advance. repeat split; assumption.
Qed.

(** A registry that throttles twice and then answers 200: the package is
    available after three requests and two sleeps. *)
Lemma throttled_check_recovers_witness :
  let w := ExamplesMore.throttledTwiceWorld in
  let r := Composer.isAvailableInPublic (Composer.NewComposerLookup false)
                                        "monolog/monolog" 0 w in
  verdict r = true
  /\ length (requests w r) = 3%nat
  /\ backoffs w r = [EvSleep 10; EvSleep 10].
Proof.
  cbv zeta.
  destruct (proj1 (throttled_check_recovers Examples.published (k := 2)
                     ExamplesMore.throttledTwiceWorld ltac:(lia))
                  (Composer.NewComposerLookup false) "monolog/monolog")
    as (Hv & Hr & Hb).
  - intros i Hi. destruct i as [|[|i]]; [eexists _, _; reflexivity .. | lia].
  - intros (st & body & E). discriminate E.
  - rewrite Hv, Hr, Hb. repeat split.
Defined.

Lemma mvn_check_group_only (NotAvailable : string -> bool) (k : nat) :
  forall n pkg pkg' retry w,
  Mvn.Group pkg = Mvn.Group pkg' ->
  (retriesLeft retry <= k)%nat ->
  Mvn.isAvailableInPublic NotAvailable n pkg retry w
  = Mvn.isAvailableInPublic NotAvailable n pkg' retry w.
Proof.
  induction k as [|k IH]; intros n pkg pkg' retry w Hg Hk.
  - rewrite !MvnRun.mvn_run_exhausted by (unfold retriesLeft in Hk; lia).
    unfold MvnOut.exhausted. now rewrite Hg.
  - destruct (Z_gt_dec retry 3) as [g|g].
    + rewrite !MvnRun.mvn_run_exhausted by lia.
      unfold MvnOut.exhausted. now rewrite Hg.
    + destruct (string_dec (Mvn.Group pkg) "") as [Eg|Eg].
      { rewrite !MvnRun.mvn_run_no_group; try lia; congruence. }
      rewrite !MvnRun.mvn_run_attempt; try lia; try congruence.
      unfold MvnOut.checking, MvnOut.status, MvnOut.unpublished, MvnOut.failed,
        MvnOut.repo.
      rewrite <- Hg. cbv zeta.
      destruct (net w (served w) (Mvn.url (Mvn.Group pkg))) as [err|code st body];
        [reflexivity | ].
      destruct (code =? 200); [reflexivity | ].
      destruct (code =? 429); [ | reflexivity].
      apply IH; [assumption | unfold retriesLeft in *; lia].
Qed.

(** X4.  The maven check looks at the group of a package only: two
    packages of the same group, whatever their artifacts and versions,
    get the same verdict from the same requests.  An artifact that does
    not exist in a group that does is therefore not reported. *)
Theorem maven_check_ignores_artifact
        (NotAvailable : string -> bool) (n : Mvn.MVNLookup)
        (pkg pkg' : Mvn.MVNPackage) (retry : Z) (w : World) :
  Mvn.Group pkg = Mvn.Group pkg' ->
  Mvn.isAvailableInPublic NotAvailable n pkg retry w
  = Mvn.isAvailableInPublic NotAvailable n pkg' retry w.
Proof.
  intros Hg. now apply (mvn_check_group_only NotAvailable (k := retriesLeft retry)).
Qed.

(** Two artifacts of com.acme: one check stands for both. *)
Lemma maven_check_ignores_artifact_witness :
  Mvn.isAvailableInPublic Examples.published (Mvn.NewMVNLookup false)
                          ExamplesMore.acmeCore 0 ExamplesMore.serverErrorWorld
  = Mvn.isAvailableInPublic Examples.published (Mvn.NewMVNLookup false)
                            ExamplesMore.acmeSecret 0
                            ExamplesMore.serverErrorWorld.
Proof.
  exact (maven_check_ignores_artifact Examples.published (Mvn.NewMVNLookup false)
           ExamplesMore.acmeCore ExamplesMore.acmeSecret 0
           ExamplesMore.serverErrorWorld eq_refl).
Defined.

(* ===================================================================== *)
(** * Further properties of the parsers                                  *)
(* ===================================================================== *)

(** X5.  [ReadPackagesFromFile] of pip, composer and maven fails only
    when the file cannot be read, and then returns the error of the read
    and changes neither the lookup nor the world.  For a file that is
    there it returns nil whatever the content and whatever the JSON or
    XML decoder says of it. *)
Theorem read_fails_only_for_unreadable_file
        (json_Unmarshal : string -> Composer.ComposerJSON * option error)
        (xml_Unmarshal : string -> error + Mvn.MavenProject)
        (filename : string) (w : World) :
  (forall p,
      match lookupFile filename (files w) with
      | None => exists err, Pip.ReadPackagesFromFile filename p w = ((Some err, p), w)
      | Some _ => fst (fst (Pip.ReadPackagesFromFile filename p w)) = None
      end)
  /\ (forall c,
      match lookupFile filename (files w) with
      | None =>
          exists err,
          Composer.ReadPackagesFromFile json_Unmarshal filename c w
          = ((Some err, c), w)
      | Some _ =>
          fst (fst (Composer.ReadPackagesFromFile json_Unmarshal filename c w))
          = None
      end)
  /\ (forall n,
      match lookupFile filename (files w) with
      | None =>
          exists err,
          Mvn.ReadPackagesFromFile xml_Unmarshal filename n w = ((Some err, n), w)
      | Some _ =>
          fst (fst (Mvn.ReadPackagesFromFile xml_Unmarshal filename n w)) = None
      end).
Proof.
  split; [ | split].
  - intros p. unfold Pip.ReadPackagesFromFile, bind, ReadFile.
    destruct (lookupFile filename (files w)); [reflexivity | ].
    eexists. reflexivity.
  - intros c. unfold Composer.ReadPackagesFromFile, bind, ReadFile.
    destruct (lookupFile filename (files w)) as [raw|]; [ | eexists; reflexivity].
    destruct (json_Unmarshal raw) as [data [e|]].
    + destruct (fmt_Printf _ _ w). reflexivity.
    + reflexivity.
  - intros n. unfold Mvn.ReadPackagesFromFile, bind, ReadFile.
    destruct (lookupFile filename (files w)) as [raw|]; [ | eexists; reflexivity].
    destruct (when (Mvn.Verbose n) _ w) as [u w1].
    destruct (len raw <? 10).
    + destruct (when (Mvn.Verbose n) _ w1). reflexivity.
    + destruct (xml_Unmarshal raw) as [err|project]; [ | reflexivity].
      destruct (when (Mvn.Verbose n) _ w1). reflexivity.
Qed.

Lemma appendAll_app (pkgs : list Composer.ComposerPackage)
      (m : list (string * string)) :
  Composer.appendAll pkgs m
  = pkgs ++ map (fun kv => Composer.mkComposerPackage (fst kv) (snd kv)) m.
Proof.
  unfold Composer.appendAll. revert pkgs.
  induction m as [|kv m IH]; intros pkgs; simpl.
  - now rewrite app_nil_r.
  - rewrite IH. now rewrite <- app_assoc.
Qed.

(** X6.  Reading a composer.json that is there appends one package for
    every entry of [require] and then one for every entry of
    [require-dev], in the order the maps are walked; a name required in
    both sections is listed twice.  A decoding error costs one warning on
    standard output and nothing else: the entries decoded so far are
    still taken.  Nothing is asked of the network. *)
Theorem composer_reads_require_then_require_dev
        (json_Unmarshal : string -> Composer.ComposerJSON * option error)
        (filename raw : string) (c : Composer.ComposerLookup) (w : World) :
  lookupFile filename (files w) = Some raw ->
  let r := Composer.ReadPackagesFromFile json_Unmarshal filename c w in
  let data := fst (json_Unmarshal raw) in
  Composer.Packages (snd (fst r))
  = Composer.Packages c
      ++ map (fun kv => Composer.mkComposerPackage (fst kv) (snd kv))
             (Composer.Require data ++ Composer.RequireDev data)
  /\ Composer.Verbose (snd (fst r)) = Composer.Verbose c
  /\ since w (snd r)
     = match snd (json_Unmarshal raw) with
       | Some e =>
           [EvStdout (" [W] Non-fatal issue encountered while reading %s : %s" ++ nl)
                     [AStr filename; AErr e]]
       | None => []
       end.
Proof.
  intros Hfile. cbv zeta.
  unfold Composer.ReadPackagesFromFile, bind, ReadFile. rewrite Hfile.
  destruct (json_Unmarshal raw) as [data [e|]]; cbn [fst snd].
  - rewrite fmt_Printf_advance. unfold ret. cbn [fst snd Composer.setPackages
      Composer.Packages Composer.Verbose].
    rewrite since_advance, !appendAll_app, map_app, app_assoc. auto.
  - unfold ret. cbn [fst snd Composer.setPackages Composer.Packages
      Composer.Verbose].
    rewrite !appendAll_app, map_app, app_assoc.
    repeat split. unfold since. now rewrite skipn_all.
Qed.

(** The composer.json of the example: three packages, monolog/monolog
    twice. *)
Lemma composer_reads_require_then_require_dev_witness :
  Composer.Packages
    (snd (fst (Composer.ReadPackagesFromFile ExamplesParse.decodeComposer
                 "composer.json" (Composer.NewComposerLookup false)
                 ExamplesParse.parseWorld)))
  = [ Composer.mkComposerPackage "monolog/monolog" "^3.0";
      Composer.mkComposerPackage "internal/php-package" "file:./local";
      Composer.mkComposerPackage "monolog/monolog" "^3.1" ].
Proof.
  exact (proj1 (composer_reads_require_then_require_dev
                  ExamplesParse.decodeComposer "composer.json"
                  (Composer.NewComposerLookup false) ExamplesParse.parseWorld
                  eq_refl)).
Defined.

Lemma profile_plugins_fold (profiles : list Mvn.MavenProfile)
      (pkgs : list Mvn.MVNPackage) :
  fold_left (fun acc build =>
               acc ++ map Mvn.asPackage (Mvn.Plugins (Mvn.ProfileBuild build)))
            profiles pkgs
  = pkgs ++ map Mvn.asPackage
            (flat_map (fun build => Mvn.Plugins (Mvn.ProfileBuild build)) profiles).
Proof.
  revert pkgs. induction profiles as [|b rest IH]; intros pkgs; simpl.
  - now rewrite app_nil_r.
  - rewrite IH, map_app, app_assoc. reflexivity.
Qed.

(** X7.  Reading a pom.xml of at least ten bytes that the decoder
    accepts appends, in this order, the dependencies of the project, the
    plugins of its build and the plugins of the build of each profile,
    each as (group, artifact, version); the package count grows by their
    number.  Nothing is asked of the network. *)
Theorem maven_reads_dependencies_and_plugins
        (xml_Unmarshal : string -> error + Mvn.MavenProject)
        (filename raw : string) (project : Mvn.MavenProject)
        (n : Mvn.MVNLookup) (w : World) :
  lookupFile filename (files w) = Some raw ->
  10 <= len raw ->
  xml_Unmarshal raw = inr project ->
  let r := Mvn.ReadPackagesFromFile xml_Unmarshal filename n w in
  let found :=
    Mvn.Dependencies project ++ Mvn.Plugins (Mvn.Build project)
      ++ flat_map (fun build => Mvn.Plugins (Mvn.ProfileBuild build))
                  (Mvn.Profiles project) in
  fst (fst r) = None
  /\ Mvn.Packages (snd (fst r)) = Mvn.Packages n ++ map Mvn.asPackage found
  /\ Mvn.GetPackageCount (snd (fst r))
     = Mvn.GetPackageCount n + Z.of_nat (length found)
  /\ gets (since w (snd r)) = [].
Proof.
  intros Hfile Hlen Hxml. cbv zeta.
  unfold Mvn.ReadPackagesFromFile, bind, ReadFile. rewrite Hfile.
  change (when (Mvn.Verbose n) (fmt_Print ?s))
    with (when (Mvn.Verbose n) (emit (EvStdout s []))).
  rewrite when_advance.
  replace (len raw <? 10) with false by (symmetry; apply Z.ltb_ge; lia).
  rewrite Hxml. cbv zeta. unfold ret. cbn [fst snd].
  rewrite since_advance, profile_plugins_fold.
  split; [reflexivity | ]. split; [ | split].
  - cbn [Mvn.setPackages Mvn.Packages]. rewrite !map_app, <- !app_assoc.
    reflexivity.
  - unfold Mvn.GetPackageCount. cbn [Mvn.setPackages Mvn.Packages].
    rewrite !length_app, !length_map. lia.
  - destruct (Mvn.Verbose n); reflexivity.
Qed.

(** The pom.xml of the example: four packages, the dependency first. *)
Lemma maven_reads_dependencies_and_plugins_witness :
  Mvn.Packages
    (snd (fst (Mvn.ReadPackagesFromFile ExamplesParse.decodePom "pom.xml"
                 (Mvn.NewMVNLookup false) ExamplesParse.parseWorld)))
  = [ Mvn.mkMVNPackage "com.acme" "core" "1.0";
      Mvn.mkMVNPackage "org.apache.maven.plugins" "maven-jar-plugin" "3.3.0";
      Mvn.mkMVNPackage "com.acme" "lint" "2.0";
      Mvn.mkMVNPackage "com.acme" "release" "2.1" ].
Proof.
  refine (proj1 (proj2 (maven_reads_dependencies_and_plugins
                          ExamplesParse.decodePom "pom.xml"
                          (raw := ExamplesParse.pomFile)
                          (project := ExamplesParse.project)
                          (Mvn.NewMVNLookup false) ExamplesParse.parseWorld
                          eq_refl _ eq_refl))).
  vm_compute. discriminate.
Defined.

(* ===================================================================== *)
(** * Further properties of safe spaces and scan results                 *)
(* ===================================================================== *)

Lemma gets_malformedWarnings (Match : string -> string -> error + bool)
      (safeSpaces : list string) (pkg : string) :
  gets (malformedWarnings Match safeSpaces pkg) = []
  /\ sleeps (malformedWarnings Match safeSpaces pkg) = [].
Proof.
  induction safeSpaces as [|p rest IH]; simpl; [now split | ].
  destruct (Match p pkg) as [err|ok]; simpl; [exact IH | ].
  destruct ok; [now split | exact IH].
Qed.

Lemma gets_all_malformedWarnings (Match : string -> string -> error + bool)
      (safeSpaces packages : list string) :
  gets (flat_map (malformedWarnings Match safeSpaces) packages) = []
  /\ sleeps (flat_map (malformedWarnings Match safeSpaces) packages) = [].
Proof.
  induction packages as [|pkg rest [IHg IHs]]; simpl; [now split | ].
  rewrite gets_app, sleeps_app, IHg, IHs.
  destruct (gets_malformedWarnings Match safeSpaces pkg) as [-> ->]. now split.
Qed.

Lemma matchesSafe_true (Match : string -> string -> error + bool)
      (safeSpaces : list string) (pkg : string) :
  matchesSafe Match safeSpaces pkg = true
  <-> exists p, In p safeSpaces /\ Match p pkg = inr true.
Proof.
  unfold matchesSafe. rewrite existsb_exists. split.
  - intros (p & Hin & Hm). exists p. split; [assumption | ].
    destruct (Match p pkg) as [e|ok]; [discriminate | now subst].
  - intros (p & Hin & Hm). exists p. split; [assumption | now rewrite Hm].
Qed.

Lemma filter_filter_same (A : Type) (f : A -> bool) (l : list A) :
  filter f (filter f l) = filter f l.
Proof.
  induction l as [|a l IH]; simpl; [reflexivity | ].
  destruct (f a) eqn:E; simpl; [rewrite E; now f_equal | assumption].
Qed.

Lemma removeSafe_run (Match : string -> string -> error + bool)
      (packages safeSpaces : list string) (w : World) :
  SafeSpaces.removeSafe Match packages safeSpaces w
  = (filter (fun pkg => negb (matchesSafe Match safeSpaces pkg)) packages,
     advance w 0 0
       (match safeSpaces with
        | [] => []
        | _ => flat_map (malformedWarnings Match safeSpaces) packages
        end)).
Proof.
  unfold SafeSpaces.removeSafe. destruct safeSpaces as [|p rest].
  - simpl. unfold ret. rewrite advance_nothing. f_equal.
    induction packages as [|pkg l IH]; simpl; [reflexivity | now f_equal].
  - cbn [length Z.of_nat Z.eqb]. now rewrite keepLoop_spec.
Qed.

(** X8.  [removeSafe] returns the identifiers that no safe-space pattern
    matches, in the order they came in and as often as they came in; a
    malformed pattern removes nothing.  Applying it a second time with
    the same patterns changes nothing, the order of the patterns does not
    matter for the result, and the function sends no request and does not
    wait. *)
Theorem removeSafe_keeps_the_unmatched
        (Match : string -> string -> error + bool)
        (packages safeSpaces : list string) (w : World) :
  let r := SafeSpaces.removeSafe Match packages safeSpaces w in
  fst r = filter (fun pkg => negb (matchesSafe Match safeSpaces pkg)) packages
  /\ (forall pkg,
         In pkg (fst r)
         <-> In pkg packages
             /\ forall p, In p safeSpaces -> Match p pkg <> inr true)
  /\ (forall w', fst (SafeSpaces.removeSafe Match (fst r) safeSpaces w') = fst r)
  /\ (forall safeSpaces' w',
         (forall p, In p safeSpaces <-> In p safeSpaces') ->
         fst (SafeSpaces.removeSafe Match packages safeSpaces' w') = fst r)
  /\ gets (since w (snd r)) = []
  /\ sleeps (since w (snd r)) = []
  /\ served (snd r) = served w
  /\ files (snd r) = files w.
Proof.
  cbv zeta. rewrite removeSafe_run. cbn [fst snd].
  split; [reflexivity | ]. split; [ | split; [ | split]].
  - intros pkg. rewrite filter_In, negb_true_iff. split.
    + intros [Hin Hm]. split; [assumption | ]. intros p Hp Hmatch.
      assert (matchesSafe Match safeSpaces pkg = true) as Ht
          by (apply matchesSafe_true; now exists p).
      congruence.
    + intros [Hin Hno]. split; [assumption | ].
      destruct (matchesSafe Match safeSpaces pkg) eqn:E; [ | reflexivity].
      apply matchesSafe_true in E as (p & Hp & Hmatch).
      now destruct (Hno p Hp).
  - intros w'. rewrite removeSafe_run. cbn [fst]. apply filter_filter_same.
  - intros safeSpaces' w' Hsame. rewrite removeSafe_run. cbn [fst].
    apply filter_ext. intros pkg. f_equal.
    destruct (matchesSafe Match safeSpaces pkg) eqn:E.
    + apply matchesSafe_true in E as (p & Hp & Hmatch).
      apply matchesSafe_true. exists p. split; [now apply Hsame | assumption].
    + destruct (matchesSafe Match safeSpaces' pkg) eqn:E'; [ | reflexivity].
      apply matchesSafe_true in E' as (p & Hp & Hmatch).
      assert (matchesSafe Match safeSpaces pkg = true) as Ht
          by (apply matchesSafe_true; exists p; split;
              [now apply Hsame | assumption]).
      congruence.
  - rewrite since_advance, served_advance.
    destruct safeSpaces as [|p rest]; [now repeat split | ].
    destruct (gets_all_malformedWarnings Match (p :: rest) packages) as [-> ->].
    now repeat split.
Qed.

Lemma fold_applyCall (calls : list AddCall) (sr : ScanResult) :
  let sr' := fold_left applyCall calls sr in
  Vulnerable sr' = Vulnerable sr ++ vulnerableOf calls
  /\ Safe sr' = Safe sr ++ safeOf calls
  /\ Target sr' = Target sr /\ ScanType sr' = ScanType sr
  /\ Language sr' = Language sr /\ Timestamp sr' = Timestamp sr
  /\ Metadata sr' = Metadata sr.
Proof.
  revert sr. induction calls as [|c calls IH]; intros sr; cbn [fold_left].
  - unfold vulnerableOf, safeOf. simpl. now rewrite !app_nil_r.
  - destruct (IH (applyCall sr c)) as (Hv & Hs & Ht & Hty & Hl & Hts & Hm).
    cbv zeta. rewrite Hv, Hs, Ht, Hty, Hl, Hts, Hm.
    destruct c as [pkg|pkg]; unfold vulnerableOf, safeOf; simpl;
      rewrite <- ?app_assoc; now repeat split.
Qed.

Lemma length_vulnerableOf_safeOf (calls : list AddCall) :
  (length (vulnerableOf calls) + length (safeOf calls) = length calls)%nat.
Proof.
  unfold vulnerableOf, safeOf.
  induction calls as [|[pkg|pkg] calls IH]; simpl; lia.
Qed.

(** X9.  A scan result that is created, filled by any sequence of
    [AddVulnerable] and [AddSafe] calls and then finalised lists the
    vulnerable and the safe packages in the order they were added, its
    total is the number of calls, its duration is the time between
    creation and finalisation, and [IsVulnerable] says whether at least
    one package was added as vulnerable. *)
Theorem finalized_result_counts_every_package
        (target scanType language : string) (calls : list AddCall)
        (w w' : World) :
  let sr0 := fst (NewScanResult target scanType language w) in
  let r := Finalize (fold_left applyCall calls sr0) w' in
  snd (NewScanResult target scanType language w) = w
  /\ snd r = w'
  /\ Vulnerable (fst r) = vulnerableOf calls
  /\ Safe (fst r) = safeOf calls
  /\ Total (fst r) = Z.of_nat (length calls)
  /\ Duration (fst r) = clock w' - clock w
  /\ IsVulnerable (fst r)
     = existsb (fun c => match c with CallAddVulnerable _ => true | _ => false end)
               calls
  /\ Target (fst r) = target /\ ScanType (fst r) = scanType
  /\ Language (fst r) = language.
Proof.
  cbv zeta. unfold NewScanResult, Finalize, bind, time_Now, ret. cbn [fst snd].
  destruct (fold_applyCall calls
              (mkScanResult target scanType language [] [] 0 (clock w) 0 []))
    as (Hv & Hs & Ht & Hty & Hl & Hts & Hm).
  cbn [Vulnerable Safe Target ScanType Language Timestamp Metadata app] in *.
  unfold IsVulnerable. cbn [Vulnerable Safe Total Duration Target ScanType Language].
  rewrite Hv, Hs, Ht, Hty, Hl, Hts.
  repeat split.
  - pose proof (length_vulnerableOf_safeOf calls). lia.
  - clear. unfold vulnerableOf.
    induction calls as [|[pkg|pkg] calls IH]; simpl; [reflexivity | reflexivity | ].
    exact IH.
Qed.

(* ===================================================================== *)
(** * Further properties of the configuration                            *)
(* ===================================================================== *)

Lemma firstInvalid_None (languages : list string) :
  CmdConfig.firstInvalid languages = None
  <-> forall lang, In lang languages -> In lang CmdConfig.validLanguages.
Proof.
  induction languages as [|l rest IH].
  - split; [intros _ lang [] | reflexivity].
  - change (CmdConfig.firstInvalid (l :: rest))
      with (if existsb (fun validLang => String.eqb l validLang)
                       CmdConfig.validLanguages
            then CmdConfig.firstInvalid rest else Some l).
    destruct (existsb (fun validLang => String.eqb l validLang)
                      CmdConfig.validLanguages) eqn:E.
    + rewrite IH. apply existsb_exists in E as (v & Hv & Heq).
      apply String.eqb_eq in Heq. subst v.
      split.
      * intros H lang [<- | Hin]; [assumption | now apply H].
      * intros H lang Hin. apply H. now right.
    + split; [discriminate | ]. intros H.
      assert (In l CmdConfig.validLanguages) as Hl by (apply H; now left).
      assert (existsb (fun validLang => String.eqb l validLang)
                      CmdConfig.validLanguages = true) as Ht
          by (apply existsb_exists; exists l; split;
              [assumption | apply String.eqb_refl]).
      congruence.
Qed.

(** X10.  [config validate] accepts a configuration exactly when it is
    there, has more than zero workers, a timeout above zero and only
    languages among npm, pip, composer, mvn and rubygems; no other field
    is looked at.  The default configuration is accepted.  The command
    logs and does nothing else. *)
Theorem config_validate_accepts (cfg : option Config.Config) (w : World) :
  let r := CmdConfig.runConfigValidateCommand cfg w in
  (fst r = None
   <-> exists c, cfg = Some c
                 /\ 0 < Config.Workers c /\ 0 < Config.Timeout c
                 /\ forall lang, In lang (Config.Languages c) ->
                                 In lang ["npm"; "pip"; "composer"; "mvn"; "rubygems"])
  /\ fst (CmdConfig.runConfigValidateCommand (Some Config.Default) w) = None
  /\ gets (since w (snd r)) = []
  /\ served (snd r) = served w /\ files (snd r) = files w.
Proof.
  cbv zeta. split; [ | split].
  - unfold CmdConfig.runConfigValidateCommand, bind. rewrite log_advance.
    destruct cfg as [c|]; cbn [fst snd ret].
    + destruct (Z.leb_spec (Config.Workers c) 0) as [Hw|Hw].
      { unfold ret. cbn [fst]. split; [discriminate | ].
        intros (c' & [= <-] & ? & _). lia. }
      destruct (Z.leb_spec (Config.Timeout c) 0) as [Ht|Ht].
      { unfold ret. cbn [fst]. split; [discriminate | ].
        intros (c' & [= <-] & _ & ? & _). lia. }
      destruct (CmdConfig.firstInvalid (Config.Languages c)) as [lang|] eqn:E.
      * unfold ret. cbn [fst]. split; [discriminate | ].
        intros (c' & [= <-] & _ & _ & Hl).
        apply firstInvalid_None in Hl. congruence.
      * rewrite log_advance. unfold ret. cbn [fst]. split; [ | reflexivity].
        intros _. exists c. repeat split; try assumption.
        now apply firstInvalid_None.
    + unfold ret. cbn [fst]. split; [discriminate | ].
      intros (c' & [=] & _).
  - unfold CmdConfig.runConfigValidateCommand, bind. rewrite log_advance.
    reflexivity.
  - unfold CmdConfig.runConfigValidateCommand, bind. rewrite log_advance.
    assert (Hquiet : forall (e : option error) evs,
               gets evs = [] ->
               gets (since w (snd (ret e (advance w 0 0 evs)))) = []
               /\ served (snd (ret e (advance w 0 0 evs))) = served w
               /\ files (snd (ret e (advance w 0 0 evs))) = files w).
    { intros e evs Hg. unfold ret. cbn [snd].
      rewrite since_advance, served_advance. now repeat split. }
    destruct cfg as [c|]; [ | now apply Hquiet].
    destruct (Config.Workers c <=? 0); [now apply Hquiet | ].
    destruct (Config.Timeout c <=? 0); [now apply Hquiet | ].
    destruct (CmdConfig.firstInvalid (Config.Languages c)); [now apply Hquiet | ].
    rewrite log_advance, advance_advance. now apply Hquiet.
Qed.

(** X11.  [Load] lets a command-line value win over what viper read
    only where the command-line value is not the zero value of its type:
    a verbose flag that is false, an empty string and a worker count or
    timeout that is not positive are replaced by what viper read.  With
    no safe spaces on the command line the safe spaces are what viper
    read; otherwise they are the command-line slice as the decoding left
    it.  [SaveResults] always keeps the command-line value, and each of
    the eleven fields without a command-line copy ([Languages],
    [MaxRepos], [DeepScan], [RateLimit], [Delay], [Targets], [GitHubOrg],
    [GitHubRepo], [TargetFile], [FollowRedirects], [Database]) is what
    viper read.  An error of [viper.Unmarshal] is a panic. *)
Theorem load_prefers_nonzero_command_line
        (viper_Unmarshal : Config.Config -> error + Config.Config * list string)
        (cli : Config.Config) :
  match viper_Unmarshal cli with
  | inl err => Config.Load viper_Unmarshal cli = Config.LoadPanic err
  | inr (file, cliSafeSpacesNow) =>
      exists cfg,
      Config.Load viper_Unmarshal cli = Config.LoadedConfig cfg
      /\ Config.Verbose cfg = (Config.Verbose cli || Config.Verbose file)
      /\ Config.Output cfg
         = (if String.eqb (Config.Output cli) "" then Config.Output file
            else Config.Output cli)
      /\ Config.Format cfg
         = (if String.eqb (Config.Format cli) "" then Config.Format file
            else Config.Format cli)
      /\ Config.Workers cfg
         = (if 0 <? Config.Workers cli then Config.Workers cli
            else Config.Workers file)
      /\ Config.Timeout cfg
         = (if 0 <? Config.Timeout cli then Config.Timeout cli
            else Config.Timeout file)
      /\ Config.GitHubToken cfg
         = (if String.eqb (Config.GitHubToken cli) "" then Config.GitHubToken file
            else Config.GitHubToken cli)
      /\ Config.SafeSpaces cfg
         = (match Config.SafeSpaces cli with
            | [] => Config.SafeSpaces file
            | _ => cliSafeSpacesNow
            end)
      /\ Config.OutputDir cfg
         = (if String.eqb (Config.OutputDir cli) "" then Config.OutputDir file
            else Config.OutputDir cli)
      /\ Config.UserAgent cfg
         = (if String.eqb (Config.UserAgent cli) "" then Config.UserAgent file
            else Config.UserAgent cli)
      /\ Config.SaveResults cfg = Config.SaveResults cli
      /\ Config.Languages cfg = Config.Languages file
      /\ Config.MaxRepos cfg = Config.MaxRepos file
      /\ Config.DeepScan cfg = Config.DeepScan file
      /\ Config.RateLimit cfg = Config.RateLimit file
      /\ Config.Delay cfg = Config.Delay file
      /\ Config.Targets cfg = Config.Targets file
      /\ Config.GitHubOrg cfg = Config.GitHubOrg file
      /\ Config.GitHubRepo cfg = Config.GitHubRepo file
      /\ Config.TargetFile cfg = Config.TargetFile file
      /\ Config.FollowRedirects cfg = Config.FollowRedirects file
      /\ Config.Database cfg = Config.Database file
  end.
Proof.
  unfold Config.Load.
  destruct (viper_Unmarshal cli) as [err|[file cliSafeSpacesNow]];
    [reflexivity | ].
  eexists. split; [reflexivity | ]. cbn -[String.eqb Z.gtb Z.ltb].
  rewrite !Z.gtb_ltb.
  repeat split.
  - destruct (Config.Verbose cli); reflexivity.
  - destruct (String.eqb (Config.Output cli) ""); reflexivity.
  - destruct (String.eqb (Config.Format cli) ""); reflexivity.
  - destruct (String.eqb (Config.GitHubToken cli) ""); reflexivity.
  - destruct (Config.SafeSpaces cli); reflexivity.
  - destruct (String.eqb (Config.OutputDir cli) ""); reflexivity.
  - destruct (String.eqb (Config.UserAgent cli) ""); reflexivity.
Qed.

(** X12.  For a timeout between 0 and 9223372036 seconds [GetTimeout] is
    that many seconds in nanoseconds, and for a delay between 0 and
    9223372036854 milliseconds [GetDelay] is that many milliseconds in
    nanoseconds: the 64-bit product does not wrap.  One second more and
    the timeout is negative. *)
Theorem durations_do_not_wrap (c : Config.Config) :
  0 <= Config.Timeout c <= 9223372036 ->
  0 <= Config.Delay c <= 9223372036854 ->
  Config.GetTimeout c = Config.Timeout c * 1000000000
  /\ Config.GetDelay c = Config.Delay c * 1000000
  /\ (forall c', Config.Timeout c' = 9223372037 -> Config.GetTimeout c' < 0).
Proof.
  intros Ht Hd. unfold Config.GetTimeout, Config.GetDelay, Config.wrap64.
  split; [ | split].
  - rewrite Z.mod_small by lia. lia.
  - rewrite Z.mod_small by lia. lia.
  - intros c' ->. vm_compute. reflexivity.
Qed.

(** The default configuration: 30 seconds and 100 milliseconds. *)
Lemma durations_do_not_wrap_witness :
  Config.GetTimeout Config.Default = 30000000000
  /\ Config.GetDelay Config.Default = 100000000.
Proof.
  assert (Ht : 0 <= Config.Timeout Config.Default <= 9223372036)
    by (vm_compute; split; discriminate).
  assert (Hd : 0 <= Config.Delay Config.Default <= 9223372036854)
    by (vm_compute; split; discriminate).
  destruct (durations_do_not_wrap Config.Default Ht Hd) as (H1 & H2 & _).
  split; [exact H1 | exact H2].
Defined.

(* ===================================================================== *)
(** * Further properties of the GitHub client                            *)
(* ===================================================================== *)

Ltac by_name name :=
  repeat match goal with
         | |- context [String.eqb name ?lit] =>
             destruct (String.eqb_spec name lit) as [->|?]
         end.

(** The table of file names by language and the table of languages by
    file name say the same. *)
Lemma patterns_agree_with_languages (name lang : string) :
  match GitHubRepo.filePatterns lang with
  | Some patterns => existsb (fun pattern => String.eqb name pattern) patterns
  | None => false
  end
  = negb (String.eqb (fileLanguageMap name) "")
    && String.eqb (fileLanguageMap name) lang.
Proof.
  unfold GitHubRepo.filePatterns.
  destruct (String.eqb_spec lang "npm") as [->|?];
    [unfold fileLanguageMap; cbn [existsb]; by_name name; reflexivity | ].
  destruct (String.eqb_spec lang "pip") as [->|?];
    [unfold fileLanguageMap; cbn [existsb]; by_name name; reflexivity | ].
  destruct (String.eqb_spec lang "composer") as [->|?];
    [unfold fileLanguageMap; cbn [existsb]; by_name name; reflexivity | ].
  destruct (String.eqb_spec lang "mvn") as [->|?];
    [unfold fileLanguageMap; cbn [existsb]; by_name name; reflexivity | ].
  destruct (String.eqb_spec lang "rubygems") as [->|?];
    [unfold fileLanguageMap; cbn [existsb]; by_name name; reflexivity | ].
  unfold fileLanguageMap. by_name name; cbv iota;
    try reflexivity;
    match goal with
    | |- context [String.eqb ?l lang] =>
        destruct (String.eqb_spec l lang); [congruence | reflexivity]
    end.
Qed.

Lemma collected_patterns (languages acc : list string) :
  fold_left (fun allPatterns lang =>
               match GitHubRepo.filePatterns lang with
               | Some patterns => allPatterns ++ patterns
               | None => allPatterns
               end) languages acc
  = acc ++ flat_map (fun lang =>
                       match GitHubRepo.filePatterns lang with
                       | Some patterns => patterns
                       | None => []
                       end) languages.
Proof.
  revert acc. induction languages as [|lang rest IH]; intros acc; cbn [fold_left flat_map].
  - now rewrite app_nil_r.
  - rewrite IH. destruct (GitHubRepo.filePatterns lang);
      [now rewrite app_assoc | reflexivity].
Qed.

Lemma existsb_flat_map (A B : Type) (f : B -> bool) (g : A -> list B) (l : list A) :
  existsb f (flat_map g l) = existsb (fun a => existsb f (g a)) l.
Proof.
  induction l as [|a l IH]; cbn [flat_map existsb]; [reflexivity | ].
  now rewrite existsb_app, IH.
Qed.

Lemma found_files (Base : string -> string) (allPatterns : list string)
      (entries acc : list GitHub.TreeEntry) :
  fold_left (fun dependencyFiles entry =>
               if String.eqb (GitHub.EntryType entry) "blob" then
                 let fileName := Base (GitHub.Path entry) in
                 if existsb (fun pattern => String.eqb fileName pattern) allPatterns
                 then dependencyFiles ++ [entry]
                 else dependencyFiles
               else dependencyFiles) entries acc
  = acc ++ filter (fun entry =>
                     String.eqb (GitHub.EntryType entry) "blob"
                     && existsb (fun pattern =>
                                   String.eqb (Base (GitHub.Path entry)) pattern)
                                allPatterns) entries.
Proof.
  revert acc. induction entries as [|e rest IH]; intros acc; cbn [fold_left filter].
  - now rewrite app_nil_r.
  - rewrite IH. cbv zeta.
    destruct (String.eqb (GitHub.EntryType e) "blob"); cbn [andb];
      [ | reflexivity].
    destruct (existsb _ allPatterns); [now rewrite <- app_assoc | reflexivity].
Qed.

(** X13.  [findDependencyFiles] keeps, in the order of the tree and each
    once, the entries that are blobs and whose base name
    [getLanguageFromFile] maps to one of the requested languages.  So
    every file it returns has a language [scanDependencyFile] knows, and
    with no language requested, or with none that the client knows,
    nothing is found. *)
Theorem found_files_are_blobs_of_requested_languages
        (Base : string -> string) (entries : list GitHub.TreeEntry)
        (languages : list string) :
  let language entry := GitHub.getLanguageFromFile Base (GitHub.Path entry) in
  let found := GitHubRepo.findDependencyFiles Base entries languages in
  found = filter (fun entry =>
                    String.eqb (GitHub.EntryType entry) "blob"
                    && (negb (String.eqb (language entry) "")
                        && existsb (String.eqb (language entry)) languages))
                 entries
  /\ (forall entry,
         In entry found
         <-> In entry entries /\ GitHub.EntryType entry = "blob"
             /\ language entry <> "" /\ In (language entry) languages)
  /\ ((forall lang, In lang languages -> GitHubRepo.filePatterns lang = None) ->
      found = []).
Proof.
  cbv zeta.
  assert (Hfilter :
    GitHubRepo.findDependencyFiles Base entries languages
    = filter (fun entry =>
                String.eqb (GitHub.EntryType entry) "blob"
                && (negb (String.eqb (GitHub.getLanguageFromFile Base (GitHub.Path entry)) "")
                    && existsb (String.eqb (GitHub.getLanguageFromFile Base (GitHub.Path entry)))
                               languages))
             entries).
  { unfold GitHubRepo.findDependencyFiles. cbv zeta.
    rewrite collected_patterns, found_files. cbn [app].
    apply filter_ext. intros e. f_equal.
    rewrite existsb_flat_map. unfold GitHub.getLanguageFromFile. cbv zeta.
    generalize (Base (GitHub.Path e)). intros name. clear.
    induction languages as [|lang rest IH]; cbn [existsb].
    - now rewrite andb_false_r.
    - rewrite IH, andb_orb_distrib_r, <- patterns_agree_with_languages.
      destruct (GitHubRepo.filePatterns lang); reflexivity. }
  split; [exact Hfilter | ]. split.
  - intros e. rewrite Hfilter, filter_In, !andb_true_iff, negb_true_iff,
      existsb_exists.
    split.
    + intros (Hin & Hblob & Hknown & lang & Hlang & Heq).
      apply String.eqb_eq in Hblob. apply String.eqb_neq in Hknown.
      apply String.eqb_eq in Heq. subst lang. now repeat split.
    + intros (Hin & Hblob & Hknown & Hlang).
      split; [assumption | ]. split; [now apply String.eqb_eq | ].
      split; [now apply String.eqb_neq | ].
      eexists. split; [exact Hlang | apply String.eqb_refl].
  - intros Hnone. unfold GitHubRepo.findDependencyFiles. cbv zeta.
    rewrite collected_patterns, found_files. cbn [app].
    assert (flat_map (fun lang => match GitHubRepo.filePatterns lang with
                                  | Some patterns => patterns
                                  | None => []
                                  end) languages = []) as ->.
    { clear Hfilter.
      induction languages as [|lang rest IH]; cbn [flat_map]; [reflexivity | ].
      rewrite (Hnone lang) by now left. apply IH.
      intros l Hl. apply Hnone. now right. }
    cbn [existsb]. clear.
    induction entries as [|e rest IH]; cbn [filter]; [reflexivity | ].
    rewrite andb_false_r. exact IH.
Qed.

(** The tree of the example, asked for pip and maven: the requirements
    file and the nested pom.xml; the directory and the README are left
    out. *)
Lemma found_files_are_blobs_of_requested_languages_witness :
  map GitHub.Path
      (GitHubRepo.findDependencyFiles Filepath.Base ExamplesGitHub.tree ["pip"; "mvn"])
  = ["requirements.txt"; "services/api/pom.xml"]
  /\ GitHubRepo.findDependencyFiles Filepath.Base ExamplesGitHub.tree ["python"] = [].
Proof.
  split.
  - rewrite (proj1 (found_files_are_blobs_of_requested_languages
                      Filepath.Base ExamplesGitHub.tree ["pip"; "mvn"])).
    vm_compute. reflexivity.
  - apply (proj2 (proj2 (found_files_are_blobs_of_requested_languages
                           Filepath.Base ExamplesGitHub.tree ["python"]))).
    intros lang [<- | []]. reflexivity.
Defined.

Section OrganizationRepos.

Variable Repositories_ListByOrg
  : string -> Z -> Z -> error + GitHubRepo.Page GitHubRepo.Repository.

Local Abbreviation loop := (GitHubRepo.orgReposLoop Repositories_ListByOrg).

Lemma orgReposLoop_outcome (org : string) (maxRepos : Z) (fuel : nat) :
  forall allRepos page outcome,
  loop fuel org maxRepos allRepos page = Some outcome ->
  match outcome with
  | GitHubRepo.Returned repos =>
      0 <= maxRepos /\ Z.of_nat (length repos) <= maxRepos
  | GitHubRepo.Panicked _ => maxRepos < 0
  | GitHubRepo.Failed err =>
      exists page', Repositories_ListByOrg org page' 100 = inl err
  end.
Proof.
  induction fuel as [|fuel IH]; intros allRepos page outcome; cbn [GitHubRepo.orgReposLoop];
    [discriminate | ].
  destruct (Repositories_ListByOrg org page 100) as [err|resp] eqn:E.
  - intros [= <-]. now exists page.
  - cbv zeta.
    destruct (Z.geb_spec (Z.of_nat (length (allRepos ++ GitHubRepo.items resp))) maxRepos)
      as [Hcap|Hcap].
    + destruct (Z.ltb_spec maxRepos 0) as [Hneg|Hneg]; intros [= <-]; [assumption | ].
      split; [assumption | ]. rewrite length_firstn. lia.
    + destruct (GitHubRepo.NextPage resp =? 0).
      * intros [= <-]. lia.
      * apply IH.
Qed.

Lemma orgReposLoop_more_fuel (org : string) (maxRepos : Z) (fuel : nat) :
  forall allRepos page outcome,
  loop fuel org maxRepos allRepos page = Some outcome ->
  forall fuel', (fuel <= fuel')%nat ->
  loop fuel' org maxRepos allRepos page = Some outcome.
Proof.
  induction fuel as [|fuel IH]; intros allRepos page outcome; cbn [GitHubRepo.orgReposLoop];
    [discriminate | ].
  intros H [|fuel'] Hle; [lia | ]. cbn [GitHubRepo.orgReposLoop].
  destruct (Repositories_ListByOrg org page 100) as [err|resp]; [exact H | ].
  cbv zeta in *.
  destruct (Z.of_nat (length (allRepos ++ GitHubRepo.items resp)) >=? maxRepos);
    [exact H | ].
  destruct (GitHubRepo.NextPage resp =? 0); [exact H | ].
  apply IH; [exact H | lia].
Qed.

Lemma orgReposLoop_ends (org : string) (maxRepos : Z) :
  (forall page resp,
      Repositories_ListByOrg org page 100 = inr resp ->
      GitHubRepo.NextPage resp <> 0 -> GitHubRepo.items resp <> []) ->
  forall fuel allRepos page,
  (1 <= fuel)%nat ->
  maxRepos < Z.of_nat (length allRepos) + Z.of_nat fuel ->
  exists outcome, loop fuel org maxRepos allRepos page = Some outcome.
Proof.
  intros Hpages.
  induction fuel as [|fuel IH]; intros allRepos page Hone Hfuel; [lia | ].
  cbn [GitHubRepo.orgReposLoop].
  destruct (Repositories_ListByOrg org page 100) as [err|resp] eqn:E;
    [eexists; reflexivity | ].
  cbv zeta.
  destruct (Z.geb_spec (Z.of_nat (length (allRepos ++ GitHubRepo.items resp))) maxRepos)
    as [Hcap|Hcap].
  - destruct (maxRepos <? 0); eexists; reflexivity.
  - destruct (Z.eqb_spec (GitHubRepo.NextPage resp) 0) as [Hlast|Hnext];
      [eexists; reflexivity | ].
    pose proof (Hpages page resp E Hnext) as Hitems.
    rewrite length_app in Hcap.
    assert (1 <= length (GitHubRepo.items resp))%nat
      by (destruct (GitHubRepo.items resp); [congruence | simpl; lia]).
    apply IH; [lia | rewrite length_app; lia].
Qed.

(** The walk over a listing: the repositories of the pages are put
    together until the limit is reached; if it is not reached, the walk
    ends with the listing, in its repositories or in its error. *)
Lemma orgReposLoop_pages (org : string) (maxRepos : Z) (failure : option error)
      (resps : list (GitHubRepo.Page GitHubRepo.Repository)) :
  forall fuel allRepos page,
  pagesFrom (fun page => Repositories_ListByOrg org page 100) page resps failure ->
  (length resps < fuel)%nat ->
  loop fuel org maxRepos allRepos page
  = Some (let all := allRepos ++ flat_map GitHubRepo.items resps in
          if match resps with
             | [] => false
             | _ => Z.of_nat (length all) >=? maxRepos
             end
          then if maxRepos <? 0
               then GitHubRepo.Panicked "slice bounds out of range"
               else GitHubRepo.Returned (firstn (Z.to_nat maxRepos) all)
          else match failure with
               | Some err => GitHubRepo.Failed err
               | None => GitHubRepo.Returned all
               end).
Proof.
  induction resps as [|resp rest IH]; intros fuel allRepos page Hpages Hfuel;
    (destruct fuel as [|fuel]; [cbn [length] in Hfuel; lia | ]);
    cbn [GitHubRepo.orgReposLoop]; cbn [pagesFrom] in Hpages.
  - destruct failure as [err|]; [now rewrite Hpages | contradiction].
  - destruct Hpages as [-> Hnext]. cbv zeta. cbn [flat_map].
    rewrite (app_assoc allRepos).
    set (seen := allRepos ++ GitHubRepo.items resp) in *.
    destruct (Z.geb_spec (Z.of_nat (length seen)) maxRepos) as [Hcap|Hcap].
    + assert (Hall : (Z.of_nat (length (seen ++ flat_map GitHubRepo.items rest))
                      >=? maxRepos) = true).
      { apply Z.geb_le. rewrite length_app. lia. }
      rewrite Hall.
      destruct (Z.ltb_spec maxRepos 0) as [Hneg|Hneg]; [reflexivity | ].
      rewrite firstn_app.
      replace (Z.to_nat maxRepos - length seen)%nat with 0%nat by lia.
      cbn [firstn]. now rewrite app_nil_r.
    + destruct rest as [|resp' rest'].
      * cbn [flat_map]. rewrite app_nil_r.
        destruct (Z.geb_spec (Z.of_nat (length seen)) maxRepos) as [Hc|_]; [lia | ].
        destruct failure as [err|].
        -- destruct Hnext as [Hnext Hrest].
           apply Z.eqb_neq in Hnext. rewrite Hnext.
           rewrite (IH fuel seen _ Hrest) by (cbn [length] in *; lia).
           cbv zeta. reflexivity.
        -- now rewrite Hnext.
      * assert (Hn : GitHubRepo.NextPage resp <> 0
                     /\ pagesFrom (fun page => Repositories_ListByOrg org page 100)
                                  (GitHubRepo.NextPage resp) (resp' :: rest') failure)
          by (destruct failure; exact Hnext).
        destruct Hn as [Hne Hrest]. apply Z.eqb_neq in Hne. rewrite Hne.
        rewrite (IH fuel seen _ Hrest) by (cbn [length] in *; lia).
        cbv zeta. reflexivity.
Qed.

(** X14.  When every page of the listing that names a next page holds at
    least one repository, [getOrganizationRepos] ends within
    [maxRepos] + 1 requests (one request for a limit below zero), and a
    longer run changes nothing.  It never returns more than [maxRepos]
    repositories; a negative [maxRepos] ends in the error of the API or
    in a panic, never in a list.  What it returns is fixed by the pages
    the API gives: the repositories of the pages are put together in
    order; as soon as they are [maxRepos] or more the first [maxRepos]
    are returned (a panic for a negative limit) and no further page is
    asked for; a listing that ends below the limit is returned whole;
    and an error of the API on a page that is reached below the limit is
    returned in place of the repositories of the pages before, which are
    discarded. *)
Theorem organization_repositories_are_capped (org : string) (maxRepos : Z) :
  (forall page resp,
      Repositories_ListByOrg org page 100 = inr resp ->
      GitHubRepo.NextPage resp <> 0 -> GitHubRepo.items resp <> []) ->
  (exists outcome,
    (forall fuel, (Z.to_nat maxRepos <= fuel)%nat ->
        GitHubRepo.getOrganizationRepos Repositories_ListByOrg (S fuel) org maxRepos
        = Some outcome)
    /\ match outcome with
       | GitHubRepo.Returned repos =>
           0 <= maxRepos /\ Z.of_nat (length repos) <= maxRepos
       | GitHubRepo.Panicked _ => maxRepos < 0
       | GitHubRepo.Failed err =>
           exists page, Repositories_ListByOrg org page 100 = inl err
       end)
  /\ (forall resps failure fuel,
      pagesFrom (fun page => Repositories_ListByOrg org page 100) 1 resps failure ->
      (length resps < fuel)%nat ->
      GitHubRepo.getOrganizationRepos Repositories_ListByOrg fuel org maxRepos
      = Some (let all := flat_map GitHubRepo.items resps in
              if match resps with
                 | [] => false
                 | _ => Z.of_nat (length all) >=? maxRepos
                 end
              then if maxRepos <? 0
                   then GitHubRepo.Panicked "slice bounds out of range"
                   else GitHubRepo.Returned (firstn (Z.to_nat maxRepos) all)
              else match failure with
                   | Some err => GitHubRepo.Failed err
                   | None => GitHubRepo.Returned all
                   end)).
Proof.
  intros Hpages. split.
  - destruct (@orgReposLoop_ends org maxRepos Hpages (S (Z.to_nat maxRepos)) [] 1)
      as [outcome Hrun]; [lia | cbn [length]; lia | ].
    exists outcome. split.
    + intros fuel Hfuel. unfold GitHubRepo.getOrganizationRepos.
      eapply orgReposLoop_more_fuel; [exact Hrun | lia].
    + eapply orgReposLoop_outcome. exact Hrun.
  - intros resps failure fuel Hwalk Hfuel.
    unfold GitHubRepo.getOrganizationRepos.
    now rewrite (@orgReposLoop_pages org maxRepos failure resps fuel [] 1 Hwalk Hfuel).
Qed.

End OrganizationRepos.

(** The organisation of the example with a limit of two: the first page
    is enough.  And a listing that fails on its second page with a limit
    of fifty: the error is returned, not the two repositories of the
    first page. *)
Lemma organization_repositories_are_capped_witness :
  (exists outcome,
    (forall fuel, (Z.to_nat 2 <= fuel)%nat ->
        GitHubRepo.getOrganizationRepos ExamplesGitHub.listByOrg (S fuel) "acme" 2
        = Some outcome)
    /\ match outcome with
       | GitHubRepo.Returned repos => 0 <= 2 /\ Z.of_nat (length repos) <= 2
       | GitHubRepo.Panicked _ => 2 < 0
       | GitHubRepo.Failed err =>
           exists page, ExamplesGitHub.listByOrg "acme" page 100 = inl err
       end)
  /\ GitHubRepo.getOrganizationRepos ExamplesGitHub.listByOrg 3 "acme" 2
     = Some (GitHubRepo.Returned [ExamplesGitHub.shop; ExamplesGitHub.site])
  /\ GitHubRepo.getOrganizationRepos ExamplesGitHub.failingOrg 3 "acme" 50
     = Some (GitHubRepo.Failed (LibError "502 Bad Gateway")).
Proof.
  assert (Hacme : forall page resp,
             ExamplesGitHub.listByOrg "acme" page 100 = inr resp ->
             GitHubRepo.NextPage resp <> 0 -> GitHubRepo.items resp <> []).
  { intros page resp. unfold ExamplesGitHub.listByOrg. cbn [String.eqb negb].
    replace (String.eqb "acme" "acme") with true by reflexivity. cbn [negb].
    destruct (page =? 1); [intros [= <-]; discriminate | ].
    destruct (page =? 2); intros [= <-]; intros H; now destruct H. }
  assert (Hfailing : forall page resp,
             ExamplesGitHub.failingOrg "acme" page 100 = inr resp ->
             GitHubRepo.NextPage resp <> 0 -> GitHubRepo.items resp <> []).
  { intros page resp. unfold ExamplesGitHub.failingOrg.
    destruct (page =? 1); [intros [= <-]; discriminate | discriminate]. }
  destruct (organization_repositories_are_capped ExamplesGitHub.listByOrg
              "acme" 2 Hacme) as [Hends Hwalk].
  destruct (organization_repositories_are_capped ExamplesGitHub.failingOrg
              "acme" 50 Hfailing) as [_ Hfails].
  split; [exact Hends | split].
  - apply (Hwalk [GitHubRepo.mkPage [ExamplesGitHub.shop; ExamplesGitHub.site] 2;
                  GitHubRepo.mkPage [ExamplesGitHub.tools] 0] None 3%nat).
    + cbn. repeat split. discriminate.
    + cbn [length]. lia.
  - apply (Hfails [GitHubRepo.mkPage [ExamplesGitHub.shop; ExamplesGitHub.site] 2]
                  (Some (LibError "502 Bad Gateway")) 3%nat).
    + cbn. repeat split. discriminate.
    + cbn [length]. lia.
Defined.

Section RepositoryScan.

Variable Verbose : bool.
Variable GetResolverForLanguageWithVerbose : string -> bool -> error + Resolver.
Variable Match : string -> string -> error + bool.
Variable Base : string -> string.
Variable Repositories_Get : string -> string -> error + GitHubRepo.Repository.
Variable Repositories_ListBranches
  : string -> string -> Z -> Z -> error + GitHubRepo.Page string.
Variable Git_GetTree : string -> string -> string -> error + list GitHub.TreeEntry.

Local Abbreviation scanFiles :=
  (GitHubRepo.scanFiles Verbose GetResolverForLanguageWithVerbose Match Base).
Local Abbreviation scanBranch :=
  (GitHubRepo.scanBranch Verbose GetResolverForLanguageWithVerbose Match Base
                         Git_GetTree).
Local Abbreviation scanBranches :=
  (GitHubRepo.scanBranches Verbose GetResolverForLanguageWithVerbose Match Base
                           Git_GetTree).
Local Abbreviation ScanRepository :=
  (GitHubRepo.ScanRepository Verbose GetResolverForLanguageWithVerbose Match Base
                             Repositories_Get Repositories_ListBranches
                             Git_GetTree).

(** A file that cannot be scanned is logged and skipped. *)
Lemma scanFiles_appends (owner repo : string) (safeSpaces : list string)
      (files : list GitHub.TreeEntry) :
  forall results w,
  exists more, fst (scanFiles owner repo files safeSpaces results w) = results ++ more.
Proof.
  induction files as [|file rest IH]; intros results w; cbn [GitHubRepo.scanFiles].
  - exists []. unfold ret. cbn [fst]. now rewrite app_nil_r.
  - unfold bind.
    destruct (GitHub.scanDependencyFile Verbose GetResolverForLanguageWithVerbose
                Match Base owner repo file safeSpaces w) as [[err|result] w1].
    + rewrite log_advance. apply IH.
    + destruct (IH (results ++ [result]) w1) as [more E].
      exists (result :: more). rewrite E, <- app_assoc. reflexivity.
Qed.

(** A branch is scanned whenever its tree can be read. *)
Lemma scanBranch_outcome (owner repo branch : string)
      (languages safeSpaces : list string) (w : World) :
  match Git_GetTree owner repo branch with
  | inl err =>
      scanBranch owner repo branch languages safeSpaces w
      = (inl (Errorf "failed to get tree for branch %s: %w" [AStr branch; AErr err]),
         w)
  | inr _ =>
      exists results,
      fst (scanBranch owner repo branch languages safeSpaces w) = inr results
  end.
Proof.
  unfold GitHubRepo.scanBranch.
  destruct (Git_GetTree owner repo branch) as [err|entries]; [reflexivity | ].
  unfold bind. rewrite log_advance.
  destruct (GitHubRepo.scanFiles _ _ _ _ _ _ _ _ _ _) as [results w1].
  now exists results.
Qed.

(** A branch that cannot be scanned is logged and skipped. *)
Lemma scanBranches_appends (owner repoName defaultBranch : string)
      (languages safeSpaces : list string) (branches : list string) :
  forall results w,
  exists more,
    fst (scanBranches owner repoName defaultBranch branches languages safeSpaces
                      results w)
    = results ++ more.
Proof.
  induction branches as [|branch rest IH]; intros results w;
    cbn [GitHubRepo.scanBranches].
  - exists []. unfold ret. cbn [fst]. now rewrite app_nil_r.
  - destruct (String.eqb branch defaultBranch); [apply IH | ].
    unfold bind.
    destruct (GitHubRepo.scanBranch _ _ _ _ _ _ _ _ _ _ _) as [[err|branchResults] w1].
    + rewrite log_advance. apply IH.
    + destruct (IH (results ++ branchResults) w1) as [more E].
      exists (branchResults ++ more). rewrite E, <- app_assoc. reflexivity.
Qed.

(** The loop over the branches of a deep scan scans the branches other
    than the default branch, one after the other, and puts their results
    after the results it is given. *)
Lemma scanBranches_inTurn (owner repoName defaultBranch : string)
      (languages safeSpaces : list string) (branches : list string) :
  forall results w,
  scanBranches owner repoName defaultBranch branches languages safeSpaces results w
  = (let (more, w') :=
       scanInTurn (fun branch => scanBranch owner repoName branch languages safeSpaces)
                  (filter (fun branch => negb (String.eqb branch defaultBranch))
                          branches) w in
     (results ++ more, w')).
Proof.
  induction branches as [|branch rest IH]; intros results w;
    cbn [GitHubRepo.scanBranches filter].
  - cbn [scanInTurn]. unfold ret. now rewrite app_nil_r.
  - destruct (String.eqb branch defaultBranch); cbn [negb]; [apply IH | ].
    cbn [scanInTurn]. unfold bind.
    destruct (GitHubRepo.scanBranch _ _ _ _ _ _ _ _ _ _ _) as [[err|branchResults] w1].
    + rewrite log_advance. apply IH.
    + rewrite IH.
      destruct (scanInTurn _ _ w1) as [more w2].
      unfold ret. now rewrite app_assoc.
Qed.

(** X15.  [ScanRepository] returns an error in three cases only: the
    name is not of the form owner/repo (nothing is logged then), the
    repository cannot be fetched, or the tree of the default branch
    ([main] when the repository names none) cannot be read.  Otherwise it
    returns results, whatever goes wrong with a file, with the listing of
    the branches or with another branch.  A deep scan starts as the plain
    scan does and goes on from the world the plain scan leaves: when the
    branches cannot be listed it logs a warning and returns the results
    of the plain scan; otherwise it scans every listed branch other than
    the default branch, in the order of the listing, and returns the
    results of the plain scan followed by the results of these branches,
    a branch that cannot be scanned being logged and adding nothing.
    The default branch is not scanned a second time. *)
Theorem repository_scan_fails_only_at_the_start
        (fuel : nat) (repo : string) (languages safeSpaces : list string)
        (deep : bool) (w : World) :
  let run := ScanRepository fuel repo languages safeSpaces deep w in
  match Split1 repo "/" with
  | [owner; repoName] =>
      match Repositories_Get owner repoName with
      | inl err =>
          fst run = Some (inl (Errorf "failed to get repository: %w" [AErr err]))
      | inr repository =>
          let defaultBranch :=
            if String.eqb (GitHubRepo.DefaultBranch repository) "" then "main"
            else GitHubRepo.DefaultBranch repository in
          match Git_GetTree owner repoName defaultBranch with
          | inl err =>
              fst run
              = Some (inl (Errorf "failed to scan default branch: %w"
                                  [AErr (Errorf "failed to get tree for branch %s: %w"
                                                [AStr defaultBranch; AErr err])]))
          | inr _ =>
              exists results w1,
              ScanRepository fuel repo languages safeSpaces false w
              = (Some (inr results), w1)
              /\ (fst run = None
                  /\ deep = true
                  /\ GitHubRepo.getBranches Repositories_ListBranches fuel owner
                                            repoName = None
                  \/ exists more, fst run = Some (inr (results ++ more)))
              /\ (if deep then
                    match GitHubRepo.getBranches Repositories_ListBranches fuel
                                                 owner repoName with
                    | None => run = (None, w1)
                    | Some (inl err) =>
                        run = (Some (inr results),
                               advance w1 0 0
                                 [EvLog WARN "Failed to get branches for deep scan: %v"
                                        [AErr err]])
                    | Some (inr branches) =>
                        run
                        = (let (more, w2) :=
                             scanInTurn
                               (fun branch =>
                                  scanBranch owner repoName branch languages safeSpaces)
                               (filter (fun branch =>
                                          negb (String.eqb branch defaultBranch))
                                       branches) w1 in
                           (Some (inr (results ++ more)), w2))
                    end
                  else run = (Some (inr results), w1))
          end
      end
  | _ =>
      run = (Some (inl (Errorf "invalid repository format: %s (expected owner/repo)"
                               [AStr repo])), w)
  end.
Proof.
  cbv zeta. unfold GitHubRepo.ScanRepository. cbv zeta.
  destruct (Split1 repo "/") as [|owner [|repoName [|extra parts]]];
    try reflexivity.
  unfold bind. rewrite log_advance.
  destruct (Repositories_Get owner repoName) as [err|repository]; [reflexivity | ].
  rewrite !log_advance, advance_advance.
  set (defaultBranch := if String.eqb (GitHubRepo.DefaultBranch repository) ""
                        then "main" else GitHubRepo.DefaultBranch repository).
  match goal with
  | |- context [GitHubRepo.scanBranch _ _ _ _ _ _ _ _ _ _ ?w0] => set (w1 := w0)
  end.
  pose proof (scanBranch_outcome owner repoName defaultBranch languages
                                 safeSpaces w1) as Hbranch.
  destruct (Git_GetTree owner repoName defaultBranch) as [err|entries].
  - rewrite Hbranch. reflexivity.
  - destruct Hbranch as [results Hresults].
    destruct (GitHubRepo.scanBranch _ _ _ _ _ _ _ _ _ _ w1) as [r w2].
    cbn [fst] in Hresults. subst r.
    exists results, w2. split; [reflexivity | ].
    destruct deep; [ | split; [right; exists []; now rewrite app_nil_r | reflexivity]].
    destruct (GitHubRepo.getBranches Repositories_ListBranches fuel owner repoName)
      as [[err|branches]|].
    + rewrite log_advance. split; [ | reflexivity].
      right. exists []. now rewrite app_nil_r.
    + rewrite scanBranches_inTurn.
      destruct (scanInTurn _ _ w2) as [more w3].
      split; [ | reflexivity]. right. now exists more.
    + split; [ | reflexivity]. left. now repeat split.
Qed.

End RepositoryScan.

Lemma lookupFile_removed (name : string) (fs : list (string * string)) :
  lookupFile name (filter (fun p => negb (String.eqb (fst p) name)) fs) = None.
Proof.
  induction fs as [|[n c] fs IH]; cbn [filter lookupFile fst]; [reflexivity | ].
  destruct (String.eqb n name) eqn:E; cbn [negb lookupFile]; [exact IH | ].
  now rewrite E.
Qed.

(** X16.  Once the GitHub client has written the content of a blob to a
    temporary file, the file is removed before [scanDependencyFile]
    returns, whether the resolver could read it or not and whatever the
    resolver did: removing it is the last thing that happens. *)
Theorem github_scan_removes_its_temporary_file
        (Verbose : bool)
        (GetResolverForLanguageWithVerbose : string -> bool -> error + Resolver)
        (Match : string -> string -> error + bool) (Base : string -> string)
        (owner repo : string) (file : GitHub.TreeEntry)
        (safeSpaces : list string) (w : World)
        (blob : Blob) (resolver : Resolver) (name : string) :
  gitBlobs w owner repo (GitHub.SHA file) = inr blob ->
  GitHub.getLanguageFromFile Base (GitHub.Path file) <> "" ->
  GetResolverForLanguageWithVerbose
    (GitHub.getLanguageFromFile Base (GitHub.Path file)) Verbose = inr resolver ->
  tempNames w (temps w) = inr name ->
  let w' := snd (GitHub.scanDependencyFile Verbose GetResolverForLanguageWithVerbose
                   Match Base owner repo file safeSpaces w) in
  lookupFile name (files w') = None
  /\ exists before, trace w' = before ++ [EvRemove name].
Proof.
  intros Hblob Hlang Hfactory Hname. cbv zeta.
  apply String.eqb_neq in Hlang.
  cbv beta iota zeta delta [GitHub.scanDependencyFile GitHub.getFileContent
                            GitHub.getResolverForLanguage Git_GetBlob
                            NewScanResult time_Now createTempFile bind ret].
  rewrite Hblob, Hlang, Hfactory, Hname.
  match goal with
  | |- context [readPackages resolver name ?w0] =>
      destruct (readPackages resolver name w0) as [[[err|] r] w1]
  end; cbn [fst snd].
  - split; [apply lookupFile_removed | eexists; reflexivity].
  - destruct (notInPublic r w1) as [found w2].
    destruct (GitHub.removeSafe Match found safeSpaces w2) as [kept w3].
    unfold Finalize, bind, time_Now, ret. cbn [fst snd os_Remove files trace].
    split; [apply lookupFile_removed | eexists; reflexivity].
Qed.

(** The blob of the example: the file written for it is gone when the
    scan of the entry returns. *)
Lemma github_scan_removes_its_temporary_file_witness :
  lookupFile "/tmp/confused-1.tmp"
             (files (snd (GitHub.scanDependencyFile false Examples.factory
                            Filepath.Match Filepath.Base "acme" "shop"
                            ExamplesScan.entry [] ExamplesScan.gitWorld)))
  = None.
Proof.
  refine (proj1 (@github_scan_removes_its_temporary_file
                   false Examples.factory Filepath.Match Filepath.Base
                   "acme" "shop" ExamplesScan.entry [] ExamplesScan.gitWorld
                   ExamplesScan.blob
                   (mkResolver Pip.resolver (Pip.NewPythonLookup false))
                   "/tmp/confused-1.tmp" eq_refl _ eq_refl eq_refl)).
  vm_compute. discriminate.
Defined.

(** X17.  The same for the web scanner: once it has written the body of
    a 200 answer to a temporary file with a name, the file is removed
    before [scanDependencyFile] returns, whether the resolver could read
    it or not. *)
Theorem web_scan_removes_its_temporary_file
        {URL : Type} {lib : Web.UrlLib URL}
        (GetResolverForLanguage : string -> error + Resolver)
        (Join : string -> string -> string) (Base : string -> string)
        (baseURL : URL) (filePath : string) (languages : list string) (w : World)
        (status content : string) (resolver : Resolver) (name : string) :
  net w (served w)
      (Web.URL_String (Web.withPath baseURL (Join (Web.Path baseURL) filePath)))
  = HttpResponse 200 status content ->
  Web.getLanguageFromFile Base filePath <> "" ->
  GetResolverForLanguage (Web.getLanguageFromFile Base filePath) = inr resolver ->
  tempNames w (temps w) = inr name ->
  name <> "" ->
  let w' := snd (Web.scanDependencyFile GetResolverForLanguage Join Base baseURL
                   filePath languages w) in
  lookupFile name (files w') = None
  /\ exists before, trace w' = before ++ [EvRemove name].
Proof.
  intros Hnet Hlang Hfactory Hname Hnamed. cbv zeta.
  apply String.eqb_neq in Hlang. apply String.eqb_neq in Hnamed.
  unfold Web.scanDependencyFile. cbv zeta. unfold bind.
  rewrite log_advance, http_Get_advance, advance_advance.
  rewrite net_advance, served_advance. cbn [Nat.add]. rewrite Hnet.
  cbn [Z.eqb Pos.eqb negb].
  rewrite Hlang.
  match goal with
  | |- context [advance w ?n ?dt ?evs] => set (w0 := advance w n dt evs)
  end.
  assert (Hname0 : tempNames w0 (temps w0) = inr name) by exact Hname.
  cbv beta iota zeta delta [NewScanResult time_Now createTempFile bind ret].
  rewrite Hfactory, Hname0.
  match goal with
  | |- context [readPackages resolver name ?w0] =>
      destruct (readPackages resolver name w0) as [[[err|] r] w1]
  end; cbn [fst snd].
  - rewrite log_advance, Hnamed. cbn [negb when os_Remove snd files trace advance].
    split; [apply lookupFile_removed | eexists; reflexivity].
  - destruct (notInPublic r w1) as [found w2].
    unfold Finalize, bind, time_Now, ret. rewrite Hnamed.
    cbn [negb when fst snd os_Remove files trace].
    split; [apply lookupFile_removed | eexists; reflexivity].
Qed.

(** The requirements file of the example host. *)
Lemma web_scan_removes_its_temporary_file_witness :
  lookupFile "/tmp/confused-1.tmp"
             (files (snd (Web.scanDependencyFile (urlLib := Web.simpleUrlLib)
                            Examples.factory' Filepath.Join Filepath.Base
                            (Web.mkURL "https" "example.com" "")
                            "requirements.txt" [] ExamplesScan.webWorld)))
  = None.
Proof.
  refine (proj1 (@web_scan_removes_its_temporary_file
                   Web.SimpleURL Web.simpleUrlLib
                   Examples.factory' Filepath.Join Filepath.Base
                   (Web.mkURL "https" "example.com" "")
                   "requirements.txt" [] ExamplesScan.webWorld
                   "200 OK" ExamplesScan.requirements
                   (mkResolver Pip.resolver (Pip.NewPythonLookup false))
                   "/tmp/confused-1.tmp" _ _ eq_refl eq_refl _)).
  - vm_compute. reflexivity.
  - vm_compute. discriminate.
  - discriminate.
Defined.

(* ===================================================================== *)
(** * Further properties of the web scanner                              *)
(* ===================================================================== *)

(** The paths of a language are the common paths that the table of
    languages by file name gives to that language. *)
Lemma language_paths_agree (lang : string) :
  match Web.languagePaths lang with
  | Some langPaths => langPaths
  | None => []
  end
  = filter (fun path => String.eqb (fileLanguageMap path) lang) Web.commonPaths.
Proof.
  unfold Web.languagePaths.
  destruct (String.eqb_spec lang "npm") as [->|Hnpm]; [reflexivity | ].
  destruct (String.eqb_spec lang "pip") as [->|Hpip]; [reflexivity | ].
  destruct (String.eqb_spec lang "composer") as [->|Hcomposer]; [reflexivity | ].
  destruct (String.eqb_spec lang "mvn") as [->|Hmvn]; [reflexivity | ].
  destruct (String.eqb_spec lang "rubygems") as [->|Hgems]; [reflexivity | ].
  unfold Web.commonPaths. cbn [filter].
  repeat match goal with
         | |- context [fileLanguageMap ?s] =>
             let v := eval vm_compute in (fileLanguageMap s) in
             change (fileLanguageMap s) with v
         end.
  assert (String.eqb "npm" lang = false) as -> by (apply String.eqb_neq; congruence).
  assert (String.eqb "pip" lang = false) as -> by (apply String.eqb_neq; congruence).
  assert (String.eqb "composer" lang = false) as ->
      by (apply String.eqb_neq; congruence).
  assert (String.eqb "mvn" lang = false) as -> by (apply String.eqb_neq; congruence).
  assert (String.eqb "rubygems" lang = false) as ->
      by (apply String.eqb_neq; congruence).
  reflexivity.
Qed.

Lemma collected_paths (languages acc : list string) :
  fold_left (fun paths lang =>
               match Web.languagePaths lang with
               | Some langPaths => paths ++ langPaths
               | None => paths
               end) languages acc
  = acc ++ flat_map (fun lang =>
                       filter (fun path => String.eqb (fileLanguageMap path) lang)
                              Web.commonPaths) languages.
Proof.
  revert acc. induction languages as [|lang rest IH]; intros acc;
    cbn [fold_left flat_map].
  - now rewrite app_nil_r.
  - rewrite IH, <- language_paths_agree.
    destruct (Web.languagePaths lang); [now rewrite app_assoc | reflexivity].
Qed.

(** X18.  The paths the web scanner probes: with no language given the
    thirteen common paths, otherwise for each language given, in the
    order given and as often as given, the common paths that
    [getLanguageFromFile] maps to that language.  So every probed path
    has a known language, which is one of those asked for, and a language
    the scanner does not know adds no path and no warning. *)
Theorem web_paths_follow_the_languages (languages : list string) :
  Web.getDependencyFilePaths languages
  = match languages with
    | [] => Web.commonPaths
    | _ => flat_map (fun lang =>
                       filter (fun path => String.eqb (fileLanguageMap path) lang)
                              Web.commonPaths) languages
    end
  /\ (forall path,
         In path (Web.getDependencyFilePaths languages) ->
         In path Web.commonPaths
         /\ fileLanguageMap path <> ""
         /\ (languages <> [] -> In (fileLanguageMap path) languages)).
Proof.
  assert (Hpaths :
    Web.getDependencyFilePaths languages
    = match languages with
      | [] => Web.commonPaths
      | _ => flat_map (fun lang =>
                         filter (fun path => String.eqb (fileLanguageMap path) lang)
                                Web.commonPaths) languages
      end).
  { unfold Web.getDependencyFilePaths. destruct languages as [|lang rest];
      [reflexivity | ].
    replace (0 <? Z.of_nat (length (lang :: rest))) with true
      by (symmetry; apply Z.ltb_lt; cbn [length]; lia).
    now rewrite collected_paths. }
  split; [exact Hpaths | ].
  assert (Hknown : forall path, In path Web.commonPaths -> fileLanguageMap path <> "").
  { intros path Hin. unfold Web.commonPaths in Hin. cbn [In] in Hin.
    repeat (destruct Hin as [<- | Hin]; [vm_compute; discriminate | ]).
    contradiction. }
  intros path. rewrite Hpaths. destruct languages as [|lang rest].
  - intros Hin. split; [assumption | ]. split; [now apply Hknown | ].
    intros H. now destruct H.
  - intros Hin. apply in_flat_map in Hin as (l & Hl & Hin).
    apply filter_In in Hin as [Hcommon Heq]. apply String.eqb_eq in Heq.
    split; [assumption | ]. split; [now apply Hknown | ].
    intros _. now rewrite Heq.
Qed.

Section WebScan.

Context {URL : Type} {lib : Web.UrlLib URL}.
Variable GetResolverForLanguage : string -> error + Resolver.
Variable Join : string -> string -> string.
Variable Base : string -> string.

Local Abbreviation scanDependencyFile :=
  (Web.scanDependencyFile GetResolverForLanguage Join Base).
Local Abbreviation scanPaths := (Web.scanPaths GetResolverForLanguage Join Base).
Local Abbreviation scanDirectoryLoop :=
  (Web.scanDirectoryLoop GetResolverForLanguage Join Base).
Local Abbreviation deepScanLoop :=
  (Web.deepScanLoop GetResolverForLanguage Join Base).
Local Abbreviation ScanTarget := (Web.ScanTarget GetResolverForLanguage Join Base).

(** A path that cannot be scanned is logged and skipped. *)
Lemma scanPaths_appends (u : URL) (languages filePaths : list string) :
  forall results w,
  exists more, fst (scanPaths u languages filePaths results w) = results ++ more.
Proof.
  induction filePaths as [|filePath rest IH]; intros results w;
    cbn [Web.scanPaths].
  - exists []. unfold ret. cbn [fst]. now rewrite app_nil_r.
  - unfold bind.
    destruct (Web.scanDependencyFile _ _ _ u filePath languages w)
      as [[err|result] w1].
    + rewrite log_advance. apply IH.
    + destruct (IH (results ++ [result]) w1) as [more E].
      exists (result :: more). rewrite E, <- app_assoc. reflexivity.
Qed.

(** A path below a directory that cannot be scanned is skipped. *)
Lemma scanDirectoryLoop_appends (u : URL) (dir : string)
      (languages filePaths : list string) :
  forall results w,
  exists more,
    fst (scanDirectoryLoop u dir languages filePaths results w) = results ++ more.
Proof.
  induction filePaths as [|filePath rest IH]; intros results w;
    cbn [Web.scanDirectoryLoop].
  - exists []. unfold ret. cbn [fst]. now rewrite app_nil_r.
  - cbv zeta. unfold bind.
    destruct (Web.scanDependencyFile _ _ _ u (Join dir filePath) languages w)
      as [[err|result] w1].
    + apply IH.
    + destruct (IH (results ++ [result]) w1) as [more E].
      exists (result :: more). rewrite E, <- app_assoc. reflexivity.
Qed.

(** X19.  [ScanTarget] returns an error only when the target, with
    [https://] put before it if it names no scheme, cannot be parsed as a
    URL; nothing is requested or logged then.  For a target that parses
    it returns results, whatever the host answers and whatever goes wrong
    with a file, and a deep scan returns the results of the plain scan
    followed by those of the directories.  A target without a scheme is
    scanned as the same target with [https://] before it. *)
Theorem web_scan_fails_only_for_an_unparsable_target
        (target : string) (languages : list string) (deep : bool)
        (maxDepth : Z) (w : World) :
  let run := ScanTarget target languages deep maxDepth w in
  match Web.url_Parse (normalised target) with
  | inl err => run = (inl (Errorf "invalid URL: %w" [AErr err]), w)
  | inr u =>
      exists results,
      fst (ScanTarget target languages false maxDepth w) = inr results
      /\ exists more, fst run = inr (results ++ more)
  end
  /\ (HasPrefix target "http://" = false ->
      HasPrefix target "https://" = false ->
      run = ScanTarget ("https://" ++ target) languages deep maxDepth w).
Proof.
  cbv zeta. split.
  - unfold Web.ScanTarget. cbv zeta. fold (normalised target).
    destruct (Web.url_Parse (normalised target)) as [err|u]; [reflexivity | ].
    unfold bind. rewrite log_advance.
    match goal with
    | |- context [Web.scanPaths _ _ _ u languages ?paths [] ?w0] =>
        destruct (Web.scanPaths GetResolverForLanguage Join Base u languages paths
                                [] w0) as [results w1]
    end.
    exists results. split; [reflexivity | ].
    destruct deep; [ | exists []; now rewrite app_nil_r].
    unfold Web.deepScan, bind.
    destruct (Web.deepScanLoop _ _ _ u languages Web.commonDirs [] w1)
      as [deepResults w2].
    cbn [ret fst]. now exists deepResults.
  - intros Hhttp Hhttps. unfold Web.ScanTarget. cbv zeta.
    rewrite Hhttp, Hhttps. cbn [negb andb].
    replace (HasPrefix ("https://" ++ target) "https://") with true
      by (destruct target; reflexivity).
    now rewrite andb_false_r.
Qed.

(** One probe of a host that does not answer 200: the request is made,
    nothing is written, and the path is given up. *)
Lemma probe_not_200 (u : URL) (filePath : string) (languages : list string)
      (w : World) :
  is200 (net w (served w)
             (Web.URL_String (Web.withPath u (Join (Web.Path u) filePath))))
  = false ->
  exists err,
    scanDependencyFile u filePath languages w
    = (inl err,
       advance w 1
               (rtt w (served w)
                    (Web.URL_String (Web.withPath u (Join (Web.Path u) filePath))))
               [EvLog DEBUG "Checking: %s"
                      [AStr (Web.URL_String
                               (Web.withPath u (Join (Web.Path u) filePath)))];
                probe Join u filePath]).
Proof.
  intros Hnot. unfold Web.scanDependencyFile. cbv zeta. unfold bind.
  rewrite log_advance, http_Get_advance, advance_advance.
  rewrite net_advance, rtt_advance, served_advance. cbn [Nat.add].
  destruct (net w (served w) _) as [err|code st body].
  - eexists. unfold ret. apply f_equal. apply advance_ext; [lia | lia | reflexivity].
  - cbn [is200] in Hnot. rewrite Hnot. cbn [negb].
    eexists. unfold ret. apply f_equal. apply advance_ext; [lia | lia | reflexivity].
Qed.

Lemma scanPaths_not_200 (u : URL) (languages filePaths : list string) :
  forall results w,
  (forall n url, is200 (net w n url) = false) ->
  exists dt evs,
    scanPaths u languages filePaths results w
    = (results, advance w (length filePaths) dt evs)
    /\ gets evs = map (probe Join u) filePaths
    /\ sleeps evs = [].
Proof.
  induction filePaths as [|filePath rest IH]; intros results w Hnot;
    cbn [Web.scanPaths].
  - exists 0, []. unfold ret. rewrite advance_nothing. now repeat split.
  - unfold bind.
    destruct (probe_not_200 u filePath languages w (Hnot _ _)) as [err ->].
    rewrite log_advance, advance_advance.
    edestruct (IH results) as (dt & evs & -> & Hg & Hs);
      [intros n url; rewrite net_advance; apply Hnot | ].
    rewrite advance_advance. eexists _, _. split; [ | split].
    + apply f_equal. apply advance_ext; [cbn [length]; lia | reflexivity | reflexivity].
    + rewrite gets_app, Hg. reflexivity.
    + rewrite sleeps_app, Hs. reflexivity.
Qed.

Lemma scanDirectoryLoop_not_200 (u : URL) (dir : string)
      (languages filePaths : list string) :
  forall results w,
  (forall n url, is200 (net w n url) = false) ->
  exists dt evs,
    scanDirectoryLoop u dir languages filePaths results w
    = (results, advance w (length filePaths) dt evs)
    /\ gets evs = map (probe Join u) (map (Join dir) filePaths)
    /\ sleeps evs = [].
Proof.
  induction filePaths as [|filePath rest IH]; intros results w Hnot;
    cbn [Web.scanDirectoryLoop].
  - exists 0, []. unfold ret. rewrite advance_nothing. now repeat split.
  - cbv zeta. unfold bind.
    destruct (probe_not_200 u (Join dir filePath) languages w (Hnot _ _))
      as [err ->].
    edestruct (IH results) as (dt & evs & -> & Hg & Hs);
      [intros n url; rewrite net_advance; apply Hnot | ].
    rewrite advance_advance. eexists _, _. split; [ | split].
    + apply f_equal. apply advance_ext; [cbn [length]; lia | reflexivity | reflexivity].
    + rewrite gets_app, Hg. reflexivity.
    + rewrite sleeps_app, Hs. reflexivity.
Qed.

Lemma deepScanLoop_not_200 (u : URL) (languages dirs : list string) :
  forall results w,
  (forall n url, is200 (net w n url) = false) ->
  exists dt evs,
    deepScanLoop u languages dirs results w
    = (results,
       advance w (length dirs * length (Web.getDependencyFilePaths languages)) dt evs)
    /\ gets evs
       = map (probe Join u)
             (flat_map (fun dir => map (Join dir)
                                       (Web.getDependencyFilePaths languages)) dirs)
    /\ sleeps evs = [].
Proof.
  induction dirs as [|dir rest IH]; intros results w Hnot;
    cbn [Web.deepScanLoop].
  - exists 0, []. unfold ret. cbn [length Nat.mul]. rewrite advance_nothing.
    now repeat split.
  - unfold Web.scanDirectory, bind. cbv zeta.
    destruct (scanDirectoryLoop_not_200 u dir languages
                (Web.getDependencyFilePaths languages) [] w Hnot)
      as (dt1 & evs1 & -> & Hg1 & Hs1).
    unfold ret. rewrite app_nil_r.
    edestruct (IH results) as (dt & evs & -> & Hg & Hs);
      [intros n url; rewrite net_advance; apply Hnot | ].
    rewrite advance_advance. eexists _, _. split; [ | split].
    + apply f_equal. apply advance_ext; [cbn [length Nat.mul]; lia | reflexivity | reflexivity].
    + rewrite gets_app, Hg, Hg1. cbn [flat_map]. now rewrite map_app.
    + rewrite sleeps_app, Hs, Hs1. reflexivity.
Qed.

(** X20.  On a host that answers no request with status 200, a scan of a
    target that parses sends one request for each path of
    [getDependencyFilePaths], in order, and for a deep scan then one for
    each of these file names below each of the eleven common
    directories, and nothing else: it returns no result and no error,
    does not wait, and writes no file. *)
Theorem web_scan_of_a_host_without_files
        (target : string) (languages : list string) (deep : bool)
        (maxDepth : Z) (w : World) (u : URL) :
  Web.url_Parse (normalised target) = inr u ->
  (forall n url, is200 (net w n url) = false) ->
  let run := ScanTarget target languages deep maxDepth w in
  let paths := Web.getDependencyFilePaths languages in
  let probed := paths ++ (if deep then deepPaths Join paths else []) in
  fst run = inr []
  /\ gets (since w (snd run)) = map (probe Join u) probed
  /\ sleeps (since w (snd run)) = []
  /\ served (snd run) = (length probed + served w)%nat
  /\ files (snd run) = files w
  /\ temps (snd run) = temps w.
Proof.
  intros Hparse Hnot. cbv zeta.
  unfold Web.ScanTarget. cbv zeta. fold (normalised target). rewrite Hparse.
  unfold bind. rewrite log_advance.
  edestruct (scanPaths_not_200 u languages (Web.getDependencyFilePaths languages) [])
    as (dt & evs & -> & Hg & Hs);
    [intros n url; rewrite net_advance; apply Hnot | ].
  rewrite advance_advance.
  destruct deep.
  - unfold Web.deepScan, bind.
    edestruct (deepScanLoop_not_200 u languages Web.commonDirs [])
      as (dt' & evs' & -> & Hg' & Hs');
      [intros n url; rewrite net_advance; apply Hnot | ].
    rewrite advance_advance. unfold ret. cbn [fst snd].
    rewrite since_advance, served_advance, !gets_app, !sleeps_app, Hg, Hs, Hg', Hs'.
    unfold deepPaths. rewrite map_app, length_app.
    rewrite (flat_map_constant_length
               (fun dir => map (Join dir) (Web.getDependencyFilePaths languages))
               Web.commonDirs
               (c := length (Web.getDependencyFilePaths languages)))
      by (intros dir _; apply length_map).
    repeat split. lia.
  - unfold ret. cbn [fst snd].
    rewrite since_advance, served_advance, !gets_app, !sleeps_app, Hg, Hs, !app_nil_r.
    repeat split. lia.
Qed.

End WebScan.

(** example.com without any of the files, asked for pip: four requests. *)
Lemma web_scan_of_a_host_without_files_witness :
  gets (since ExamplesWeb.bare
              (snd (Web.ScanTarget (urlLib := Web.simpleUrlLib) Examples.factory'
                      ExamplesWeb.join Filepath.Base "example.com" ["pip"] false 3
                      ExamplesWeb.bare)))
  = [ EvGet "https://example.com/requirements.txt";
      EvGet "https://example.com/requirements-dev.txt";
      EvGet "https://example.com/setup.py";
      EvGet "https://example.com/pyproject.toml" ].
Proof.
  refine (eq_trans
            (proj1 (proj2 (@web_scan_of_a_host_without_files
                             Web.SimpleURL Web.simpleUrlLib Examples.factory'
                             ExamplesWeb.join Filepath.Base "example.com" ["pip"]
                             false 3 ExamplesWeb.bare
                             (Web.mkURL "https" "example.com" "")
                             eq_refl (fun n url => eq_refl))))
            _).
  vm_compute. reflexivity.
Defined.

(* ===================================================================== *)
(** * Further properties of the package details                          *)
(* ===================================================================== *)

Lemma pip_details_loop (p : Pip.PythonLookup) (pkgs : list string) :
  forall details notavail w,
  map Details.Name (filter Details.Vulnerable details) = notavail ->
  let d := Details.pipBuildLoop p pkgs details w in
  let r := Pip.notInPublic p pkgs notavail w in
  snd d = snd r
  /\ map Details.Name (filter Details.Vulnerable (fst d)) = fst r
  /\ map Details.Name (fst d) = map Details.Name details ++ pkgs.
Proof.
  induction pkgs as [|pkg rest IH]; intros details notavail w Hacc;
    cbn [Details.pipBuildLoop Pip.notInPublic].
  - cbv zeta. unfold ret. cbn [fst snd]. now rewrite app_nil_r.
  - cbv zeta. unfold bind.
    destruct (Pip.isAvailableInPublic p pkg w) as [ok w1].
    match goal with
    | |- context [Details.pipBuildLoop p rest ?ds w1] =>
        match goal with
        | |- context [Pip.notInPublic p rest ?na w1] =>
            destruct (IH ds na w1) as (Hw & Hv & Hn)
        end
    end.
    + rewrite filter_app, map_app, Hacc. destruct ok; cbn; [now rewrite app_nil_r | reflexivity].
    + cbv zeta in Hw, Hv, Hn. rewrite Hw, Hv, Hn, map_app, <- app_assoc.
      destruct ok; now repeat split.
Qed.

Lemma mvn_details_loop (NotAvailable : string -> bool) (m : Mvn.MVNLookup)
      (pkgs : list Mvn.MVNPackage) :
  forall details notavail flagged w,
  map Details.Name (filter Details.Vulnerable details)
  = map (fun pkg => Mvn.Group pkg ++ ":" ++ Mvn.Artifact pkg)%string flagged ->
  notavail = map Mvn.ident flagged ->
  let d := Details.mvnBuildLoop NotAvailable m pkgs details w in
  let r := Mvn.notInPublic NotAvailable m pkgs notavail w in
  snd d = snd r
  /\ length (fst d) = (length details + length pkgs)%nat
  /\ exists flagged',
       fst r = map Mvn.ident flagged'
       /\ map Details.Name (filter Details.Vulnerable (fst d))
          = map (fun pkg => Mvn.Group pkg ++ ":" ++ Mvn.Artifact pkg)%string flagged'.
Proof.
  induction pkgs as [|pkg rest IH]; intros details notavail flagged w Hacc Hna;
    cbn [Details.mvnBuildLoop Mvn.notInPublic].
  - cbv zeta. unfold ret. cbn [fst snd]. split; [reflexivity | ].
    split; [cbn [length]; lia | ]. now exists flagged.
  - cbv zeta. unfold bind.
    destruct (Mvn.isAvailableInPublic NotAvailable m pkg 0 w) as [ok w1].
    match goal with
    | |- context [Details.mvnBuildLoop NotAvailable m rest ?ds w1] =>
        match goal with
        | |- context [Mvn.notInPublic NotAvailable m rest ?na w1] =>
            destruct (IH ds na (if negb ok then flagged ++ [pkg] else flagged) w1)
              as (Hw & Hl & Hf)
        end
    end.
    + rewrite filter_app, map_app, Hacc.
      destruct ok; cbn; [now rewrite app_nil_r | now rewrite map_app].
    + rewrite Hna. destruct ok; cbn [negb]; [reflexivity | ].
      now rewrite map_app.
    + cbv zeta in Hw, Hl, Hf. split; [exact Hw | ].
      split; [ | exact Hf]. rewrite Hl, length_app. cbn [length]. lia.
Qed.

Lemma composer_details_loop (lowerCase : Z -> Z) (c : Composer.ComposerLookup)
      (pkgs : list Composer.ComposerPackage) :
  (forall pkg, In pkg pkgs -> isReference lowerCase (Composer.Version pkg) = false) ->
  forall details notavail w,
  map Details.Name (filter Details.Vulnerable details) = notavail ->
  let d := Details.composerBuildLoop c pkgs details w in
  let r := Composer.notInPublic lowerCase c pkgs notavail w in
  snd d = snd r
  /\ map Details.Name (filter Details.Vulnerable (fst d)) = fst r.
Proof.
  induction pkgs as [|pkg rest IH]; intros Hreg details notavail w Hacc;
    cbn [Details.composerBuildLoop Composer.notInPublic].
  - cbv zeta. unfold ret. cbn [fst snd]. now split.
  - cbv zeta. fold (isReference lowerCase (Composer.Version pkg)).
    rewrite (Hreg pkg) by now left. unfold bind.
    destruct (Composer.isAvailableInPublic c (Composer.Name pkg) 0 w) as [ok w1].
    apply IH; [intros q Hq; apply Hreg; now right | ].
    rewrite filter_app, map_app, Hacc.
    destruct ok; cbn; [now rewrite app_nil_r | reflexivity].
Qed.

(** X21.  The details and the plain list agree on which packages are
    missing.  Started in the same world, [buildPackageDetails] and
    [PackagesNotInPublic] make the same requests and end in the same
    world, and the packages marked vulnerable in the details are the
    packages of the list, in the same order: for pip always, for composer
    when no package is a local, URL or git reference, and for maven with
    the names written differently, group:artifact in the details and
    group/artifact in the list. *)
Theorem details_mark_the_packages_not_in_public
        (lowerCase : Z -> Z) (NotAvailable : string -> bool) (w : World) :
  (forall p,
      let d := Details.pipBuildPackageDetails p w in
      let r := Pip.PackagesNotInPublic p w in
      snd d = snd r
      /\ map Details.Name (filter Details.Vulnerable (fst d)) = fst r
      /\ map Details.Name (fst d) = Pip.Packages p)
  /\ (forall c,
      (forall pkg, In pkg (Composer.Packages c) ->
                   isReference lowerCase (Composer.Version pkg) = false) ->
      let d := Details.composerBuildPackageDetails c w in
      let r := Composer.PackagesNotInPublic lowerCase c w in
      snd d = snd r
      /\ map Details.Name (filter Details.Vulnerable (fst d)) = fst r)
  /\ (forall m,
      let d := Details.mvnBuildPackageDetails NotAvailable m w in
      let r := Mvn.PackagesNotInPublic NotAvailable m w in
      snd d = snd r
      /\ length (fst d) = length (Mvn.Packages m)
      /\ exists flagged,
           fst r = map (fun pkg => Mvn.Group pkg ++ "/" ++ Mvn.Artifact pkg)%string
                       flagged
           /\ map Details.Name (filter Details.Vulnerable (fst d))
              = map (fun pkg => Mvn.Group pkg ++ ":" ++ Mvn.Artifact pkg)%string
                    flagged).
Proof.
  split; [ | split].
  - intros p. exact (pip_details_loop p (Pip.Packages p) [] w eq_refl).
  - intros c Hreg.
    exact (composer_details_loop lowerCase c (Composer.Packages c) Hreg [] w
                                 eq_refl).
  - intros m.
    exact (mvn_details_loop NotAvailable m (Mvn.Packages m) [] [] w eq_refl eq_refl).
Qed.

(** The lookup with one package from the registry, on a registry that
    knows nothing. *)
Lemma details_mark_the_packages_not_in_public_witness :
  map Details.Name
      (filter Details.Vulnerable
              (fst (Details.composerBuildPackageDetails
                      ExamplesDetails.registryOnly ExamplesWeb.bare)))
  = fst (Composer.PackagesNotInPublic Examples.lowerCase
                                      ExamplesDetails.registryOnly ExamplesWeb.bare).
Proof.
  refine (proj2 (proj1 (proj2 (details_mark_the_packages_not_in_public
                                 Examples.lowerCase
                                 Examples.published ExamplesWeb.bare))
                       ExamplesDetails.registryOnly _)).
  intros pkg [<- | []]. vm_compute. reflexivity.
Defined.

(** A composer check below the retry cap asks the registry at least
    once. *)
Lemma composer_check_asks (c : Composer.ComposerLookup) (name : string) (w : World) :
  exists b n dt evs,
    Composer.isAvailableInPublic c name 0 w = (b, advance w n dt evs)
    /\ In (EvGet (Composer.url name)) evs.
Proof.
  rewrite ComposerRun.composer_run_attempt by lia. cbv zeta.
  destruct (net w (served w) (Composer.url name)) as [err|code st body].
  - rewrite advance_advance. eexists _, _, _, _. split; [reflexivity | ].
    rewrite !in_app_iff. cbn [In]. auto 10.
  - destruct (code =? 200).
    { rewrite advance_advance. eexists _, _, _, _. split; [reflexivity | ].
      rewrite !in_app_iff. cbn [In]. auto 10. }
    destruct (code =? 429).
    2:{ rewrite advance_advance. eexists _, _, _, _. split; [reflexivity | ].
        rewrite !in_app_iff. cbn [In]. auto 10. }
    rewrite !advance_advance.
    match goal with
    | |- context [Composer.isAvailableInPublic c name (0 + 1) ?w0] =>
        destruct (ComposerRun.composer_run_summary (k := retriesLeft (0 + 1)) c name
                    (0 + 1) w0 (le_n _)) as (b & n & m & dt & evs & E & _)
    end.
    rewrite E, advance_advance. eexists _, _, _, _. split; [reflexivity | ].
    rewrite !in_app_iff. cbn [In]. auto 10.
Qed.

Lemma composer_details_ask (c : Composer.ComposerLookup)
      (pkgs : list Composer.ComposerPackage) :
  forall details w,
  exists built n dt evs,
    Details.composerBuildLoop c pkgs details w
    = (details ++ built, advance w n dt evs)
    /\ map Details.Name built = map Composer.Name pkgs
    /\ map Details.Version built = map Composer.Version pkgs
    /\ forall pkg, In pkg pkgs -> In (EvGet (Composer.url (Composer.Name pkg))) evs.
Proof.
  induction pkgs as [|pkg rest IH]; intros details w;
    cbn [Details.composerBuildLoop].
  - exists [], 0%nat, 0, []. unfold ret. rewrite app_nil_r, advance_nothing.
    repeat split. intros pkg [].
  - cbv zeta. unfold bind.
    destruct (composer_check_asks c (Composer.Name pkg) w)
      as (ok & n1 & dt1 & evs1 & -> & Hin1).
    match goal with
    | |- context [Details.composerBuildLoop c rest (details ++ [?d]) ?w0] =>
        destruct (IH (details ++ [d]) w0) as (built & n & dt & evs & -> & Hn & Hv & Hin);
        exists (d :: built)
    end.
    rewrite advance_advance, <- app_assoc. eexists _, _, _.
    split; [reflexivity | ]. split; [ | split].
    + cbn [map]. rewrite Hn. destruct ok; reflexivity.
    + cbn [map]. rewrite Hv. destruct ok; reflexivity.
    + intros q [<- | Hq]; apply in_or_app; [now left | right; now apply Hin].
Qed.

(** X22.  The details of the composer resolver leave no package out:
    there is one detail per package, in order, with the package's name
    and version, and the registry is asked for every package, also for
    one whose version is a local path, a URL or a git reference, which
    [PackagesNotInPublic] skips. *)
Theorem composer_details_check_every_package
        (c : Composer.ComposerLookup) (w : World) :
  let d := Details.composerBuildPackageDetails c w in
  map Details.Name (fst d) = map Composer.Name (Composer.Packages c)
  /\ map Details.Version (fst d) = map Composer.Version (Composer.Packages c)
  /\ forall pkg,
       In pkg (Composer.Packages c) ->
       In (EvGet (Composer.url (Composer.Name pkg))) (gets (since w (snd d))).
Proof.
  cbv zeta. unfold Details.composerBuildPackageDetails.
  destruct (composer_details_ask c (Composer.Packages c) [] w)
    as (built & n & dt & evs & -> & Hn & Hv & Hin).
  cbn [fst snd app]. rewrite since_advance.
  split; [exact Hn | ]. split; [exact Hv | ].
  intros pkg Hpkg. apply filter_In. split; [now apply Hin | reflexivity].
Qed.

(** The lookup of scenario B: the local package is asked for when the
    details are built. *)
Lemma composer_details_check_every_package_witness :
  In (EvGet "https://packagist.org/packages/internal/php-package.json")
     (gets (since ExamplesWeb.bare
                  (snd (Details.composerBuildPackageDetails
                          ExamplesDetails.composerLookup ExamplesWeb.bare)))).
Proof.
  apply (proj2 (proj2 (composer_details_check_every_package
                         ExamplesDetails.composerLookup ExamplesWeb.bare))
               (Composer.mkComposerPackage "internal/php-package" "file:./local")).
  right. now left.
Defined.

Lemma pip_details_length (p : Pip.PythonLookup) (pkgs : list string) :
  forall details w,
  length (fst (Details.pipBuildLoop p pkgs details w))
  = (length details + length pkgs)%nat.
Proof.
  intros details w.
  destruct (pip_details_loop p pkgs details w eq_refl) as (_ & _ & Hn).
  cbv zeta in Hn. apply (f_equal (@length string)) in Hn.
  now rewrite length_app, !length_map in Hn.
Qed.

Lemma composer_details_length (c : Composer.ComposerLookup)
      (pkgs : list Composer.ComposerPackage) :
  forall details w,
  length (fst (Details.composerBuildLoop c pkgs details w))
  = (length details + length pkgs)%nat.
Proof.
  intros details w.
  destruct (composer_details_ask c pkgs details w)
    as (built & n & dt & evs & -> & Hn & _).
  cbn [fst]. apply (f_equal (@length string)) in Hn.
  rewrite !length_map in Hn. rewrite length_app. lia.
Qed.

Lemma cached_or_empty (A : Type) (l : list A) :
  (Z.of_nat (length l) =? 0) = match l with [] => true | _ => false end.
Proof. destruct l; reflexivity. Qed.

(** X23.  [GetPackageDetails] builds the details once.  A second call
    returns the list of the first and asks the registry nothing; and
    once details for at least one package are there they are returned as
    they are, whatever packages the resolver holds by then. *)
Theorem package_details_are_built_once (NotAvailable : string -> bool) (w : World) :
  (forall p,
      let r := Details.pipGetPackageDetails p [] w in
      Details.pipGetPackageDetails p (fst r) (snd r) = r
      /\ forall p', Pip.Packages p <> [] ->
                    Details.pipGetPackageDetails p' (fst r) (snd r) = r)
  /\ (forall c,
      let r := Details.composerGetPackageDetails c [] w in
      Details.composerGetPackageDetails c (fst r) (snd r) = r
      /\ forall c', Composer.Packages c <> [] ->
                    Details.composerGetPackageDetails c' (fst r) (snd r) = r)
  /\ (forall m,
      let r := Details.mvnGetPackageDetails NotAvailable m [] w in
      Details.mvnGetPackageDetails NotAvailable m (fst r) (snd r) = r
      /\ forall m', Mvn.Packages m <> [] ->
                    Details.mvnGetPackageDetails NotAvailable m' (fst r) (snd r) = r).
Proof.
  split; [ | split].
  - intros p. cbv zeta.
    change (Details.pipGetPackageDetails p [] w)
      with (Details.pipBuildLoop p (Pip.Packages p) [] w).
    pose proof (pip_details_length p (Pip.Packages p) [] w) as Hlen.
    destruct (Details.pipBuildLoop p (Pip.Packages p) [] w) as [details w1].
    cbn [fst snd length Nat.add] in *.
    unfold Details.pipGetPackageDetails, Details.pipBuildPackageDetails.
    rewrite cached_or_empty. split.
    + destruct details as [|d ds]; [ | reflexivity].
      destruct (Pip.Packages p); [reflexivity | discriminate Hlen].
    + intros p' Hne. destruct details as [|d ds]; [ | reflexivity].
      destruct (Pip.Packages p); [now destruct Hne | discriminate Hlen].
  - intros c. cbv zeta.
    change (Details.composerGetPackageDetails c [] w)
      with (Details.composerBuildLoop c (Composer.Packages c) [] w).
    pose proof (composer_details_length c (Composer.Packages c) [] w) as Hlen.
    destruct (Details.composerBuildLoop c (Composer.Packages c) [] w)
      as [details w1].
    cbn [fst snd length Nat.add] in *.
    unfold Details.composerGetPackageDetails, Details.composerBuildPackageDetails.
    rewrite cached_or_empty. split.
    + destruct details as [|d ds]; [ | reflexivity].
      destruct (Composer.Packages c); [reflexivity | discriminate Hlen].
    + intros c' Hne. destruct details as [|d ds]; [ | reflexivity].
      destruct (Composer.Packages c); [now destruct Hne | discriminate Hlen].
  - intros m. cbv zeta.
    change (Details.mvnGetPackageDetails NotAvailable m [] w)
      with (Details.mvnBuildLoop NotAvailable m (Mvn.Packages m) [] w).
    destruct (mvn_details_loop NotAvailable m (Mvn.Packages m) [] [] w
                               eq_refl eq_refl) as (_ & Hlen & _).
    cbv zeta in Hlen.
    destruct (Details.mvnBuildLoop NotAvailable m (Mvn.Packages m) [] w)
      as [details w1].
    cbn [fst snd length Nat.add] in *.
    unfold Details.mvnGetPackageDetails, Details.mvnBuildPackageDetails.
    rewrite cached_or_empty. split.
    + destruct details as [|d ds]; [ | reflexivity].
      destruct (Mvn.Packages m); [reflexivity | discriminate Hlen].
    + intros m' Hne. destruct details as [|d ds]; [ | reflexivity].
      destruct (Mvn.Packages m); [now destruct Hne | discriminate Hlen].
Qed.

(** The details of the two requirements of the example, asked for twice:
    the second call costs no request. *)
Lemma package_details_are_built_once_witness :
  let r := Details.pipGetPackageDetails ExamplesDetails.pipLookup []
                                        ExamplesScan.fileWorld in
  Details.pipGetPackageDetails (Pip.NewPythonLookup false) (fst r) (snd r) = r.
Proof.
  refine (proj2 (proj1 (package_details_are_built_once Examples.published
                          ExamplesScan.fileWorld) ExamplesDetails.pipLookup)
                (Pip.NewPythonLookup false) _).
  discriminate.
Defined.

(* ===================================================================== *)
(** * The scan of a requirements file, from the file to the report       *)
(* ===================================================================== *)

Lemma printResult_lines (pkgs : list string) :
  forall (m : M unit) evs0,
  (forall w, m w = (tt, advance w 0 0 evs0)) ->
  forall w,
  fold_left (fun acc pkg => acc ;; log WARN " [!] %s" [AStr pkg]) pkgs m w
  = (tt, advance w 0 0
              (evs0 ++ map (fun pkg => EvLog WARN " [!] %s" [AStr pkg]) pkgs)).
Proof.
  induction pkgs as [|pkg rest IH]; intros m evs0 Hm w; cbn [fold_left map].
  - now rewrite app_nil_r.
  - rewrite (IH _ (evs0 ++ [EvLog WARN " [!] %s" [AStr pkg]])).
    + now rewrite <- app_assoc.
    + intros w0. unfold bind. rewrite Hm, log_advance, advance_advance. reflexivity.
Qed.

Lemma printResult_advance (result : ScanResult) (w : World) :
  Cmd.printResult result w = (tt, advance w 0 0 (printed result)).
Proof.
  unfold Cmd.printResult, printed. destruct (negb (IsVulnerable result)).
  - unfold bind. rewrite !log_advance, advance_advance. reflexivity.
  - unfold bind. rewrite log_advance.
    rewrite (@printResult_lines (Vulnerable result) (ret tt) [])
      by (intros w0; unfold ret; now rewrite advance_nothing).
    rewrite advance_advance. reflexivity.
Qed.

Lemma no_package_line_among_warnings (Match : string -> string -> error + bool)
      (safeSpaces packages : list string) :
  filter isPackageLine (flat_map (malformedWarnings Match safeSpaces) packages) = [].
Proof.
  induction packages as [|pkg rest IH]; cbn [flat_map]; [reflexivity | ].
  rewrite filter_app, IH, app_nil_r. clear.
  induction safeSpaces as [|p ps IH]; cbn [malformedWarnings]; [reflexivity | ].
  destruct (Match p pkg) as [err|ok]; [exact IH | ].
  destruct ok; [reflexivity | exact IH].
Qed.

Lemma package_lines_printed (result : ScanResult) :
  filter isPackageLine (printed result)
  = map (fun pkg => EvLog WARN " [!] %s" [AStr pkg]) (Vulnerable result).
Proof.
  unfold printed, IsVulnerable.
  destruct (Vulnerable result) as [|pkg rest] eqn:E; [reflexivity | ].
  replace (negb (0 <? Z.of_nat (length (pkg :: rest)))) with false
    by (symmetry; apply negb_false_iff, Z.ltb_lt; cbn [length]; lia).
  cbn [filter isPackageLine]. generalize (pkg :: rest). intros l.
  induction l as [|q l IH]; cbn [map filter isPackageLine]; [reflexivity | ].
  replace (String.eqb " [!] %s" " [!] %s") with true by reflexivity.
  now rewrite IH.
Qed.

Lemma removeSafe_warnings_quiet (Match : string -> string -> error + bool)
      (safeSpaces packages : list string) :
  let warnings :=
    match safeSpaces with
    | [] => []
    | _ => flat_map (malformedWarnings Match safeSpaces) packages
    end in
  filter isGet warnings = [] /\ filter isSleep warnings = []
  /\ filter isPackageLine warnings = [].
Proof.
  cbv zeta. destruct safeSpaces as [|p ps]; [now repeat split | ].
  destruct (gets_all_malformedWarnings Match (p :: ps) packages) as [Hg Hs].
  split; [exact Hg | ]. split; [exact Hs | ].
  apply no_package_line_among_warnings.
Qed.

Lemma printed_quiet (result : ScanResult) :
  filter isGet (printed result) = [] /\ filter isSleep (printed result) = [].
Proof.
  unfold printed. destruct (negb (IsVulnerable result)); [now split | ].
  cbn [filter isGet isSleep].
  induction (Vulnerable result) as [|pkg rest IH]; [now split | exact IH].
Qed.

(** The pip loop with what it prints: nothing of it is a line of the
    report. *)
Lemma pip_loop_lines (p : Pip.PythonLookup) :
  forall pkgs acc w,
  exists dt evs,
    Pip.notInPublic p pkgs acc w
    = (acc ++ notAnswered200 w (served w) pkgs, advance w (length pkgs) dt evs)
    /\ gets evs = map (fun pkg => EvGet (Pip.url pkg)) pkgs
    /\ sleeps evs = []
    /\ filter isPackageLine evs = [].
Proof.
  induction pkgs as [|pkg rest IH]; intros acc w.
  - exists 0, []. cbn [Pip.notInPublic notAnswered200 length map]. unfold ret.
    now rewrite app_nil_r, advance_nothing.
  - cbn [Pip.notInPublic]. unfold bind. rewrite pip_run. cbv zeta.
    assert (Hone : exists evs1,
               (match net w (served w) (Pip.url pkg) with
                | HttpError err =>
                    (false,
                     advance (advance w 1 (rtt w (served w) (Pip.url pkg))
                                (PipOut.checking p pkg ++ [EvGet (Pip.url pkg)]))
                             0 0 [PipOut.failed pkg err])
                | HttpResponse code st _ =>
                    (code =? 200,
                     advance (advance w 1 (rtt w (served w) (Pip.url pkg))
                                (PipOut.checking p pkg ++ [EvGet (Pip.url pkg)]))
                             0 0 (PipOut.status p st))
                end)
               = (is200 (net w (served w) (Pip.url pkg)),
                  advance w 1 (rtt w (served w) (Pip.url pkg)) evs1)
               /\ gets evs1 = [EvGet (Pip.url pkg)]
               /\ sleeps evs1 = []
               /\ filter isPackageLine evs1 = []).
    { destruct (net w (served w) (Pip.url pkg)) as [err|code st body];
        rewrite advance_advance; eexists;
        (split; [apply f_equal, advance_ext; [reflexivity | lia | reflexivity] | ]);
        rewrite !gets_app, !sleeps_app, !filter_app,
          ?pip_gets_checking, ?pip_sleeps_checking,
          ?pip_gets_status, ?pip_sleeps_status;
        unfold PipOut.checking, PipOut.status, PipOut.failed;
        destruct (Pip.Verbose p); now repeat split. }
    destruct Hone as (evs1 & -> & Hg1 & Hs1 & Hl1).
    destruct (IH (if negb (is200 (net w (served w) (Pip.url pkg)))
                  then acc ++ [pkg] else acc)
                 (advance w 1 (rtt w (served w) (Pip.url pkg)) evs1))
      as (dt & evs & -> & Hg & Hs & Hl).
    rewrite advance_advance, notAnswered200_advance, served_advance.
    eexists _, (evs1 ++ evs). split; [ | split; [ | split]].
    + cbn [notAnswered200 length]. f_equal.
      * destruct (is200 (net w (served w) (Pip.url pkg))); cbn [negb app];
          [reflexivity | now rewrite <- app_assoc].
      * apply advance_ext; [lia | reflexivity | reflexivity].
    + rewrite gets_app, Hg1, Hg. reflexivity.
    + rewrite sleeps_app, Hs1, Hs. reflexivity.
    + rewrite filter_app, Hl1, Hl. reflexivity.
Qed.

(** X24.  The scan of a requirements file, end to end.  When the file
    can be read, [scan -l pip] asks PyPI once for every identifier the
    parser reads from it, in order, and reports, as the vulnerable list
    of the result and line by line in the log, the identifiers whose
    request was not answered with status 200 and that no safe space
    matches.  The safe list stays empty, the total is the number of
    reported packages, and the command never waits. *)
Theorem pip_file_scan_reports_the_missing_packages
        (cfg : Cmd.Config)
        (GetResolverForLanguageWithVerbose : string -> bool -> error + Resolver)
        (Match : string -> string -> error + bool)
        (filename : string) (safeSpaces : list string) (w : World)
        (raw : string) (lookup : Pip.PythonLookup) :
  GetResolverForLanguageWithVerbose "pip" (Cmd.Verbose cfg)
  = inr (mkResolver Pip.resolver lookup) ->
  lookupFile filename (files w) = Some raw ->
  let pkgs := Pip.readLines raw (Pip.Packages lookup) in
  let reported :=
    filter (fun pkg => negb (matchesSafe Match safeSpaces pkg))
           (notAnswered200 w (served w) pkgs) in
  let run := Cmd.runScanCommand cfg GetResolverForLanguageWithVerbose Match
                                filename "pip" safeSpaces w in
  exists res,
    fst run = inr res
    /\ Vulnerable res = reported
    /\ Safe res = []
    /\ Total res = Z.of_nat (length reported)
    /\ gets (since w (snd run)) = map (fun pkg => EvGet (Pip.url pkg)) pkgs
    /\ sleeps (since w (snd run)) = []
    /\ filter isPackageLine (since w (snd run))
       = map (fun pkg => EvLog WARN " [!] %s" [AStr pkg]) reported.
Proof.
  intros Hfactory Hfile. cbv zeta.
  unfold Cmd.runScanCommand, bind.
  rewrite !log_advance, !advance_advance.
  unfold NewScanResult, bind, time_Now, ret.
  rewrite Hfactory.
  unfold readPackages, bind, ret.
  cbn [methods self ReadPackagesFromFile Pip.resolver].
  unfold Pip.ReadPackagesFromFile, bind, ReadFile, ret.
  cbn [files advance]. rewrite Hfile. cbn [fst snd].
  unfold notInPublic.
  cbn [methods self PackagesNotInPublic Pip.resolver].
  unfold Pip.PackagesNotInPublic. cbn [Pip.Packages Pip.setPackages].
  match goal with
  | |- context [Pip.notInPublic ?p ?pkgs [] ?w0] =>
      destruct (pip_loop_lines p pkgs [] w0) as (dt & evs & E & Hg & Hs & Hel)
  end.
  rewrite E. clear E. cbn [app].
  rewrite notAnswered200_advance, served_advance. cbn [Nat.add].
  unfold Cmd.removeSafe. rewrite removeSafe_run.
  unfold Finalize, bind, time_Now, ret.
  rewrite printResult_advance, !advance_advance. cbn [fst snd].
  eexists. split; [reflexivity | ].
  cbn [Vulnerable Safe Total].
  rewrite Safe_AddVulnerable, Vulnerable_AddVulnerable. cbn [Vulnerable Safe app].
  split; [reflexivity | ]. split; [reflexivity | ].
  split; [cbn [length]; lia | ].
  rewrite since_advance.
  match goal with
  | |- context [printed ?r] =>
      destruct (printed_quiet r) as [Hpg Hps];
      pose proof (package_lines_printed r) as Hpl;
      cbn [Vulnerable] in Hpl;
      cbn [Vulnerable app] in Hpl
  end.
  match goal with
  | |- context [(evs ++ ?ws) ++ _] =>
      destruct (removeSafe_warnings_quiet Match safeSpaces
                  (notAnswered200 w (served w)
                     (Pip.readLines raw (Pip.Packages lookup))))
        as (Hwg & Hws & Hwl)
  end.
  cbv zeta in Hwg, Hws, Hwl.
  unfold gets, sleeps in *. cbn [filter isGet isSleep isPackageLine].
  rewrite !filter_app, Hg, Hs, Hpg, Hps, Hpl, Hwg, Hws, Hwl, Hel, !app_nil_r.
  now repeat split.
Qed.

(** The requirements file of the example, scanned without safe spaces:
    acme-internal is reported, requests is not. *)
Lemma pip_file_scan_reports_the_missing_packages_witness :
  exists res,
    fst (Cmd.runScanCommand ExamplesScan.cfg Examples.factory Filepath.Match
                            "requirements.txt" "pip" [] ExamplesScan.fileWorld)
    = inr res
    /\ Vulnerable res = ["acme-internal"].
Proof.
  destruct (@pip_file_scan_reports_the_missing_packages
              ExamplesScan.cfg Examples.factory Filepath.Match
              "requirements.txt" [] ExamplesScan.fileWorld
              ExamplesScan.requirements (Pip.NewPythonLookup false)
              eq_refl eq_refl) as (res & Hres & Hvulnerable & _).
  exists res. split; [exact Hres | ].
  rewrite Hvulnerable. vm_compute. reflexivity.
Defined.

Lemma branchesLoop_pages
      (Repositories_ListBranches
       : string -> string -> Z -> Z -> error + GitHubRepo.Page string)
      (owner repo : string) (failure : option error)
      (resps : list (GitHubRepo.Page string)) :
  forall fuel branches page,
  pagesFrom (fun page => Repositories_ListBranches owner repo page 100) page resps
            failure ->
  (length resps < fuel)%nat ->
  GitHubRepo.branchesLoop Repositories_ListBranches fuel owner repo branches page
  = Some match failure with
         | Some err => inl err
         | None => inr (branches ++ flat_map GitHubRepo.items resps)
         end.
Proof.
  induction resps as [|resp rest IH]; intros fuel branches page Hpages Hfuel;
    (destruct fuel as [|fuel]; [cbn [length] in Hfuel; lia | ]);
    cbn [GitHubRepo.branchesLoop]; cbn [pagesFrom] in Hpages.
  - destruct failure as [err|]; [now rewrite Hpages | contradiction].
  - destruct Hpages as [-> Hnext]. cbv zeta.
    destruct rest as [|resp' rest'].
    + destruct failure as [err|].
      * destruct Hnext as [Hnext Hrest].
        apply Z.eqb_neq in Hnext. rewrite Hnext.
        rewrite (IH fuel _ _ Hrest) by (cbn [length] in *; lia). reflexivity.
      * rewrite Hnext. cbn [Z.eqb flat_map]. now rewrite app_nil_r.
    + assert (Hn : GitHubRepo.NextPage resp <> 0
                   /\ pagesFrom (fun page => Repositories_ListBranches owner repo page 100)
                                (GitHubRepo.NextPage resp) (resp' :: rest') failure)
        by (destruct failure; exact Hnext).
      destruct Hn as [Hne Hrest]. apply Z.eqb_neq in Hne. rewrite Hne.
      rewrite (IH fuel _ _ Hrest) by (cbn [length] in *; lia).
      destruct failure; [reflexivity | ].
      cbn [flat_map]. now rewrite <- app_assoc.
Qed.

(** X25.  [getBranches] walks the whole listing: when the pages follow
    one another until one names no next page, it returns the branches of
    all pages in order, not those of the first page only; when a request
    fails on the way it returns that error and none of the branches read
    before.  As many rounds as there are requests are enough, and more
    change nothing. *)
Theorem branches_of_all_pages
        (Repositories_ListBranches
         : string -> string -> Z -> Z -> error + GitHubRepo.Page string)
        (owner repo : string) (resps : list (GitHubRepo.Page string))
        (failure : option error) (fuel : nat) :
  pagesFrom (fun page => Repositories_ListBranches owner repo page 100) 1 resps
            failure ->
  (length resps < fuel)%nat ->
  GitHubRepo.getBranches Repositories_ListBranches fuel owner repo
  = Some match failure with
         | Some err => inl err
         | None => inr (flat_map GitHubRepo.items resps)
         end.
Proof.
  intros Hpages Hfuel. unfold GitHubRepo.getBranches.
  rewrite (@branchesLoop_pages Repositories_ListBranches owner repo failure
                               resps fuel [] 1 Hpages Hfuel).
  reflexivity.
Qed.

(** The repository of the example: three branches from two pages. *)
Lemma branches_of_all_pages_witness :
  GitHubRepo.getBranches ExamplesBranches.listBranches 3 "acme" "shop"
  = Some (inr ["main"; "dev"; "release"]).
Proof.
  refine (@branches_of_all_pages ExamplesBranches.listBranches "acme" "shop"
            [GitHubRepo.mkPage ["main"; "dev"] 2; GitHubRepo.mkPage ["release"] 0]
            None 3 _ _).
  - cbn. repeat split. discriminate.
  - cbn [length]. lia.
Defined.

(* ===================================================================== *)
(** * How much a resolver asks and waits                                 *)
(* ===================================================================== *)

Lemma composer_loop_bound (lowerCase : Z -> Z) (c : Composer.ComposerLookup) :
  forall pkgs acc w,
  exists res g s dt evs,
    Composer.notInPublic lowerCase c pkgs acc w = (acc ++ res, advance w g dt evs)
    /\ length (gets evs) = g
    /\ sleeps evs = repeat (EvSleep 10) s
    /\ (s <= g <= 4 * length pkgs)%nat
    /\ (length res <= length pkgs)%nat.
Proof.
  induction pkgs as [|pkg rest IH]; intros acc w.
  - exists [], 0%nat, 0%nat, 0, []. cbn [Composer.notInPublic]. unfold ret.
    rewrite app_nil_r, advance_nothing. repeat split; cbn [length]; lia.
  - cbn [Composer.notInPublic].
    destruct (Composer.localReference lowerCase (Composer.Version pkg)
              || Composer.urlReference lowerCase (Composer.Version pkg)
              || Composer.gitReference lowerCase (Composer.Version pkg)).
    + destruct (IH acc w) as (res & g & s & dt & evs & E & Hg & Hs & Hb & Hr).
      exists res, g, s, dt, evs. repeat split; try assumption; cbn [length]; lia.
    + unfold bind.
      destruct (ComposerRun.composer_run_summary (k := retriesLeft 0) c
                  (Composer.Name pkg) 0 w (le_n _))
        as (b & g1 & s1 & dt1 & evs1 & E1 & Hg1 & Hs1 & Hb1).
      rewrite E1.
      destruct (IH (if negb b then acc ++ [Composer.Name pkg] else acc)
                   (advance w g1 dt1 evs1))
        as (res & g & s & dt & evs & E & Hg & Hs & Hb & Hr).
      rewrite E, advance_advance.
      exists ((if negb b then [Composer.Name pkg] else []) ++ res),
        (g + g1)%nat, (s1 + s)%nat, (dt1 + dt), (evs1 ++ evs).
      split; [f_equal; destruct b; cbn [negb app];
              [reflexivity | now rewrite <- app_assoc] | ].
      split; [rewrite gets_app, length_app, Hg1, repeat_length; lia | ].
      split; [rewrite sleeps_app, Hs1, Hs, repeat_app; reflexivity | ].
      unfold retriesLeft in Hb1.
      split; [cbn [length]; lia | ].
      rewrite length_app. destruct b; cbn [negb length]; lia.
Qed.

Lemma mvn_loop_bound (NotAvailable : string -> bool) (n : Mvn.MVNLookup) :
  forall pkgs acc w,
  exists res g s dt evs,
    Mvn.notInPublic NotAvailable n pkgs acc w = (acc ++ res, advance w g dt evs)
    /\ length (gets evs) = g
    /\ sleeps evs = repeat (EvSleep 10) s
    /\ (s <= g <= 4 * length pkgs)%nat
    /\ (length res <= length pkgs)%nat.
Proof.
  induction pkgs as [|pkg rest IH]; intros acc w.
  - exists [], 0%nat, 0%nat, 0, []. cbn [Mvn.notInPublic]. unfold ret.
    rewrite app_nil_r, advance_nothing. repeat split; cbn [length]; lia.
  - cbn [Mvn.notInPublic]. unfold bind.
    destruct (MvnRun.mvn_run_summary NotAvailable (k := retriesLeft 0) n pkg 0 w
                (le_n _))
      as (b & g1 & s1 & dt1 & evs1 & E1 & Hg1 & Hs1 & Hb1 & _).
    rewrite E1.
    match goal with
    | |- context [Mvn.notInPublic NotAvailable n rest ?acc' _] =>
        destruct (IH acc' (advance w g1 dt1 evs1))
          as (res & g & s & dt & evs & E & Hg & Hs & Hb & Hr)
    end.
    rewrite E, advance_advance.
    exists ((if negb b then [(Mvn.Group pkg ++ "/" ++ Mvn.Artifact pkg)%string]
             else []) ++ res),
      (g + g1)%nat, (s1 + s)%nat, (dt1 + dt), (evs1 ++ evs).
    split; [f_equal; destruct b; cbn [negb app];
            [reflexivity | now rewrite <- app_assoc] | ].
    split; [rewrite gets_app, length_app, Hg1, repeat_length; lia | ].
    split; [rewrite sleeps_app, Hs1, Hs, repeat_app; reflexivity | ].
    unfold retriesLeft in Hb1.
    split; [cbn [length]; lia | ].
    rewrite length_app. destruct b; cbn [negb length]; lia.
Qed.

(** X26.  What a composer or maven lookup costs at most: at most four
    requests for each package, at most one wait for each request, every
    wait ten seconds long; and it reports at most as many packages as it
    holds.  A registry that throttles cannot keep [PackagesNotInPublic]
    waiting longer than forty seconds for each package. *)
Theorem lookups_ask_and_wait_within_bounds
        (lowerCase : Z -> Z) (NotAvailable : string -> bool) (w : World) :
  (forall c,
      let r := Composer.PackagesNotInPublic lowerCase c w in
      (length (gets (since w (snd r))) <= 4 * length (Composer.Packages c))%nat
      /\ (length (sleeps (since w (snd r))) <= length (gets (since w (snd r))))%nat
      /\ Forall (eq (EvSleep 10)) (sleeps (since w (snd r)))
      /\ served (snd r) = (length (gets (since w (snd r))) + served w)%nat
      /\ (length (fst r) <= length (Composer.Packages c))%nat)
  /\ (forall m,
      let r := Mvn.PackagesNotInPublic NotAvailable m w in
      (length (gets (since w (snd r))) <= 4 * length (Mvn.Packages m))%nat
      /\ (length (sleeps (since w (snd r))) <= length (gets (since w (snd r))))%nat
      /\ Forall (eq (EvSleep 10)) (sleeps (since w (snd r)))
      /\ served (snd r) = (length (gets (since w (snd r))) + served w)%nat
      /\ (length (fst r) <= length (Mvn.Packages m))%nat).
Proof.
  split.
  - intros c. cbv zeta. unfold Composer.PackagesNotInPublic.
    destruct (composer_loop_bound lowerCase c (Composer.Packages c) [] w)
      as (res & g & s & dt & evs & -> & Hg & Hs & Hb & Hr).
    cbn [fst snd app]. rewrite since_advance, served_advance, Hg, Hs, repeat_length.
    repeat split; try lia; try assumption.
    apply Forall_forall. intros e He. apply repeat_spec in He. now subst.
  - intros m. cbv zeta. unfold Mvn.PackagesNotInPublic.
    destruct (mvn_loop_bound NotAvailable m (Mvn.Packages m) [] w)
      as (res & g & s & dt & evs & -> & Hg & Hs & Hb & Hr).
    cbn [fst snd app]. rewrite since_advance, served_advance, Hg, Hs, repeat_length.
    repeat split; try lia; try assumption.
    apply Forall_forall. intros e He. apply repeat_spec in He. now subst.
Qed.

(* ===================================================================== *)
(** * Where a result comes from                                          *)
(* ===================================================================== *)

Lemma AddVulnerable_keeps (pkgs : list string) (sr : ScanResult) :
  Target (fold_left AddVulnerable pkgs sr) = Target sr
  /\ ScanType (fold_left AddVulnerable pkgs sr) = ScanType sr
  /\ Language (fold_left AddVulnerable pkgs sr) = Language sr.
Proof.
  revert sr. induction pkgs as [|pkg rest IH]; intros sr; cbn [fold_left];
    [now repeat split | ].
  destruct (IH (AddVulnerable sr pkg)) as (-> & -> & ->). now repeat split.
Qed.

(** The result of a file of a GitHub repository names the file. *)
Lemma github_scan_attribution verbose factory Match Base owner repo file
      safeSpaces w res w' :
  GitHub.scanDependencyFile verbose factory Match Base owner repo file safeSpaces w
  = (inr res, w') ->
  Target res = (owner ++ "/" ++ repo ++ ":" ++ GitHub.Path file)%string
  /\ ScanType res = "github"
  /\ Language res = GitHub.getLanguageFromFile Base (GitHub.Path file)
  /\ Language res <> "".
Proof.
  intros H.
  cbv beta iota delta [GitHub.scanDependencyFile GitHub.removeSafe NewScanResult
                       Finalize bind time_Now ret] in H.
  run_through H.
  injection H as <- <-. cbn [Target ScanType Language SetMetadata].
  match goal with
  | |- context [fold_left AddVulnerable ?pkgs ?sr] =>
      destruct (AddVulnerable_keeps pkgs sr) as (-> & -> & ->)
  end.
  cbn [Target ScanType Language]. repeat split.
  now apply String.eqb_neq.
Qed.

(** The result of a path of a web host names the path. *)
Lemma web_scan_attribution {URL : Type} {lib : Web.UrlLib URL} factory Join Base
      (u : URL) filePath languages w res w' :
  Web.scanDependencyFile factory Join Base u filePath languages w = (inr res, w') ->
  Target res = (Web.Host u ++ ":" ++ filePath)%string
  /\ ScanType res = "web"
  /\ Language res = Web.getLanguageFromFile Base filePath
  /\ Language res <> "".
Proof.
  intros H.
  cbv beta iota delta [Web.scanDependencyFile NewScanResult
                       Finalize bind time_Now ret] in H.
  run_through H.
  injection H as <- <-. cbn [Target ScanType Language SetMetadata].
  match goal with
  | |- context [fold_left AddVulnerable ?pkgs ?sr] =>
      destruct (AddVulnerable_keeps pkgs sr) as (-> & -> & ->)
  end.
  cbn [Target ScanType Language]. repeat split.
  now apply String.eqb_neq.
Qed.

(** A file that [findDependencyFiles] returns. *)
Lemma found_file_is_requested (Base : string -> string)
      (entries : list GitHub.TreeEntry) (languages : list string)
      (entry : GitHub.TreeEntry) :
  In entry (GitHubRepo.findDependencyFiles Base entries languages) ->
  In entry entries /\ GitHub.EntryType entry = "blob"
  /\ In (GitHub.getLanguageFromFile Base (GitHub.Path entry)) languages.
Proof.
  unfold GitHubRepo.findDependencyFiles. cbv zeta.
  rewrite collected_patterns, found_files. cbn [app].
  rewrite filter_In, andb_true_iff, existsb_flat_map, existsb_exists.
  intros (Hin & Hblob & lang & Hlang & Hpattern).
  split; [assumption | ]. split; [now apply String.eqb_eq | ].
  pose proof (patterns_agree_with_languages (Base (GitHub.Path entry)) lang) as Ht.
  destruct (GitHubRepo.filePatterns lang) as [patterns|]; [ | discriminate].
  rewrite Hpattern in Ht. symmetry in Ht.
  apply andb_true_iff in Ht as [_ Ht]. apply String.eqb_eq in Ht.
  unfold GitHub.getLanguageFromFile. cbv zeta. now rewrite Ht.
Qed.

Section BranchResults.

Variable Verbose : bool.
Variable GetResolverForLanguageWithVerbose : string -> bool -> error + Resolver.
Variable Match : string -> string -> error + bool.
Variable Base : string -> string.
Variable Git_GetTree : string -> string -> string -> error + list GitHub.TreeEntry.

Lemma scanFiles_results (owner repo : string) (safeSpaces : list string)
      (files : list GitHub.TreeEntry) :
  forall results w,
  exists more,
    fst (GitHubRepo.scanFiles Verbose GetResolverForLanguageWithVerbose Match Base
                              owner repo files safeSpaces results w)
    = results ++ more
    /\ (length more <= length files)%nat
    /\ Forall (fun res =>
                 exists file,
                   In file files
                   /\ Target res
                      = (owner ++ "/" ++ repo ++ ":" ++ GitHub.Path file)%string
                   /\ ScanType res = "github"
                   /\ Language res = GitHub.getLanguageFromFile Base (GitHub.Path file))
              more.
Proof.
  induction files as [|file rest IH]; intros results w; cbn [GitHubRepo.scanFiles].
  - exists []. unfold ret. cbn [fst length]. rewrite app_nil_r.
    repeat split; [lia | constructor].
  - unfold bind.
    destruct (GitHub.scanDependencyFile Verbose GetResolverForLanguageWithVerbose
                Match Base owner repo file safeSpaces w) as [[err|result] w1] eqn:E.
    + rewrite log_advance.
      destruct (IH results (advance w1 0 0
                              [EvLog WARN "Failed to scan dependency file %s: %v"
                                     [AStr (GitHub.Path file); AErr err]]))
        as (more & -> & Hlen & Hall).
      exists more. split; [reflexivity | ]. split; [cbn [length]; lia | ].
      eapply Forall_impl; [ | exact Hall].
      intros res (f & Hf & Hrest). exists f. split; [now right | exact Hrest].
    + destruct (IH (results ++ [result]) w1) as (more & -> & Hlen & Hall).
      exists (result :: more). rewrite <- app_assoc.
      split; [reflexivity | ]. split; [cbn [length]; lia | ].
      constructor.
      * destruct (github_scan_attribution _ _ _ _ _ _ _ _ _ E) as (Ht & Hs & Hl & _).
        exists file. split; [now left | now repeat split].
      * eapply Forall_impl; [ | exact Hall].
        intros res (f & Hf & Hrest). exists f. split; [now right | exact Hrest].
Qed.

(** X27.  Every result of the scan of a branch comes from an entry of
    the branch's tree that is a blob: it names that file as
    owner/repo:path, has scan type github, and its language is the one
    [getLanguageFromFile] gives for the path, which is one of the
    languages asked for.  There are never more results than entries. *)
Theorem branch_results_come_from_requested_files
        (owner repo branch : string) (languages safeSpaces : list string)
        (w : World) (results : list ScanResult) :
  fst (GitHubRepo.scanBranch Verbose GetResolverForLanguageWithVerbose Match Base
                             Git_GetTree owner repo branch languages safeSpaces w)
  = inr results ->
  exists entries,
    Git_GetTree owner repo branch = inr entries
    /\ (length results <= length entries)%nat
    /\ Forall (fun res =>
                 exists entry,
                   In entry entries
                   /\ GitHub.EntryType entry = "blob"
                   /\ Target res
                      = (owner ++ "/" ++ repo ++ ":" ++ GitHub.Path entry)%string
                   /\ ScanType res = "github"
                   /\ Language res = GitHub.getLanguageFromFile Base (GitHub.Path entry)
                   /\ In (Language res) languages)
              results.
Proof.
  unfold GitHubRepo.scanBranch.
  destruct (Git_GetTree owner repo branch) as [err|entries]; [discriminate | ].
  cbv zeta. unfold bind. rewrite log_advance.
  match goal with
  | |- context [GitHubRepo.scanFiles _ _ _ _ owner repo ?files safeSpaces [] ?w0] =>
      destruct (scanFiles_results owner repo safeSpaces files [] w0)
        as (more & E & Hlen & Hall);
      destruct (GitHubRepo.scanFiles Verbose GetResolverForLanguageWithVerbose
                                     Match Base owner repo files safeSpaces [] w0)
        as [rs w1]
  end.
  cbn [fst app] in E. subst rs. unfold ret. cbn [fst]. intros [= <-].
  exists entries. split; [reflexivity | ]. split.
  - etransitivity; [exact Hlen | ].
    unfold GitHubRepo.findDependencyFiles. cbv zeta.
    rewrite collected_patterns, found_files. cbn [app]. apply filter_length_le.
  - eapply Forall_impl; [ | exact Hall].
    intros res (file & Hfile & Ht & Hs & Hl).
    apply found_file_is_requested in Hfile as (Hin & Hblob & Hlang).
    exists file. repeat split; try assumption. now rewrite Hl.
Qed.

End BranchResults.

(** The main branch of the example, asked for pip. *)
Lemma branch_results_come_from_requested_files_witness :
  match fst (GitHubRepo.scanBranch false Examples.factory Filepath.Match
               Filepath.Base ExamplesTree.getTree "acme" "shop" "main" ["pip"] []
               ExamplesScan.gitWorld) with
  | inr results =>
      Forall (fun res => ScanType res = "github" /\ In (Language res) ["pip"]) results
  | inl _ => False
  end.
Proof.
  destruct (fst (GitHubRepo.scanBranch false Examples.factory Filepath.Match
                   Filepath.Base ExamplesTree.getTree "acme" "shop" "main" ["pip"] []
                   ExamplesScan.gitWorld)) as [err|results] eqn:E;
    [vm_compute in E; discriminate E | ].
  destruct (@branch_results_come_from_requested_files
              false Examples.factory Filepath.Match Filepath.Base
              ExamplesTree.getTree "acme" "shop" "main" ["pip"] []
              ExamplesScan.gitWorld results E) as (entries & _ & _ & Hall).
  eapply Forall_impl; [ | exact Hall].
  intros res (entry & _ & _ & _ & Hs & _ & Hl). now split.
Defined.

Section WebResults.

Context {URL : Type} {lib : Web.UrlLib URL}.
Variable GetResolverForLanguage : string -> error + Resolver.
Variable Join : string -> string -> string.
Variable Base : string -> string.

Lemma fromPath_more (u : URL) (paths paths' : list string) (res : ScanResult) :
  (forall path, In path paths -> In path paths') ->
  fromPath Base u paths res -> fromPath Base u paths' res.
Proof.
  intros Hincl (path & Hin & Hrest). exists path. split; [auto | exact Hrest].
Qed.

Lemma scanPaths_results (u : URL) (languages filePaths : list string) :
  forall results w,
  exists more,
    fst (Web.scanPaths GetResolverForLanguage Join Base u languages filePaths
                       results w)
    = results ++ more
    /\ (length more <= length filePaths)%nat
    /\ Forall (fromPath Base u filePaths) more.
Proof.
  induction filePaths as [|filePath rest IH]; intros results w;
    cbn [Web.scanPaths].
  - exists []. unfold ret. cbn [fst length]. rewrite app_nil_r.
    repeat split; [lia | constructor].
  - unfold bind.
    destruct (Web.scanDependencyFile GetResolverForLanguage Join Base u filePath
                                     languages w) as [[err|result] w1] eqn:E.
    + rewrite log_advance.
      match goal with
      | |- context [Web.scanPaths _ _ _ u languages rest results ?w0] =>
          destruct (IH results w0) as (more & -> & Hlen & Hall)
      end.
      exists more. split; [reflexivity | ]. split; [cbn [length]; lia | ].
      eapply Forall_impl; [ | exact Hall].
      intros res. apply fromPath_more. intros p Hp. now right.
    + destruct (IH (results ++ [result]) w1) as (more & -> & Hlen & Hall).
      exists (result :: more). rewrite <- app_assoc.
      split; [reflexivity | ]. split; [cbn [length]; lia | ].
      constructor.
      * exists filePath. split; [now left | ].
        exact (web_scan_attribution _ _ _ _ _ _ _ E).
      * eapply Forall_impl; [ | exact Hall].
        intros res. apply fromPath_more. intros p Hp. now right.
Qed.

Lemma scanDirectoryLoop_results (u : URL) (dir : string)
      (languages filePaths : list string) :
  forall results w,
  exists more,
    fst (Web.scanDirectoryLoop GetResolverForLanguage Join Base u dir languages
                               filePaths results w)
    = results ++ more
    /\ (length more <= length filePaths)%nat
    /\ Forall (fromPath Base u (map (Join dir) filePaths)) more.
Proof.
  induction filePaths as [|filePath rest IH]; intros results w;
    cbn [Web.scanDirectoryLoop].
  - exists []. unfold ret. cbn [fst length]. rewrite app_nil_r.
    repeat split; [lia | constructor].
  - cbv zeta. unfold bind.
    destruct (Web.scanDependencyFile GetResolverForLanguage Join Base u
                                     (Join dir filePath) languages w)
      as [[err|result] w1] eqn:E.
    + destruct (IH results w1) as (more & -> & Hlen & Hall).
      exists more. split; [reflexivity | ]. split; [cbn [length]; lia | ].
      eapply Forall_impl; [ | exact Hall].
      intros res. apply fromPath_more. intros p Hp. now right.
    + destruct (IH (results ++ [result]) w1) as (more & -> & Hlen & Hall).
      exists (result :: more). rewrite <- app_assoc.
      split; [reflexivity | ]. split; [cbn [length]; lia | ].
      constructor.
      * exists (Join dir filePath). split; [now left | ].
        exact (web_scan_attribution _ _ _ _ _ _ _ E).
      * eapply Forall_impl; [ | exact Hall].
        intros res. apply fromPath_more. intros p Hp. now right.
Qed.

Lemma deepScanLoop_results (u : URL) (languages dirs : list string) :
  forall results w,
  exists more,
    fst (Web.deepScanLoop GetResolverForLanguage Join Base u languages dirs
                          results w)
    = results ++ more
    /\ (length more
        <= length dirs * length (Web.getDependencyFilePaths languages))%nat
    /\ Forall (fromPath Base u (flat_map
                             (fun dir => map (Join dir)
                                             (Web.getDependencyFilePaths languages))
                             dirs)) more.
Proof.
  induction dirs as [|dir rest IH]; intros results w; cbn [Web.deepScanLoop].
  - exists []. unfold ret. cbn [fst length]. rewrite app_nil_r.
    repeat split; [lia | constructor].
  - unfold Web.scanDirectory, bind. cbv zeta.
    destruct (scanDirectoryLoop_results u dir languages
                (Web.getDependencyFilePaths languages) [] w)
      as (found & E & Hlen1 & Hall1).
    destruct (Web.scanDirectoryLoop GetResolverForLanguage Join Base u dir languages
                (Web.getDependencyFilePaths languages) [] w) as [dirResults w1].
    cbn [fst app] in E. subst dirResults. unfold ret.
    destruct (IH (results ++ found) w1) as (more & -> & Hlen & Hall).
    exists (found ++ more). rewrite <- app_assoc.
    split; [reflexivity | ].
    split; [rewrite length_app; cbn [length Nat.mul]; lia | ].
    apply Forall_app. split.
    + eapply Forall_impl; [ | exact Hall1].
      intros res. apply fromPath_more. intros p Hp. cbn [flat_map].
      apply in_or_app. now left.
    + eapply Forall_impl; [ | exact Hall].
      intros res. apply fromPath_more. intros p Hp. cbn [flat_map].
      apply in_or_app. now right.
Qed.

(** X28.  Every result of the scan of a web target comes from one of the
    paths the scanner probes, that is a path of
    [getDependencyFilePaths] or, in a deep scan, one of these file names
    below a common directory: it names the host and the path as
    host:path, has scan type web, and its language is the one
    [getLanguageFromFile] gives for the path.  There are never more
    results than probed paths. *)
Theorem web_results_come_from_probed_paths
        (target : string) (languages : list string) (deep : bool)
        (maxDepth : Z) (w : World) (u : URL) (results : list ScanResult) :
  Web.url_Parse (normalised target) = inr u ->
  fst (Web.ScanTarget GetResolverForLanguage Join Base target languages deep
                      maxDepth w) = inr results ->
  let paths := Web.getDependencyFilePaths languages in
  let probed := paths ++ (if deep then deepPaths Join paths else []) in
  (length results <= length probed)%nat
  /\ Forall (fun res =>
               exists path,
                 In path probed
                 /\ Target res = (Web.Host u ++ ":" ++ path)%string
                 /\ ScanType res = "web"
                 /\ Language res = Web.getLanguageFromFile Base path
                 /\ Language res <> "")
            results.
Proof.
  intros Hparse. cbv zeta.
  unfold Web.ScanTarget. cbv zeta. fold (normalised target). rewrite Hparse.
  unfold bind. rewrite log_advance.
  match goal with
  | |- context [Web.scanPaths _ _ _ u languages ?paths [] ?w0] =>
      destruct (scanPaths_results u languages paths [] w0)
        as (plain & E & Hlen & Hall);
      destruct (Web.scanPaths GetResolverForLanguage Join Base u languages paths
                              [] w0) as [rs w1]
  end.
  cbn [fst app] in E. subst rs.
  destruct deep.
  - unfold Web.deepScan, bind.
    destruct (deepScanLoop_results u languages Web.commonDirs [] w1)
      as (below & E & Hlen' & Hall').
    destruct (Web.deepScanLoop GetResolverForLanguage Join Base u languages
                               Web.commonDirs [] w1) as [rs w2].
    cbn [fst app] in E. subst rs. unfold ret. cbn [fst]. intros [= <-].
    split.
    + rewrite !length_app. unfold deepPaths.
      rewrite (flat_map_constant_length
                 (fun dir => map (Join dir) (Web.getDependencyFilePaths languages))
                 Web.commonDirs
                 (c := length (Web.getDependencyFilePaths languages)))
        by (intros dir _; apply length_map).
      lia.
    + apply Forall_app. split.
      * eapply Forall_impl; [ | exact Hall].
        intros res (path & Hin & Hrest). exists path.
        split; [apply in_or_app; now left | exact Hrest].
      * eapply Forall_impl; [ | exact Hall'].
        intros res (path & Hin & Hrest). exists path.
        split; [apply in_or_app; now right | exact Hrest].
  - unfold ret. cbn [fst]. intros [= <-]. rewrite app_nil_r.
    split; [exact Hlen | exact Hall].
Qed.

End WebResults.

(** The host of the example that serves a requirements file: the one
    result names it. *)
Lemma web_results_come_from_probed_paths_witness :
  match fst (Web.ScanTarget (urlLib := Web.simpleUrlLib) Examples.factory'
               ExamplesWeb.join Filepath.Base "example.com" ["pip"] false 3
               ExamplesScan.webWorld) with
  | inr results => Forall (fun res => ScanType res = "web") results
  | inl _ => False
  end.
Proof.
  destruct (fst (Web.ScanTarget (urlLib := Web.simpleUrlLib) Examples.factory'
                   ExamplesWeb.join Filepath.Base "example.com" ["pip"] false 3
                   ExamplesScan.webWorld)) as [err|results] eqn:E;
    [vm_compute in E; discriminate E | ].
  destruct (@web_results_come_from_probed_paths
              Web.SimpleURL Web.simpleUrlLib Examples.factory' ExamplesWeb.join
              Filepath.Base "example.com" ["pip"] false 3 ExamplesScan.webWorld
              (Web.mkURL "https" "example.com" "") results eq_refl E)
    as (_ & Hall).
  eapply Forall_impl; [ | exact Hall].
  intros res (path & _ & _ & Hs & _). exact Hs.
Defined.
